(** * Lead monitoring dashboard: normalisation, proxy handlers and SLA/KPI rules

    A shallow embedding of
    - [src/app/api/proxy-leads-all/route.ts] (module [All]),
    - [src/app/api/proxy-leads/route.ts]     (module [Legacy]),
    - the data processing of [src/app/page.tsx] (module [Dashboard]) and
      of [src/app/relatorios/page.tsx]       (module [Reports]),
    followed by the properties established about them.

    Conventions of the embedding.
    - A JavaScript string is a Rocq [string]; one [ascii] stands for one
      code unit, so the strings covered are those whose code units are
      below 256 (the Latin-1 range).
    - [undefined] is [None] in an [option]; a JavaScript exception is the
      [Throw] outcome.
    - A time value (milliseconds since the epoch) is a [Z]; [NaN] is
      [None] in an [option Z]. *)

From Stdlib Require Import String Ascii List ZArith Lia Bool Permutation.
From Stdlib Require Import DecimalString.
From Stdlib Require Import NArith Sorted.
Import ListNotations.
Local Open Scope string_scope.

(* ================================================================== *)
(** ** Strings as the program uses them *)

Module Str.

(** The empty string is the only falsy string. *)
Definition isEmpty (s : string) : bool :=
  match s with EmptyString => true | String _ _ => false end.

(** [a || d] for a possibly undefined string [a] and a default [d]. *)
Definition orStr (a : option string) (d : string) : string :=
  match a with
  | Some (String c r) => String c r
  | _ => d
  end.

(** [a || b] for two strings. *)
Definition or (a b : string) : string :=
  match a with EmptyString => b | String _ _ => a end.

(** [\d] of a regular expression without the unicode flag. *)
Definition isDigit (c : ascii) : bool :=
  let n := nat_of_ascii c in (48 <=? n)%nat && (n <=? 57)%nat.

(** White space and line terminators removed by [String.prototype.trim],
    as far as they lie below 256: TAB, LF, VT, FF, CR, SP, NBSP. *)
Definition isWhiteSpace (c : ascii) : bool :=
  let n := nat_of_ascii c in
  ((9 <=? n)%nat && (n <=? 13)%nat) || (n =? 32)%nat || (n =? 160)%nat.

Fixpoint trimStart (s : string) : string :=
  match s with
  | EmptyString => EmptyString
  | String c r => if isWhiteSpace c then trimStart r else s
  end.

Fixpoint trimEnd (s : string) : string :=
  match s with
  | EmptyString => EmptyString
  | String c r =>
      match trimEnd r with
      | EmptyString => if isWhiteSpace c then EmptyString else String c EmptyString
      | String c' r' => String c (String c' r')
      end
  end.

Definition trim (s : string) : string := trimEnd (trimStart s).

(** [s.split(sep)] for a one-character separator: never the empty list. *)
Fixpoint split (sep : ascii) (s : string) : list string :=
  match s with
  | EmptyString => [EmptyString]
  | String c r =>
      if Ascii.eqb c sep then EmptyString :: split sep r
      else match split sep r with
           | h :: t => String c h :: t
           | [] => [String c EmptyString]
           end
  end.

(** A regular expression made of single-character classes, anchored at
    the start of the subject only. *)
Fixpoint matchPrefix (pat : list (ascii -> bool)) (s : string) : bool :=
  match pat with
  | [] => true
  | p :: pat' =>
      match s with
      | EmptyString => false
      | String c r => p c && matchPrefix pat' r
      end
  end.

Definition lit (a : ascii) : ascii -> bool := fun c => Ascii.eqb c a.

(** [/^\d{4}-\d{2}-\d{2}T/] *)
Definition isoAnchorRe : list (ascii -> bool) :=
  [isDigit; isDigit; isDigit; isDigit; lit "-";
   isDigit; isDigit; lit "-"; isDigit; isDigit; lit "T"]%char.

Definition isoAnchored (s : string) : bool := matchPrefix isoAnchorRe s.

Fixpoint all (p : ascii -> bool) (s : string) : bool :=
  match s with
  | EmptyString => true
  | String c r => p c && all p r
  end.

(** The last code unit of [s] is white space. *)
Fixpoint endsWithWhiteSpace (s : string) : bool :=
  match s with
  | EmptyString => false
  | String c EmptyString => isWhiteSpace c
  | String _ r => endsWithWhiteSpace r
  end.

(** [s.includes(sub)] *)
Fixpoint includes (sub s : string) : bool :=
  prefix sub s ||
  match s with
  | EmptyString => false
  | String _ r => includes sub r
  end.

(** [toLowerCase] on code units below 256: A-Z and the accented capitals
    U+00C0-U+00DE other than the multiplication sign U+00D7. *)
Definition lowerChar (c : ascii) : ascii :=
  let n := nat_of_ascii c in
  if ((65 <=? n)%nat && (n <=? 90)%nat)
     || ((192 <=? n)%nat && (n <=? 222)%nat && negb (n =? 215)%nat)
  then ascii_of_nat (n + 32) else c.

Fixpoint toLowerCase (s : string) : string :=
  match s with
  | EmptyString => EmptyString
  | String c r => String (lowerChar c) (toLowerCase r)
  end.

(** Decimal text of an integer, as a template literal prints it. *)
Definition ofZ (z : Z) : string := NilZero.string_of_int (Z.to_int z).

End Str.

(* ================================================================== *)
(** ** The Date Normalizer of proxy-leads-all *)

(** [parseDate] of [proxy-leads-all/route.ts]. *)
Definition parseDate (input : option string) : option string :=
  match input with
  | None => None
  | Some input =>
      if Str.isEmpty input then None else
      let trimmed := Str.trim input in
      if Str.isEmpty trimmed then None else
      if Str.isoAnchored trimmed then Some trimmed else
      let parts := Str.split " " trimmed in
      let datePart := Str.orStr (nth_error parts 0) "" in
      let timePart := Str.orStr (nth_error parts 1) "00:00" in
      let dmY := Str.split "/" datePart in
      match dmY with
      | [d; m; y] =>
          let hm := Str.split ":" timePart in
          let hh := nth_error hm 0 in
          let mm := nth_error hm 1 in
          Some (y ++ "-" ++ m ++ "-" ++ d ++ "T"
                  ++ Str.orStr hh "00" ++ ":" ++ Str.orStr mm "00" ++ ":00")
      | _ => None
      end
  end.

(* ================================================================== *)
(** ** JavaScript values and exceptions *)

(** The result of an expression that may throw. *)
Inductive outcome (A : Type) : Type :=
| Ok (a : A)
| Throw.
Arguments Ok {A} a.
Arguments Throw {A}.

Definition bind {A B} (m : outcome A) (k : A -> outcome B) : outcome B :=
  match m with
  | Ok a => k a
  | Throw => Throw
  end.

Notation "x <- m ;; k" := (bind m (fun x => k))
  (at level 61, m at next level, right associativity).

(** [l.map(f)] where [f] may throw; [f] also receives the position of the
    element, which selects the random number and the clock reading that
    the call would obtain. *)
Fixpoint mapFrom {A B} (f : nat -> A -> outcome B) (i : nat) (l : list A)
  : outcome (list B) :=
  match l with
  | [] => Ok []
  | x :: r => y <- f i x ;; ys <- mapFrom f (S i) r ;; Ok (y :: ys)
  end.

(** [a || b] on strings, [b] being evaluated only when [a] is empty. *)
Definition orS (a b : outcome string) : outcome string :=
  x <- a ;; if Str.isEmpty x then b else Ok x.

(** [a || b] on values of type [string | null]. *)
Definition orN (a b : outcome (option string)) : outcome (option string) :=
  x <- a ;;
  match x with
  | Some (String _ _) => Ok x
  | _ => b
  end.

(** [a || d] where [a : string | null] and [d] is a string. *)
Definition orD (a : outcome (option string)) (d : string) : outcome string :=
  x <- a ;; Ok (Str.orStr x d).

Module Js.
Section Values.

(** The numbers of the host (IEEE doubles), kept abstract. *)
Variable number : Type.
(** [numFalsy n]: [n] is [0], [-0] or [NaN]. *)
Variable numFalsy : number -> bool.

(** What [JSON.parse] produces.  An object is the list of its own
    properties; a key is looked up from the head of the list. *)
#[warnings="-register-all"] Inductive value : Type :=
| VNull
| VBool (b : bool)
| VNum (n : number)
| VStr (s : string)
| VArr (items : list value)
| VObj (fields : list (string * value)).

Fixpoint assoc (key : string) (fields : list (string * value)) : option value :=
match fields with
| [] => None
| (k, v) :: r => if String.eqb k key then Some v else assoc key r
end.

(** [v[key]] for a [v] other than [null], [None] being [undefined].
  The keys the program reads are none of the built-in property names
  ([length], indices, prototype methods), so only objects answer. *)
Definition member (v : value) (key : string) : option value :=
match v with
| VObj fields => assoc key fields
| _ => None
end.

(** [v[key]]: reading a property of [null] throws a [TypeError]. *)
Definition getProp (v : value) (key : string) : outcome (option value) :=
match v with
| VNull => Throw
| _ => Ok (member v key)
end.

Definition truthy (v : value) : bool :=
match v with
| VNull => false
| VBool b => b
| VNum n => negb (numFalsy n)
| VStr s => negb (Str.isEmpty s)
| VArr _ | VObj _ => true
end.

(** Truthiness of a possibly [undefined] value. *)
Definition truthyU (v : option value) : bool :=
match v with
| Some v => truthy v
| None => false
end.

Definition isArray (v : option value) : bool :=
match v with
| Some (VArr _) => true
| _ => false
end.

(** The elements of an array, nothing for anything else. *)
Definition elements (v : option value) : list value :=
match v with
| Some (VArr l) => l
| _ => []
end.

End Values.
End Js.

Arguments Js.VNull {number}.
Arguments Js.VBool {number} b.
Arguments Js.VStr {number} s.
Arguments Js.VNum {number} n.
Arguments Js.VArr {number} items.
Arguments Js.VObj {number} fields.
Arguments Js.assoc {number} key fields.
Arguments Js.member {number} v key.
Arguments Js.getProp {number} v key.
Arguments Js.truthy {number} numFalsy v.
Arguments Js.truthyU {number} numFalsy v.
Arguments Js.isArray {number} v.
Arguments Js.elements {number} v.

(* ================================================================== *)
(** ** What the upstream CRM answers *)

Module Http.
Section Http.
Variable number : Type.

(** The ways one [fetch(url)] followed by [res.json()] goes wrong. *)
Inductive failure : Type :=
| FetchThrows                    (* fetch rejects *)
| NotOk (status : Z)             (* res.ok is false *)
| BadBody.                       (* res.json() rejects *)

(** The fate of one upstream call. *)
Inductive reply : Type :=
| Failed (f : failure)
| Json (data : Js.value number). (* a parsed body *)

(** The upstream, as a function of the URL requested. *)
Definition upstream : Type := string -> reply.

Definition failed (r : reply) : bool :=
  match r with
  | Failed _ => true
  | Json _ => false
  end.

(** An upstream none of whose calls succeeds. *)
Definition allFailing (f : string -> failure) : upstream :=
  fun url => Failed (f url).

(** The upstream that answers an empty array wherever [up] fails. *)
Definition emptied (up : upstream) : upstream :=
  fun url => if failed (up url) then Json (Js.VArr []) else up url.

(** What a route handler returns through [NextResponse.json]. *)
Inductive payload (L : Type) : Type :=
| ErrorBody (error : string)
| LeadsBody (leads : list L).

Record response (L : Type) : Type :=
{ httpStatus : Z; body : payload L }.

End Http.
End Http.

Arguments Http.Failed {number} f.
Arguments Http.Json {number} data.
Arguments Http.failed {number} r.
Arguments Http.allFailing {number} f url.
Arguments Http.emptied {number} up url.
Arguments Http.ErrorBody {L} error.
Arguments Http.LeadsBody {L} leads.
Arguments Http.Build_response {L} httpStatus body.
Arguments Http.httpStatus {L} r.
Arguments Http.body {L} r.

Definition BASE_URL : string := "https://api.imoview.com.br".

(** [process.env.IMOVIEW_API_KEY] is [undefined] or a string; [!API_KEY]
    holds for [undefined] and for the empty string. *)
Definition keyMissing (API_KEY : option string) : bool :=
  match API_KEY with
  | Some (String _ _) => false
  | _ => true
  end.

(** "API Key não configurada no servidor (IMOVIEW_API_KEY)" *)
Definition keyError : string :=
  "API Key n" ++ String (ascii_of_nat 227) "o configurada no servidor (IMOVIEW_API_KEY)".

(** [new URLSearchParams({...}).toString()] of both routes. *)
Definition atendimentosURL (numeroRegistros : string) (finalidade : Z) : string :=
  BASE_URL ++ "/Atendimento/RetornarAtendimentos?"
    ++ "numeroPagina=1&numeroRegistros=" ++ numeroRegistros
    ++ "&finalidade=" ++ Str.ofZ finalidade ++ "&situacao=0".

(** [list.sort((a, b) => new Date(b.data_entrada).getTime()
                       - new Date(a.data_entrada).getTime())].
    With a consistent comparator the result is that of any stable sort; an
    insertion sort is taken.  When a date is invalid the comparator yields
    [NaN] and the order is implementation-defined: here [NaN] counts as
    "not greater than zero". *)
Section Sort.
Variable getTime : string -> option Z.
Variable L : Type.
Variable data_entrada : L -> string.

Definition comparator (a b : L) : option Z :=
  match getTime (data_entrada b), getTime (data_entrada a) with
  | Some tb, Some ta => Some (tb - ta)%Z
  | _, _ => None
  end.

Definition positive (c : option Z) : bool :=
  match c with
  | Some z => (0 <? z)%Z
  | None => false
  end.

Fixpoint insert (x : L) (l : list L) : list L :=
  match l with
  | [] => [x]
  | y :: r => if positive (comparator x y) then y :: insert x r else x :: y :: r
  end.

Fixpoint sortByEntradaDesc (l : list L) : list L :=
  match l with
  | [] => []
  | x :: r => insert x (sortByEntradaDesc r)
  end.
End Sort.

Arguments sortByEntradaDesc getTime {L} data_entrada l.

(* ================================================================== *)
(** ** src/app/api/proxy-leads-all/route.ts *)

Module All.
Section Route.
Variable number : Type.
Variable numFalsy : number -> bool.
Variable getTime : string -> option Z.

Local Abbreviation value := (Js.value number).

(** [string | number], the type of a lead's [id]. *)
Inductive idval : Type :=
| IdNum (n : number)
| IdStr (s : string).

Definition getStr (obj : value) (key : string) : outcome string :=
  v <- Js.getProp obj key ;;
  Ok (match v with
      | Some (Js.VStr s) => s
      | _ => ""
      end).

Definition getNumOrStr (obj : value) (key : string) : outcome (option idval) :=
  v <- Js.getProp obj key ;;
  Ok (match v with
      | Some (Js.VStr s) => Some (IdStr s)
      | Some (Js.VNum n) => Some (IdNum n)
      | _ => None
      end).

Definition candidates : list string :=
  ["lista"; "leads"; "atendimentos"; "items"; "resultado"; "data"].

(** The [for (const key of candidates)] loop of [extractList], entered
    with a truthy [obj] that is not an array. *)
Fixpoint firstArray (obj : value) (keys : list string) : list value :=
  match keys with
  | [] => []
  | key :: rest =>
      match Js.member obj key with
      | Some (Js.VArr l) => l
      | _ => firstArray obj rest
      end
  end.

Definition extractList (data : option value) : list value :=
  if negb (Js.truthyU numFalsy data) then [] else
  match data with
  | Some (Js.VArr l) => l
  | Some obj => firstArray obj candidates
  | None => []
  end.

Definition fetchAtendimentos (up : Http.upstream number) (finalidade : Z)
  : list value :=
  match up (atendimentosURL "50" finalidade) with
  | Http.Json data => extractList (Some data)
  | _ => []
  end.

Definition leadCandidates : list string :=
  [BASE_URL ++ "/Lead/RetornarLeads";
   BASE_URL ++ "/Leads/RetornarLeads";
   BASE_URL ++ "/Portal/RetornarLeads"].

(** The [for (const url of candidates)] loop of [fetchLeadsBrutos]. *)
Fixpoint firstLeads (up : Http.upstream number) (urls : list string) : list value :=
  match urls with
  | [] => []
  | url :: rest =>
      match up url with
      | Http.Json data =>
          match extractList (Some data) with
          | [] => firstLeads up rest
          | list => list
          end
      | _ => firstLeads up rest
      end
  end.

Definition fetchLeadsBrutos (up : Http.upstream number) : list value :=
  firstLeads up leadCandidates.

(** The object built by [mapAtendimento] and by [mapBruto]. *)
Record Lead : Type := {
  id : idval;
  nome : string;
  telefone : string;
  email : string;
  status : string;
  time : string;
  data_entrada : string;
  primeira_interacao : option string;
  origem : string;
  tem_atendimento : bool
}.

(** [parseDate(getStr(item, key))] *)
Definition dateOf (item : value) (key : string) : outcome (option string) :=
  s <- getStr item key ;; Ok (parseDate (Some s)).

(** [x || null] and [x || undefined] for [x : string | null]. *)
Definition orNull (x : option string) : option string :=
  match x with
  | Some (String c r) => Some (String c r)
  | _ => None
  end.

(** [rnd] is [Math.random().toString()] and [now] is
    [new Date().toISOString()], as this call would obtain them. *)
Definition mapAtendimento (rnd now : string) (item : value) : outcome Lead :=
  codigo <- getNumOrStr item "codigo" ;;
  let id := match codigo with Some i => i | None => IdStr rnd end in
  lead <- Js.getProp item "lead" ;;
  let leadObj := match lead with
                 | Some l => if Js.truthy numFalsy l then l else Js.VObj []
                 | None => Js.VObj []
                 end in
  nome <- orS (getStr leadObj "nome") (orS (getStr item "nome") (Ok "Sem Nome")) ;;
  telefone <- orS (getStr leadObj "telefone1")
                (orS (getStr leadObj "celular")
                   (orS (getStr item "telefone") (Ok ""))) ;;
  email <- orS (getStr leadObj "email") (orS (getStr item "email") (Ok "")) ;;
  status <- orS (getStr item "situacao") (Ok "Novo") ;;
  time <- orS (getStr item "unidadenome") (Ok "Geral") ;;
  entrada <- orD (orN (dateOf item "datahoraentradalead")
                      (dateOf item "data_entrada")) now ;;
  primeira <- orN (dateOf item "datahoraultimainteracao")
                  (dateOf item "primeira_interacao") ;;
  let primeira := orNull primeira in
  origem <- orS (getStr item "midia") (Ok "Site") ;;
  Ok {| id := id;
        nome := nome;
        telefone := telefone;
        email := email;
        status := status;
        time := time;
        data_entrada := entrada;
        primeira_interacao := orNull primeira;
        origem := origem;
        tem_atendimento := true |}.

Definition mapBruto (rnd now : string) (item : value) : outcome Lead :=
  id1 <- getNumOrStr item "id" ;;
  id <- match id1 with
        | Some i => Ok i
        | None =>
            id2 <- getNumOrStr item "codigo" ;;
            Ok (match id2 with Some i => i | None => IdStr rnd end)
        end ;;
  nome <- orS (getStr item "nome") (orS (getStr item "lead_nome") (Ok "Sem Nome")) ;;
  telefone <- orS (getStr item "telefone1")
                (orS (getStr item "celular")
                   (orS (getStr item "telefone")
                      (orS (getStr item "phone") (Ok "")))) ;;
  email <- orS (getStr item "email") (Ok "") ;;
  status <- orS (getStr item "status") (Ok "Novo") ;;
  time <- orS (getStr item "unidadenome") (orS (getStr item "time") (Ok "Geral")) ;;
  entrada <- orD (orN (dateOf item "data_criacao")
                      (dateOf item "datahoraentradalead")) now ;;
  origem <- orS (getStr item "origem") (Ok "Site") ;;
  Ok {| id := id;
        nome := nome;
        telefone := telefone;
        email := email;
        status := status;
        time := time;
        data_entrada := entrada;
        primeira_interacao := None;
        origem := origem;
        tem_atendimento := false |}.

(** The handler.  [rnd i] and [now i] are the random number and the clock
    reading available to the [i]-th mapped record, attendances first.
    [Throw] is an exception escaping the handler, which has no [try]
    around the mapping. *)
Definition GET (API_KEY : option string) (up : Http.upstream number)
  (rnd now : nat -> string) : outcome (Http.response Lead) :=
  if keyMissing API_KEY then
    Ok (Http.Build_response 500 (Http.ErrorBody keyError))
  else
    let atAluguel := fetchAtendimentos up 1 in
    let atVenda := fetchAtendimentos up 2 in
    let brutos := fetchLeadsBrutos up in
    atendimentos <-
      mapFrom (fun i => mapAtendimento (rnd i) (now i)) 0 (atAluguel ++ atVenda)%list ;;
    leadsBrutos <-
      mapFrom (fun i => mapBruto (rnd i) (now i))
        (length (atAluguel ++ atVenda)%list) brutos ;;
    let all := sortByEntradaDesc getTime data_entrada
                 (leadsBrutos ++ atendimentos)%list in
    Ok (Http.Build_response 200 (Http.LeadsBody all)).

(** What the client reads back from the serialised lead: [JSON.stringify]
    leaves out a property whose value is [undefined]. *)
Definition leadToJSON (l : Lead) : value :=
  Js.VObj
    ([("id", match id l with IdNum n => Js.VNum n | IdStr s => Js.VStr s end);
      ("nome", Js.VStr (nome l));
      ("telefone", Js.VStr (telefone l));
      ("email", Js.VStr (email l));
      ("status", Js.VStr (status l));
      ("time", Js.VStr (time l));
      ("data_entrada", Js.VStr (data_entrada l))]
     ++ match primeira_interacao l with
        | Some p => [("primeira_interacao", Js.VStr p)]
        | None => []
        end
     ++ [("origem", Js.VStr (origem l));
         ("tem_atendimento", Js.VBool (tem_atendimento l))])%list.

Definition bodyToJSON (b : Http.payload Lead) : value :=
  match b with
  | Http.ErrorBody e => Js.VObj [("error", Js.VStr e)]
  | Http.LeadsBody ls => Js.VObj [("leads", Js.VArr (map leadToJSON ls))]
  end.

End Route.
End All.

(* ================================================================== *)
(** ** src/app/api/proxy-leads/route.ts *)

Module Legacy.
Section Route.
Variable number : Type.
Variable numFalsy : number -> bool.
(** [Number.prototype.toString] *)
Variable numToString : number -> string.
Variable getTime : string -> option Z.

Local Abbreviation value := (Js.value number).

(** What [fetchLeads] resolves to: the parsed body, or [[]] after any
    failure. *)
Definition fetchLeads (up : Http.upstream number) (finalidade : Z) : value :=
  match up (atendimentosURL "20" finalidade) with
  | Http.Json data => data
  | _ => Js.VArr []
  end.

Definition extractList (data : option value) : list value :=
  if negb (Js.truthyU numFalsy data) then [] else
  match data with
  | Some (Js.VArr l) => l
  | Some obj =>
      match Js.member obj "lista" with
      | Some (Js.VArr l) => l
      | _ =>
      match Js.member obj "atendimentos" with
      | Some (Js.VArr l) => l
      | _ =>
      match Js.member obj "resultado" with
      | Some (Js.VArr l) => l
      | _ => []
      end end end
  | None => []
  end.

(** [${x}] in a template literal, for [x : string | undefined]. *)
Definition tpl (x : option string) : string :=
  match x with
  | Some s => s
  | None => "undefined"
  end.

(** [parseImoviewDate(dateStr)] with [dateStr : any].  Calling [split] on
    a truthy value that is not a string throws inside the [try], whose
    [catch] returns [null]. *)
Definition parseImoviewDate (dateStr : option value) : option string :=
  if negb (Js.truthyU numFalsy dateStr) then None else
  match dateStr with
  | Some (Js.VStr s) =>
      let parts := Str.split " " s in
      let datePart := nth_error parts 0 in
      let timePart := nth_error parts 1 in
      match datePart with
      | Some (String c r) =>
          let dmy := Str.split "/" (String c r) in
          let day := nth_error dmy 0 in
          let month := nth_error dmy 1 in
          let year := nth_error dmy 2 in
          let hm := match timePart with
                    | Some (String c' r') => Str.split ":" (String c' r')
                    | _ => ["00"; "00"]
                    end in
          let hour := nth_error hm 0 in
          let minute := nth_error hm 1 in
          Some (tpl year ++ "-" ++ tpl month ++ "-" ++ tpl day ++ "T"
                  ++ tpl hour ++ ":" ++ tpl minute ++ ":00")
      | _ => None
      end
  | _ => None
  end.

Fixpoint hasOwn (key : string) (fields : list (string * value)) : bool :=
  match fields with
  | [] => false
  | (k, _) :: r => String.eqb k key || hasOwn key r
  end.

(** [v.toString()] for a [v] other than [null] and [undefined].  An array
    joins the texts of its elements with commas, [null] elements giving
    the empty text.  An object whose own [toString] property hides the
    inherited method (a parsed value is never callable) throws. *)
Fixpoint toString (v : value) : outcome string :=
  match v with
  | Js.VNull => Throw
  | Js.VBool b => Ok (if b then "true" else "false")
  | Js.VNum n => Ok (numToString n)
  | Js.VStr s => Ok s
  | Js.VArr items =>
      (fix join (l : list value) : outcome string :=
         match l with
         | [] => Ok ""
         | x :: r =>
             a <- match x with Js.VNull => Ok "" | _ => toString x end ;;
             match r with
             | [] => Ok a
             | _ => b <- join r ;; Ok (a ++ "," ++ b)
             end
         end) items
  | Js.VObj fields =>
      if hasOwn "toString" fields then Throw else Ok "[object Object]"
  end.

(** [o?.[key]] *)
Definition optChain (o : option value) (key : string) : option value :=
  match o with
  | None | Some Js.VNull => None
  | Some v => Js.member v key
  end.

(** [a || b] on arbitrary values, [undefined] included. *)
Definition orV (a b : option value) : option value :=
  if Js.truthyU numFalsy a then a else b.

(** [a || d] with a string constant [d]. *)
Definition orLit (a : option value) (d : string) : value :=
  match a with
  | Some v => if Js.truthy numFalsy v then v else Js.VStr d
  | None => Js.VStr d
  end.

(** The object built for each element of [rawLeads]; the fields copied
    from an [any]-typed record keep whatever value they had. *)
Record Lead : Type := {
  id : string;
  nome : value;
  telefone : value;
  email : value;
  status : value;
  time : value;
  data_entrada : string;
  primeira_interacao : option string;   (* [null] is [None] *)
  origem : value;
  _raw : value
}.

Definition mapLead (rnd now : string) (item : value) : outcome Lead :=
  codigo <- Js.getProp item "codigo" ;;
  idText <- match codigo with
            | None | Some Js.VNull => Ok None
            | Some c => s <- toString c ;; Ok (Some s)
            end ;;
  lead <- Js.getProp item "lead" ;;
  situacao <- Js.getProp item "situacao" ;;
  unidadenome <- Js.getProp item "unidadenome" ;;
  entrada <- Js.getProp item "datahoraentradalead" ;;
  ultima <- Js.getProp item "datahoraultimainteracao" ;;
  midia <- Js.getProp item "midia" ;;
  Ok {| id := Str.orStr idText rnd;
        nome := orLit (optChain lead "nome") "Sem Nome";
        telefone := orLit (orV (optChain lead "telefone1") (optChain lead "celular")) "";
        email := orLit (optChain lead "email") "";
        status := orLit situacao "Novo";
        time := orLit unidadenome "Geral";
        data_entrada := Str.orStr (parseImoviewDate entrada) now;
        primeira_interacao := All.orNull (parseImoviewDate ultima);
        origem := orLit midia "Site";
        _raw := item |}.

(** "Falha interna ao conectar com a API" *)
Definition internalError : string := "Falha interna ao conectar com a API".

(** The handler: every exception of the second half is caught by its
    [try] and answered with status 500. *)
Definition GET (API_KEY : option string) (up : Http.upstream number)
  (rnd now : nat -> string) : Http.response Lead :=
  if keyMissing API_KEY then
    Http.Build_response 500 (Http.ErrorBody keyError)
  else
    let aluguelData := fetchLeads up 1 in
    let vendaData := fetchLeads up 2 in
    let listaAluguel := extractList (Some aluguelData) in
    let listaVenda := extractList (Some vendaData) in
    let rawLeads := (listaAluguel ++ listaVenda)%list in
    match mapFrom (fun i => mapLead (rnd i) (now i)) 0 rawLeads with
    | Ok mappedLeads =>
        Http.Build_response 200
          (Http.LeadsBody (sortByEntradaDesc getTime data_entrada mappedLeads))
    | Throw =>
        Http.Build_response 500 (Http.ErrorBody internalError)
    end.

End Route.
End Legacy.

(* ================================================================== *)
(** ** Numbers that may be [NaN] *)

Module Num.

Definition t : Type := option Z.

Definition sub (a b : t) : t :=
  match a, b with
  | Some x, Some y => Some (x - y)%Z
  | _, _ => None
  end.

(** [Math.floor(a / d)] for a positive constant [d].  The quotient of
    two integers is floored exactly; this is what the double arithmetic
    gives for differences of time values of everyday magnitude. *)
Definition floorDiv (a : t) (d : Z) : t :=
  match a with
  | Some x => Some (x / d)%Z
  | None => None
  end.

(** [a % d]: the remainder has the sign of the dividend. *)
Definition rem (a : t) (d : Z) : t :=
  match a with
  | Some x => Some (Z.rem x d)
  | None => None
  end.

(** [a >= k] and [a < k]: every comparison with [NaN] is false. *)
Definition geq (a : t) (k : Z) : bool :=
  match a with
  | Some x => (k <=? x)%Z
  | None => false
  end.

Definition lt (a : t) (k : Z) : bool :=
  match a with
  | Some x => (x <? k)%Z
  | None => false
  end.

Definition show (a : t) : string :=
  match a with
  | Some x => Str.ofZ x
  | None => "NaN"
  end.

End Num.

(* ================================================================== *)
(** ** src/app/page.tsx and src/app/relatorios/page.tsx *)

(** [a ?? b] *)
Definition orU {A} (a b : option A) : option A :=
  match a with
  | Some x => Some x
  | None => b
  end.

(** [a ?? d] with a default that is always defined. *)
Definition orElse {A} (a : option A) (d : A) : A :=
  match a with
  | Some x => x
  | None => d
  end.

(** [firstInteraction ? ... : ...] and [!l.primeira_interacao]: an
    optional string is truthy when it is present and not empty. *)
Definition present (s : option string) : bool :=
  match s with
  | Some (String _ _) => true
  | _ => false
  end.

(** "Esperando há " *)
Definition esperandoHa : string :=
  "Esperando h" ++ String (ascii_of_nat 225) " ".

(** The part that both copies of [getSLAInfo] share: [diffMinutes],
    [diffHours], [isLate] and the label, whose unit of minutes is
    ["min"] on the dashboard and ["m"] in the reports. *)
Section SLA.
Variable getTime : string -> option Z.   (* [new Date(s).getTime()] *)
Variable nowMs : Z.                      (* [new Date().getTime()] *)

Definition endTimeOf (firstInteraction : option string) : Num.t :=
  match firstInteraction with
  | Some (String c r) => getTime (String c r)
  | _ => Some nowMs
  end.

Definition diffMinutesOf (entry : string) (firstInteraction : option string) : Num.t :=
  let entryTime := getTime entry in
  let endTime := endTimeOf firstInteraction in
  let diffMs := Num.sub endTime entryTime in
  Num.floorDiv diffMs (1000 * 60).

Definition diffHoursOf (entry : string) (firstInteraction : option string) : Num.t :=
  Num.floorDiv (diffMinutesOf entry firstInteraction) 60.

Definition isLateOf (entry : string) (firstInteraction : option string) : bool :=
  Num.geq (diffHoursOf entry firstInteraction) 2.

Definition labelOf (unit : string) (entry : string) (firstInteraction : option string)
  : string :=
  let diffMinutes := diffMinutesOf entry firstInteraction in
  let diffHours := diffHoursOf entry firstInteraction in
  let prefix := if present firstInteraction then "Atendido em " else esperandoHa in
  if Num.lt diffMinutes 60 then prefix ++ Num.show diffMinutes ++ unit
  else prefix ++ Num.show diffHours ++ "h "
         ++ Num.show (Num.rem diffMinutes 60) ++ unit.
End SLA.

Module Dashboard.
Section Page.
Variable number : Type.
Variable numFalsy : number -> bool.
Variable getTime : string -> option Z.

Local Abbreviation value := (Js.value number).

(** [interface Lead] *)
Record Lead : Type := {
  id : All.idval number;
  nome : string;
  telefone : string;
  email : option string;
  status : string;
  time : option string;
  data_entrada : string;
  primeira_interacao : option string;
  origem : option string;
  tem_atendimento : option bool
}.

(** [interface RawLead] *)
Record RawLead : Type := {
  r_id : option (All.idval number);
  r_nome : option string;
  r_name : option string;
  r_telefone : option string;
  r_phone : option string;
  r_celular : option string;
  r_email : option string;
  r_status : option string;
  r_time : option string;
  r_team : option string;
  r_fila : option string;
  r_data_entrada : option string;
  r_created_at : option string;
  r_primeira_interacao : option string;
  r_first_interaction : option string;
  r_origem : option string
}.

(** A property declared [string | undefined], read from a parsed record:
    [Some None] when it is missing or [null] (which [??] treats alike),
    [None] when the record does not inhabit the declared type. *)
Definition optString (l : value) (key : string) : option (option string) :=
  match Js.member l key with
  | None | Some Js.VNull => Some None
  | Some (Js.VStr s) => Some (Some s)
  | _ => None
  end.

Definition optId (l : value) (key : string) : option (option (All.idval number)) :=
  match Js.member l key with
  | None | Some Js.VNull => Some None
  | Some (Js.VStr s) => Some (Some (All.IdStr number s))
  | Some (Js.VNum n) => Some (Some (All.IdNum number n))
  | _ => None
  end.

Definition andThen {A B} (a : option A) (k : A -> option B) : option B :=
  match a with
  | Some x => k x
  | None => None
  end.

(** The cast [rawLeads as RawLead[]], element by element: [None] for
    [null] (whose properties cannot be read) and for a record with a
    property of an undeclared type. *)
Definition asRawLead (l : value) : option RawLead :=
  match l with
  | Js.VNull => None
  | _ =>
    andThen (optId l "id") (fun id =>
    andThen (optString l "nome") (fun nome =>
    andThen (optString l "name") (fun name =>
    andThen (optString l "telefone") (fun telefone =>
    andThen (optString l "phone") (fun phone =>
    andThen (optString l "celular") (fun celular =>
    andThen (optString l "email") (fun email =>
    andThen (optString l "status") (fun status =>
    andThen (optString l "time") (fun time =>
    andThen (optString l "team") (fun team =>
    andThen (optString l "fila") (fun fila =>
    andThen (optString l "data_entrada") (fun data_entrada =>
    andThen (optString l "created_at") (fun created_at =>
    andThen (optString l "primeira_interacao") (fun primeira =>
    andThen (optString l "first_interaction") (fun first =>
    andThen (optString l "origem") (fun origem =>
    Some {| r_id := id; r_nome := nome; r_name := name;
            r_telefone := telefone; r_phone := phone; r_celular := celular;
            r_email := email; r_status := status;
            r_time := time; r_team := team; r_fila := fila;
            r_data_entrada := data_entrada; r_created_at := created_at;
            r_primeira_interacao := primeira; r_first_interaction := first;
            r_origem := origem |}))))))))))))))))
  end.

(** [(l as any).tem_atendimento === true] *)
Definition temAtendimento (l : value) : bool :=
  match Js.member l "tem_atendimento" with
  | Some (Js.VBool true) => true
  | _ => false
  end.

(** The arrow function mapped over [rawLeads] in [fetchLeadsAll]. *)
Definition normalizeAll (rnd now : string) (l : RawLead) (tem : bool) : Lead :=
  {| id := orElse (r_id l) (All.IdStr number rnd);
     nome := orElse (orU (r_nome l) (r_name l)) "Sem Nome";
     telefone := orElse (orU (r_telefone l) (orU (r_phone l) (r_celular l))) "";
     email := Some (orElse (r_email l) "");
     status := orElse (r_status l) "Novo";
     time := Some (orElse (orU (r_time l) (orU (r_team l) (r_fila l))) "Geral");
     data_entrada := orElse (orU (r_data_entrada l) (r_created_at l)) now;
     primeira_interacao := orU (r_primeira_interacao l) (orU (r_first_interaction l) None);
     origem := Some (orElse (r_origem l) "Site");
     tem_atendimento := Some tem |}.

(** One element of the body of [/api/proxy-leads-all] as the dashboard
    takes it in. *)
Definition receiveAll (rnd now : string) (l : value) : option Lead :=
  andThen (asRawLead l) (fun raw => Some (normalizeAll rnd now raw (temAtendimento l))).

(** [Array.isArray(data) ? data : (data.leads || data.data || [])], as
    the list that [map] then runs over: reading [data.leads] of [null]
    throws, and so does calling [map] on what is not an array. *)
Definition rawLeadsOf (data : value) : outcome (list value) :=
  match data with
  | Js.VArr l => Ok l
  | Js.VNull => Throw
  | _ =>
      let leads := Js.member data "leads" in
      let chosen := if Js.truthyU numFalsy leads then leads
                    else if Js.truthyU numFalsy (Js.member data "data")
                         then Js.member data "data"
                         else Some (Js.VArr []) in
      match chosen with
      | Some (Js.VArr l) => Ok l
      | _ => Throw
      end
  end.

(** [filteredLeads] *)
Definition filteredLeads (selectedTeam : string) (currentLeads : list Lead) : list Lead :=
  if String.eqb selectedTeam "Todos" then currentLeads
  else filter (fun l => match time l with
                        | Some t => String.eqb t selectedTeam
                        | None => false
                        end) currentLeads.

Definition isAgendamento (l : Lead) : bool :=
  Str.includes "visita" (Str.toLowerCase (status l)).

Definition isAtendimento (l : Lead) : bool :=
  existsb (String.eqb (Str.toLowerCase (status l)))
    ["em atendimento"; "contato feito"].

(** [l => !l.primeira_interacao] *)
Definition isPendente (l : Lead) : bool := negb (present (primeira_interacao l)).

(** The [kpis] memo, without [conversao], a percentage printed by
    [toFixed] from a floating-point quotient. *)
Record KPI : Type := {
  totalLeads : nat;
  agendamentos : nat;
  atendimento : nat;
  pendentes : nat
}.

Definition kpis (filteredLeads : list Lead) : KPI :=
  {| totalLeads := length filteredLeads;
     agendamentos := length (filter isAgendamento filteredLeads);
     atendimento := length (filter isAtendimento filteredLeads);
     pendentes := length (filter isPendente filteredLeads) |}.

(** The rows of the "Leads Pendentes" table. *)
Definition pendingRows (filteredLeads : list Lead) : list Lead :=
  filter isPendente filteredLeads.

Record SLAInfo : Type := {
  isLate : bool;
  label : string;
  slaStatus : string  (* the property [status] *)
}.

Definition getSLAInfo (nowMs : Z) (entry : string) (firstInteraction : option string)
  : SLAInfo :=
  let isLate := isLateOf getTime nowMs entry firstInteraction in
  {| isLate := isLate;
     label := labelOf getTime nowMs "min" entry firstInteraction;
     slaStatus := if isLate then "Atrasado" else "No Prazo" |}.

(** The SLA cell of a row of the leads table. *)
Definition slaOfLead (nowMs : Z) (l : Lead) : SLAInfo :=
  getSLAInfo nowMs (data_entrada l) (primeira_interacao l).

End Page.
End Dashboard.

Module Reports.
Section Page.
Variable getTime : string -> option Z.

Record SLAInfo : Type := {
  isLate : bool;
  label : string;
  diffMinutes : Num.t
}.

Definition getSLAInfo (nowMs : Z) (entry : string) (firstInteraction : option string)
  : SLAInfo :=
  {| isLate := isLateOf getTime nowMs entry firstInteraction;
     label := labelOf getTime nowMs "m" entry firstInteraction;
     diffMinutes := diffMinutesOf getTime nowMs entry firstInteraction |}.

End Page.
End Reports.

(* ================================================================== *)
(** ** The specification's vocabulary

    Definitions written after the words of the specification, against
    which the functions above are compared. *)

Module Spec.

(** A [DD], [MM], [YYYY], [HH] or [mm] group: [n] decimal digits. *)
Definition digits (n : nat) (s : string) : bool :=
  (String.length s =? n)%nat && Str.all Str.isDigit s.

(** A non-empty run of decimal digits. *)
Definition token (s : string) : Prop :=
  Str.all Str.isDigit s = true /\ Str.isEmpty s = false.

(** A character class that never accepts white space. *)
Definition solid (p : ascii -> bool) : Prop :=
  forall c, p c = true -> Str.isWhiteSpace c = false.

(** The date part of an input: the text before its first space, once the
    surrounding white space is removed. *)
Definition datePart (input : string) : string :=
  hd "" (Str.split " " (Str.trim input)).

(** Garbage for the Date Normalizer: nothing at all, only white space,
    or neither ISO-anchored nor with a date part of three [/]-separated
    components. *)
Definition garbage (input : option string) : bool :=
  match input with
  | None => true
  | Some s =>
      Str.isEmpty (Str.trim s)
      || (negb (Str.isoAnchored (Str.trim s))
          && negb (length (Str.split "/" (datePart s)) =? 3)%nat)
  end.

(** The first non-empty string of a fallback chain, or the empty string. *)
Fixpoint firstNonEmpty (chain : list string) : string :=
  match chain with
  | [] => ""
  | s :: rest => if Str.isEmpty s then firstNonEmpty rest else s
  end.

(** The first defined result of a chain of attempts. *)
Fixpoint firstSome {A} (chain : list (option A)) : option A :=
  match chain with
  | [] => None
  | Some a :: _ => Some a
  | None :: rest => firstSome rest
  end.

(** An optional first-interaction time is absent when the lead carries
    none: the property is [undefined] or holds the empty string. *)
Definition absent (p : option string) : bool :=
  match p with
  | None => true
  | Some s => Str.isEmpty s
  end.

Section Values.
Variable number : Type.
Local Abbreviation value := (Js.value number).

(** The string a record holds under [key], empty when it holds none. *)
Definition field (record : option value) (key : string) : string :=
  match record with
  | Some r =>
      match Js.member r key with
      | Some (Js.VStr s) => s
      | _ => ""
      end
  | None => ""
  end.

(** The identifier a record carries under a key, if it is a string or a
    number, and [fallback] otherwise. *)
Definition idOf (found : option value) (fallback : All.idval number) : All.idval number :=
  match found with
  | Some (Js.VStr s) => All.IdStr number s
  | Some (Js.VNum n) => All.IdNum number n
  | _ => fallback
  end.

(** The nested lead of an attendance record. *)
Definition nested (item : value) : option value := Js.member item "lead".

(** The List Extractor over a priority list of wrapper keys. *)
Definition extract (keys : list string) (payload : option value) : list value :=
  match payload with
  | Some (Js.VArr l) => l
  | Some obj =>
      match find (fun key => Js.isArray (Js.member obj key)) keys with
      | Some key => Js.elements (Js.member obj key)
      | None => []
      end
  | None => []
  end.

(** The phone fallback chain as the specification words it. *)
Definition phoneChain (item : value) : string :=
  firstNonEmpty [field (nested item) "telefone1"; field (nested item) "celular";
                 field (Some item) "telefone"; field (Some item) "phone"].

End Values.

Section Wait.
Variable getTime : string -> option Z.
Variable nowMs : Z.

(** The SLA wait in milliseconds: (first interaction time, or now, if
    absent) minus entry time; undefined when a date does not parse. *)
Definition waitMs (data_entrada : string) (primeira_interacao : option string)
  : option Z :=
  let finish := match primeira_interacao with
                | Some p => if absent (Some p) then Some nowMs else getTime p
                | None => Some nowMs
                end in
  match finish, getTime data_entrada with
  | Some e, Some s => Some (e - s)%Z
  | _, _ => None
  end.
End Wait.

End Spec.

Arguments Spec.idOf {number} found fallback.
Arguments Spec.field {number} record key.
Arguments Spec.nested {number} item.
Arguments Spec.extract {number} keys payload.
Arguments Spec.phoneChain {number} item.

(** A concrete host for the examples: integers for numbers, and a clock
    reader that knows two dates. *)
Module Host.

Definition numFalsy (n : Z) : bool := (n =? 0)%Z.
Definition numToString (n : Z) : string := Str.ofZ n.

(** 2024-12-25T10:00:00Z and 2024-12-25T12:00:00Z in milliseconds. *)
Definition getTime (s : string) : option Z :=
  if String.eqb s "2024-12-25T10:00:00.000Z" then Some 1735120800000%Z
  else if String.eqb s "2024-12-25T12:00:00.000Z" then Some 1735128000000%Z
  else None.

Definition rnd (i : nat) : string := "0." ++ Str.ofZ (Z.of_nat (i + 1)).
Definition now (_ : nat) : string := "2024-12-25T12:00:00.000Z".

Definition obj (fields : list (string * Js.value Z)) : Js.value Z := Js.VObj fields.
Definition str (s : string) : Js.value Z := Js.VStr s.

(** Every request is answered with the same reply. *)
Definition always (r : Http.reply Z) : Http.upstream Z := fun _ => r.

End Host.

(* ================================================================== *)
(** ** The rest of the pages: phone numbers, teams, team statistics *)

Module Text.

(** [s.replace(/\D/g, '')] for the class [keep] of the characters that
    stay. *)
Fixpoint only (keep : ascii -> bool) (s : string) : string :=
  match s with
  | EmptyString => EmptyString
  | String c r => if keep c then String c (only keep r) else only keep r
  end.

(** [s.slice(n)] for [n >= 0]. *)
Fixpoint drop (n : nat) (s : string) : string :=
  match n, s with
  | O, _ => s
  | S n', EmptyString => EmptyString
  | S n', String _ r => drop n' r
  end.

(** [s.slice(0, n)] for [n >= 0]. *)
Fixpoint take (n : nat) (s : string) : string :=
  match n, s with
  | O, _ => EmptyString
  | S n', EmptyString => EmptyString
  | S n', String c r => String c (take n' r)
  end.

(** [s.slice(a, b)] for [0 <= a <= b]. *)
Definition slice (a b : nat) (s : string) : string := take (b - a) (drop a s).

End Text.

(** ** src/app/page.tsx: phone numbers and the team selector *)

Module Page.

(** [formatPhoneNumber], the same in [page.tsx] and in
    [relatorios/page.tsx]. *)
Definition formatPhoneNumber (phone : string) : string :=
  if Str.isEmpty phone then "--" else
  if Str.includes "(" phone && Str.includes ")" phone then phone else
  let cleaned := Text.only Str.isDigit phone in
  if (String.length cleaned <? 10)%nat then phone else
  if (String.length cleaned =? 11)%nat then
    "(" ++ Text.slice 0 2 cleaned ++ ") " ++ Text.slice 2 7 cleaned
        ++ "-" ++ Text.drop 7 cleaned
  else
    "(" ++ Text.slice 0 2 cleaned ++ ") " ++ Text.slice 2 6 cleaned
        ++ "-" ++ Text.drop 6 cleaned.

Section Teams.
Variable number : Type.

(** [l.time || 'Geral'] *)
Definition teamOf (l : Dashboard.Lead number) : string :=
  Str.orStr (Dashboard.time number l) "Geral".

(** [Array.from(new Set(names))]: each name once, in the order of its
    first appearance. *)
Fixpoint distinct (seen names : list string) : list string :=
  match names with
  | [] => []
  | n :: rest =>
      if existsb (String.eqb n) seen then distinct seen rest
      else n :: distinct (n :: seen) rest
  end.

(** The [teams] memo. *)
Definition teams (currentLeads : list (Dashboard.Lead number)) : list string :=
  "Todos" :: distinct [] (map teamOf currentLeads).

End Teams.
End Page.

(** ** src/app/relatorios/page.tsx: the team statistics *)

Module Relatorios.

(** The value of a run of decimal digits. *)
Fixpoint digitsValue (acc : N) (s : string) : N :=
  match s with
  | EmptyString => acc
  | String c r => digitsValue (acc * 10 + (N_of_ascii c - 48))%N r
  end.

(** A property key that is an array index: the canonical decimal text of
    an integer from 0 to 2^32 - 2.  [Object.values] lists such keys
    first, in ascending order, and the other keys after them in the
    order of their creation. *)
Definition arrayIndex (key : string) : option N :=
  match key with
  | EmptyString => None
  | String c r =>
      if Str.all Str.isDigit key
         && (negb (Ascii.eqb c "0") || Str.isEmpty r)
         && (String.length key <=? 10)%nat
         && (digitsValue 0 key <=? 4294967294)%N
      then Some (digitsValue 0 key)
      else None
  end.

Section Page.
Variable number : Type.
(** The names every object inherits from [Object.prototype]
    ([constructor], [toString], ...): under such a name [stats[name]] is
    truthy from the start and is no property of [stats] itself. *)
Variable inherited : string -> bool.
Variable getTime : string -> option Z.
(** [clock i] is [new Date().getTime()] as the [i]-th lead of a loop
    reads it. *)
Variable clock : nat -> Z.

(** [interface Lead] of the reports. *)
Record Lead : Type := {
  id : All.idval number;
  nome : string;
  telefone : string;
  email : option string;
  status : string;
  time : option string;
  data_entrada : string;
  primeira_interacao : option string;
  origem : option string;
  _raw : option (Js.value number)
}.

(** [interface TeamStats], without [efficiency], a percentage printed by
    [toFixed] from a floating-point quotient. *)
Record TeamStats : Type := {
  name : string;
  total : nat;
  slasCritical : nat;
  agendamentos : nat
}.

(** [lead.time || 'Geral'] *)
Definition teamName (lead : Lead) : string := Str.orStr (time lead) "Geral".

(** [getSLAInfo(lead.data_entrada, lead.primeira_interacao).isLate] for
    the [i]-th lead of a loop. *)
Definition isLateAt (i : nat) (lead : Lead) : bool :=
  Reports.isLate
    (Reports.getSLAInfo getTime (clock i) (data_entrada lead) (primeira_interacao lead)).

Definition isAgendamento (lead : Lead) : bool :=
  Str.includes "visita" (Str.toLowerCase (status lead))
  || Str.includes "agendado" (Str.toLowerCase (status lead)).

Definition bumped (late agendado : bool) (s : TeamStats) : TeamStats :=
  {| name := name s;
     total := S (total s);
     slasCritical := if late then S (slasCritical s) else slasCritical s;
     agendamentos := if agendado then S (agendamentos s) else agendamentos s |}.

(** The body of the [forEach] on the own properties of [stats], kept in
    the order of their creation: the entry of the team is created at
    zero when there is none, and then counted up. *)
Fixpoint count (team : string) (late agendado : bool) (stats : list TeamStats)
  : list TeamStats :=
  match stats with
  | [] => [bumped late agendado
             {| name := team; total := 0; slasCritical := 0; agendamentos := 0 |}]
  | s :: rest =>
      if String.eqb (name s) team then bumped late agendado s :: rest
      else s :: count team late agendado rest
  end.

(** One turn of the [forEach].  Under an inherited name the counters of
    a foreign object are touched and [stats] is left as it is. *)
Definition visit (stats : list TeamStats) (turn : nat * Lead) : list TeamStats :=
  let (i, lead) := turn in
  if inherited (teamName lead) then stats
  else count (teamName lead) (isLateAt i lead) (isAgendamento lead) stats.

(** The leads with their positions. *)
Definition turns (leads : list Lead) : list (nat * Lead) :=
  combine (seq 0 (length leads)) leads.

Fixpoint insertIndex (k : N) (s : TeamStats) (l : list (N * TeamStats))
  : list (N * TeamStats) :=
  match l with
  | [] => [(k, s)]
  | (k', s') :: r =>
      if (k <? k')%N then (k, s) :: (k', s') :: r else (k', s') :: insertIndex k s r
  end.

(** The own properties whose key is an array index, in ascending order. *)
Fixpoint indexed (stats : list TeamStats) : list (N * TeamStats) :=
  match stats with
  | [] => []
  | s :: rest =>
      match arrayIndex (name s) with
      | Some k => insertIndex k s (indexed rest)
      | None => indexed rest
      end
  end.

(** [Object.values(stats)] *)
Definition values (stats : list TeamStats) : list TeamStats :=
  (map snd (indexed stats)
   ++ filter (fun s => match arrayIndex (name s) with Some _ => false | None => true end)
        stats)%list.

(** [sort((a, b) => b.total - a.total)], a stable sort. *)
Fixpoint insertByTotal (x : TeamStats) (l : list TeamStats) : list TeamStats :=
  match l with
  | [] => [x]
  | y :: r => if (total x <? total y)%nat then y :: insertByTotal x r else x :: y :: r
  end.

Fixpoint sortByTotal (l : list TeamStats) : list TeamStats :=
  match l with
  | [] => []
  | x :: r => insertByTotal x (sortByTotal r)
  end.

(** The [teamStats] memo. *)
Definition teamStats (leads : list Lead) : list TeamStats :=
  sortByTotal (values (fold_left visit (turns leads) [])).


End Page.
End Relatorios.

(** ** Further vocabulary for the properties *)

Module Terms.
Section Values.
Variable number : Type.
Local Abbreviation value := (Js.value number).

(** The list one candidate URL of [fetchLeadsBrutos] contributes. *)
Definition answer (numFalsy : number -> bool) (up : Http.upstream number) (url : string)
  : list value :=
  match up url with
  | Http.Json data => All.extractList number numFalsy (Some data)
  | Http.Failed _ => []
  end.

Definition nonEmpty {A} (l : list A) : bool :=
  match l with
  | [] => false
  | _ :: _ => true
  end.

(** A record whose [codigo] is missing, [null] or a primitive value. *)
Definition plainCodigo (item : value) : bool :=
  match Js.member item "codigo" with
  | Some (Js.VArr _) | Some (Js.VObj _) => false
  | _ => true
  end.

Definition isNull (v : value) : bool :=
  match v with
  | Js.VNull => true
  | _ => false
  end.

(** A property that is missing, [null] or a string. *)
Definition textual (v : option value) : bool :=
  match v with
  | None | Some Js.VNull | Some (Js.VStr _) => true
  | _ => false
  end.

End Values.

(** [a] entered no earlier than [b], both entry dates being valid. *)
Definition newerFirst (getTime : string -> option Z) {L} (data_entrada : L -> string)
  (a b : L) : Prop :=
  match getTime (data_entrada a), getTime (data_entrada b) with
  | Some ta, Some tb => (tb <= ta)%Z
  | _, _ => False
  end.
End Terms.
Arguments Terms.answer {number} numFalsy up url.
Arguments Terms.nonEmpty {A} l.
Arguments Terms.plainCodigo {number} item.
Arguments Terms.isNull {number} v.
Arguments Terms.textual {number} v.

(* ================================================================== *)
(** * Properties *)

(** ** Strings *)

Lemma digit_not_special (c : ascii) :
  Str.isDigit c = true ->
  Str.isWhiteSpace c = false
  /\ Ascii.eqb c " " = false /\ Ascii.eqb c "/" = false
  /\ Ascii.eqb c ":" = false /\ Ascii.eqb c "-" = false.
Proof.
  destruct c as [[] [] [] [] [] [] [] []]; vm_compute; intros H;
    try discriminate H; repeat split.
Qed.

Lemma all_weaken (p q : ascii -> bool) (s : string) :
  (forall c, p c = true -> q c = true) -> Str.all p s = true -> Str.all q s = true.
Proof.
  intros Hpq. induction s as [|c s IH]; simpl; [reflexivity|].
  intros H. apply andb_true_iff in H as [Hc Hs].
  now rewrite (Hpq c Hc), IH.
Qed.

(** A string of digits holds none of the separators. *)
Lemma digits_free (sep : ascii) (s : string) :
  Str.isDigit sep = false ->
  Str.all Str.isDigit s = true ->
  Str.all (fun c => negb (Ascii.eqb c sep)) s = true.
Proof.
  intros Hsep. apply all_weaken. intros c Hc.
  destruct (Ascii.eqb_spec c sep) as [->|]; [congruence | reflexivity].
Qed.

Lemma split_whole (sep : ascii) (a : string) :
  Str.all (fun c => negb (Ascii.eqb c sep)) a = true ->
  Str.split sep a = [a].
Proof.
  induction a as [|c a IH]; simpl; [reflexivity|].
  intros H. apply andb_true_iff in H as [Hc Ha].
  apply negb_true_iff in Hc. now rewrite Hc, (IH Ha).
Qed.

Lemma split_at (sep : ascii) (a b : string) :
  Str.all (fun c => negb (Ascii.eqb c sep)) a = true ->
  Str.split sep (a ++ String sep b) = a :: Str.split sep b.
Proof.
  induction a as [|c a IH]; simpl.
  - now rewrite Ascii.eqb_refl.
  - intros H. apply andb_true_iff in H as [Hc Ha].
    apply negb_true_iff in Hc. now rewrite Hc, (IH Ha).
Qed.

Lemma split_nonempty (sep : ascii) (s : string) : Str.split sep s <> [].
Proof.
  destruct s as [|c s]; simpl; [discriminate|].
  destruct (Ascii.eqb c sep); [discriminate|].
  destruct (Str.split sep s); discriminate.
Qed.

Lemma trimEnd_solid (c : ascii) (r : string) :
  Str.isWhiteSpace c = false ->
  Str.trimEnd (String c r) = String c (Str.trimEnd r).
Proof.
  intros H. simpl. rewrite H. now destruct (Str.trimEnd r).
Qed.

Lemma trimEnd_keep (s : string) :
  Str.endsWithWhiteSpace s = false -> Str.trimEnd s = s.
Proof.
  induction s as [|c s IH]; [reflexivity|].
  destruct s as [|c' s'].
  - simpl. now intros ->.
  - intros H. change (Str.endsWithWhiteSpace (String c' s') = false) in H.
    specialize (IH H). simpl in IH |- *. now rewrite IH.
Qed.

Lemma digits_end (s : string) :
  Str.all Str.isDigit s = true -> Str.endsWithWhiteSpace s = false.
Proof.
  induction s as [|c s IH]; [reflexivity|].
  simpl. intros H. apply andb_true_iff in H as [Hc Hs].
  destruct s; [apply (digit_not_special c Hc) | now apply IH].
Qed.

Lemma trimStart_solid (c : ascii) (r : string) :
  Str.isWhiteSpace c = false -> Str.trimStart (String c r) = String c r.
Proof. intros H. simpl. now rewrite H. Qed.

Lemma solid_digit : Spec.solid Str.isDigit.
Proof. intros c H. apply (digit_not_special c H). Qed.

Lemma solid_lit (a : ascii) : Str.isWhiteSpace a = false -> Spec.solid (Str.lit a).
Proof.
  intros Ha c H. unfold Str.lit in H.
  apply Ascii.eqb_eq in H. now subst.
Qed.

Lemma isoAnchorRe_solid : Forall Spec.solid Str.isoAnchorRe.
Proof.
  unfold Str.isoAnchorRe.
  repeat constructor; try apply solid_digit; apply solid_lit; reflexivity.
Qed.

Lemma matchPrefix_trimEnd (pat : list (ascii -> bool)) :
  Forall Spec.solid pat ->
  forall s, Str.matchPrefix pat s = true -> Str.matchPrefix pat (Str.trimEnd s) = true.
Proof.
  induction 1 as [|p pat Hp _ IH]; intros s; [reflexivity|].
  destruct s as [|c r]; [discriminate|].
  cbn [Str.matchPrefix]. intros H. apply andb_true_iff in H as [Hc Hr].
  rewrite (trimEnd_solid c r (Hp c Hc)). cbn [Str.matchPrefix].
  now rewrite Hc, (IH r Hr).
Qed.

Lemma isoAnchored_trim (s : string) :
  Str.isoAnchored s = true ->
  Str.isoAnchored (Str.trim s) = true /\ Str.trimStart s = s.
Proof.
  intros H.
  assert (Hs : Str.trimStart s = s).
  { destruct s as [|c r]; [reflexivity|].
    apply trimStart_solid.
    unfold Str.isoAnchored, Str.isoAnchorRe in H. cbn [Str.matchPrefix] in H.
    apply andb_true_iff in H as [Hc _]. apply (digit_not_special c Hc). }
  split; [|exact Hs].
  unfold Str.trim. rewrite Hs.
  apply (matchPrefix_trimEnd _ isoAnchorRe_solid _ H).
Qed.

Lemma isoAnchored_nonempty (s : string) :
  Str.isoAnchored s = true -> Str.isEmpty s = false.
Proof. destruct s; [discriminate | reflexivity]. Qed.

(** What [parseDate] answers is never the empty string. *)
Lemma parseDate_nonempty (input : option string) (s : string) :
  parseDate input = Some s -> Str.isEmpty s = false.
Proof.
  unfold parseDate. destruct input as [i|]; [|discriminate].
  destruct (Str.isEmpty i); [discriminate|].
  destruct (Str.isEmpty (Str.trim i)) eqn:E; [discriminate|].
  destruct (Str.isoAnchored (Str.trim i)).
  - intros [= <-]. exact E.
  - destruct (Str.split "/" _) as [|d [|m [|y [|? ?]]]]; try discriminate.
    intros [= <-]. destruct y; [|reflexivity]. simpl.
    reflexivity.
Qed.

Lemma split_free_app (sep : ascii) (a b : string) :
  Str.all (fun c => negb (Ascii.eqb c sep)) a = true ->
  Str.split sep (a ++ b) =
  match Str.split sep b with
  | h :: t => (a ++ h) :: t
  | [] => [a]
  end.
Proof.
  induction a as [|c a IH]; simpl.
  - intros _. destruct (Str.split sep b) eqn:E; [|reflexivity].
    now destruct (split_nonempty sep b).
  - intros H. apply andb_true_iff in H as [Hc Ha].
    apply negb_true_iff in Hc. rewrite Hc, (IH Ha).
    destruct (Str.split sep b) eqn:E; [|reflexivity].
    now destruct (split_nonempty sep b).
Qed.

Lemma split_cons_other (sep c : ascii) (b : string) :
  Ascii.eqb c sep = false ->
  Str.split sep (String c b) =
  match Str.split sep b with
  | h :: t => String c h :: t
  | [] => [String c ""]
  end.
Proof. intros H. simpl. now rewrite H. Qed.

Lemma isEmpty_app (a b : string) :
  Str.isEmpty a = false -> Str.isEmpty (a ++ b) = false.
Proof. now destruct a. Qed.

Lemma orStr_some (s d : string) :
  Str.isEmpty s = false -> Str.orStr (Some s) d = s.
Proof. now destruct s. Qed.

Lemma trimEnd_app (a b : string) :
  Str.isEmpty (Str.trimEnd b) = false ->
  Str.trimEnd (a ++ b) = a ++ Str.trimEnd b.
Proof.
  intros Hb. induction a as [|c a IH]; [reflexivity|].
  cbn [append Str.trimEnd]. rewrite IH.
  destruct (a ++ Str.trimEnd b) eqn:E; [|reflexivity].
  destruct a; simpl in E; [|discriminate].
  rewrite E in Hb. discriminate.
Qed.

Lemma trimEnd_cons (c : ascii) (b : string) :
  Str.isEmpty (Str.trimEnd b) = false ->
  Str.trimEnd (String c b) = String c (Str.trimEnd b).
Proof. intros H. simpl. now destruct (Str.trimEnd b). Qed.

Lemma token_trimEnd (s : string) :
  Spec.token s -> Str.trimEnd s = s /\ Str.isEmpty (Str.trimEnd s) = false.
Proof.
  intros [Hd Hn]. rewrite (trimEnd_keep s (digits_end s Hd)). now split.
Qed.

Lemma token_trimStart (s r : string) :
  Spec.token s -> Str.trimStart (s ++ r) = s ++ r.
Proof.
  intros [Hd Hn]. destruct s as [|c s]; [discriminate|].
  simpl in Hd. apply andb_true_iff in Hd as [Hc _].
  apply trimStart_solid, (digit_not_special c Hc).
Qed.

Lemma token_free (sep : ascii) (s : string) :
  Str.isDigit sep = false -> Spec.token s ->
  Str.all (fun c => negb (Ascii.eqb c sep)) s = true.
Proof. intros Hsep [Hd _]. now apply digits_free. Qed.

(** Digits followed by a slash never pass for the ISO anchor, whose
    fifth character is a hyphen after four digits. *)
Lemma slash_not_anchored (d rest : string) :
  Spec.token d -> Str.isoAnchored (d ++ String "/" rest) = false.
Proof.
  intros [Hd Hn].
  destruct d as [|c1 [|c2 [|c3 [|c4 [|c5 r]]]]];
    try discriminate; unfold Str.isoAnchored, Str.isoAnchorRe;
    cbn [append Str.matchPrefix]; unfold Str.lit;
    change (Str.isDigit "/") with false; change (Ascii.eqb "/" "-") with false;
    rewrite ?andb_false_r; try reflexivity.
  simpl in Hd. repeat (apply andb_true_iff in Hd as [? Hd]).
  destruct (digit_not_special c5) as (_ & _ & _ & _ & ->); [assumption|].
  now rewrite ?andb_false_r.
Qed.

Lemma digits_token (n : nat) (s : string) :
  Spec.digits (S n) s = true -> Spec.token s.
Proof.
  unfold Spec.digits. intros H. apply andb_true_iff in H as [Hl Hd].
  split; [exact Hd|]. now destruct s.
Qed.

Lemma kept_app (a b : string) :
  Str.trimEnd b = b /\ Str.isEmpty b = false ->
  Str.trimEnd (a ++ b) = a ++ b /\ Str.isEmpty (a ++ b) = false.
Proof.
  intros [E N]. rewrite trimEnd_app by now rewrite E.
  rewrite E. split; [reflexivity|].
  destruct a; [exact N | reflexivity].
Qed.

Lemma kept_cons (c : ascii) (b : string) :
  Str.trimEnd b = b /\ Str.isEmpty b = false ->
  Str.trimEnd (String c b) = String c b /\ Str.isEmpty (String c b) = false.
Proof.
  intros [E N]. rewrite trimEnd_cons by now rewrite E.
  now rewrite E.
Qed.

Lemma kept_token (s : string) :
  Spec.token s -> Str.trimEnd s = s /\ Str.isEmpty s = false.
Proof. intros T. destruct (token_trimEnd s T) as [E _]. split; [exact E | apply T]. Qed.

Ltac kept :=
  repeat first [apply kept_cons | apply kept_app]; apply kept_token; assumption.

(** The reordering itself, for groups of digits of any length. *)
Lemma parseDate_slashed (d m y : string) :
  Spec.token d -> Spec.token m -> Spec.token y ->
  (forall hh mm, Spec.token hh -> Spec.token mm ->
     parseDate (Some (d ++ "/" ++ m ++ "/" ++ y ++ " " ++ hh ++ ":" ++ mm))
     = Some (y ++ "-" ++ m ++ "-" ++ d ++ "T" ++ hh ++ ":" ++ mm ++ ":00"))
  /\ parseDate (Some (d ++ "/" ++ m ++ "/" ++ y))
     = Some (y ++ "-" ++ m ++ "-" ++ d ++ "T00:00:00").
Proof.
  intros Td Tm Ty.
  assert (Fd := fun sep H => token_free sep d H Td).
  assert (Fm := fun sep H => token_free sep m H Tm).
  assert (Fy := fun sep H => token_free sep y H Ty).
  assert (Ed : Str.isEmpty d = false) by apply Td.
  split.
  - intros hh mm Th Tmm.
    assert (Fh := fun sep H => token_free sep hh H Th).
    assert (Fmm := fun sep H => token_free sep mm H Tmm).
    unfold parseDate. cbn [append].
    rewrite (isEmpty_app d _ Ed).
    unfold Str.trim. rewrite (token_trimStart d _ Td).
    match goal with
    | |- context [Str.trimEnd ?full] =>
        assert (K : Str.trimEnd full = full /\ Str.isEmpty full = false) by kept
    end.
    destruct K as [-> ->].
    rewrite (slash_not_anchored d _ Td).
    rewrite (split_free_app " " d), (split_cons_other " " "/"),
      (split_free_app " " m), (split_cons_other " " "/"), (split_at " " y),
      (split_free_app " " hh), (split_cons_other " " ":"), (split_whole " " mm)
      by (auto).
    cbn [nth_error].
    rewrite !orStr_some by (apply isEmpty_app; first [exact Ed | apply Th]).
    rewrite (split_at "/" d), (split_at "/" m), (split_whole "/" y) by auto.
    rewrite (split_at ":" hh), (split_whole ":" mm) by auto.
    cbn [nth_error].
    rewrite !orStr_some by first [apply Th | apply Tmm].
    reflexivity.
  - unfold parseDate. cbn [append].
    rewrite (isEmpty_app d _ Ed).
    unfold Str.trim. rewrite (token_trimStart d _ Td).
    match goal with
    | |- context [Str.trimEnd ?full] =>
        assert (K : Str.trimEnd full = full /\ Str.isEmpty full = false) by kept
    end.
    destruct K as [-> ->].
    rewrite (slash_not_anchored d _ Td).
    rewrite (split_free_app " " d), (split_cons_other " " "/"),
      (split_free_app " " m), (split_cons_other " " "/"), (split_whole " " y)
      by auto.
    cbn [nth_error].
    rewrite orStr_some by (apply isEmpty_app; exact Ed).
    rewrite (split_at "/" d), (split_at "/" m), (split_whole "/" y) by auto.
    reflexivity.
Qed.

Lemma parseImoviewDate_slashed {number} (numFalsy : number -> bool) (d m y : string) :
  Spec.token d -> Spec.token m -> Spec.token y ->
  (forall hh mm, Spec.token hh -> Spec.token mm ->
     Legacy.parseImoviewDate number numFalsy
       (Some (Js.VStr (d ++ "/" ++ m ++ "/" ++ y ++ " " ++ hh ++ ":" ++ mm)))
     = Some (y ++ "-" ++ m ++ "-" ++ d ++ "T" ++ hh ++ ":" ++ mm ++ ":00"))
  /\ Legacy.parseImoviewDate number numFalsy (Some (Js.VStr (d ++ "/" ++ m ++ "/" ++ y)))
     = Some (y ++ "-" ++ m ++ "-" ++ d ++ "T00:00:00").
Proof.
  intros Td Tm Ty.
  assert (Fd := fun sep H => token_free sep d H Td).
  assert (Fm := fun sep H => token_free sep m H Tm).
  assert (Fy := fun sep H => token_free sep y H Ty).
  assert (Ed : Str.isEmpty d = false) by apply Td.
  split.
  - intros hh mm Th Tmm.
    assert (Fh := fun sep H => token_free sep hh H Th).
    assert (Fmm := fun sep H => token_free sep mm H Tmm).
    unfold Legacy.parseImoviewDate. cbn [append Js.truthyU Js.truthy].
    rewrite (isEmpty_app d _ Ed). cbn [negb].
    rewrite (split_free_app " " d), (split_cons_other " " "/"),
      (split_free_app " " m), (split_cons_other " " "/"), (split_at " " y),
      (split_free_app " " hh), (split_cons_other " " ":"), (split_whole " " mm)
      by (auto).
    cbn [nth_error].
    destruct d as [|c d']; [discriminate|]. cbn [append].
    destruct hh as [|c' hh']; [destruct Th; discriminate|]. cbn [append].
    change (String c (d' ++ String "/" (m ++ String "/" y)))
      with (String c d' ++ String "/" (m ++ String "/" y)).
    change (String c' (hh' ++ String ":" mm)) with (String c' hh' ++ String ":" mm).
    rewrite (split_at "/" (String c d')), (split_at "/" m), (split_whole "/" y) by auto.
    rewrite (split_at ":" (String c' hh')), (split_whole ":" mm) by auto.
    reflexivity.
  - unfold Legacy.parseImoviewDate. cbn [append Js.truthyU Js.truthy].
    rewrite (isEmpty_app d _ Ed). cbn [negb].
    rewrite (split_free_app " " d), (split_cons_other " " "/"),
      (split_free_app " " m), (split_cons_other " " "/"), (split_whole " " y)
      by auto.
    cbn [nth_error].
    destruct d as [|c d']; [discriminate|]. cbn [append].
    change (String c (d' ++ String "/" (m ++ String "/" y)))
      with (String c d' ++ String "/" (m ++ String "/" y)).
    rewrite (split_at "/" (String c d')), (split_at "/" m), (split_whole "/" y) by auto.
    reflexivity.
Qed.

Lemma trimEnd_fixed (s : string) :
  Str.trimEnd s = s -> Str.endsWithWhiteSpace s = false.
Proof.
  induction s as [|c r IH]; [reflexivity|].
  intros E.
  assert (U : Str.trimEnd (String c r) =
              match Str.trimEnd r with
              | "" => if Str.isWhiteSpace c then "" else String c ""
              | String c' r' => String c (String c' r')
              end) by reflexivity.
  rewrite U in E. clear U.
  destruct r as [|c' r'].
  - simpl in E |- *. destruct (Str.isWhiteSpace c); [discriminate | reflexivity].
  - change (Str.endsWithWhiteSpace (String c (String c' r')))
      with (Str.endsWithWhiteSpace (String c' r')).
    apply IH.
    destruct (Str.trimEnd (String c' r')) as [|x y].
    + destruct (Str.isWhiteSpace c); discriminate.
    + injection E as -> ->. reflexivity.
Qed.

(** ** The Date Normalizer *)

(** C4.  An input [DD/MM/YYYY HH:mm] is answered [YYYY-MM-DDTHH:mm:00],
    day, month and year reordered and the seconds appended, and an input
    [DD/MM/YYYY] without a time gets the time 00:00.  This holds of
    [parseDate] of proxy-leads-all and of [parseImoviewDate] of
    proxy-leads; in particular "25/12/2024 14:30" becomes
    "2024-12-25T14:30:00". *)
Theorem date_reordered {number} (numFalsy : number -> bool) (DD MM YYYY HH mm : string) :
  Spec.digits 2 DD = true -> Spec.digits 2 MM = true -> Spec.digits 4 YYYY = true ->
  Spec.digits 2 HH = true -> Spec.digits 2 mm = true ->
  parseDate (Some (DD ++ "/" ++ MM ++ "/" ++ YYYY ++ " " ++ HH ++ ":" ++ mm))
    = Some (YYYY ++ "-" ++ MM ++ "-" ++ DD ++ "T" ++ HH ++ ":" ++ mm ++ ":00")
  /\ parseDate (Some (DD ++ "/" ++ MM ++ "/" ++ YYYY))
    = Some (YYYY ++ "-" ++ MM ++ "-" ++ DD ++ "T" ++ "00:00" ++ ":00")
  /\ Legacy.parseImoviewDate number numFalsy
       (Some (Js.VStr (DD ++ "/" ++ MM ++ "/" ++ YYYY ++ " " ++ HH ++ ":" ++ mm)))
    = Some (YYYY ++ "-" ++ MM ++ "-" ++ DD ++ "T" ++ HH ++ ":" ++ mm ++ ":00")
  /\ Legacy.parseImoviewDate number numFalsy
       (Some (Js.VStr (DD ++ "/" ++ MM ++ "/" ++ YYYY)))
    = Some (YYYY ++ "-" ++ MM ++ "-" ++ DD ++ "T" ++ "00:00" ++ ":00")
  /\ parseDate (Some "25/12/2024 14:30") = Some "2024-12-25T14:30:00".
Proof.
  intros Hd Hm Hy Hh Hn.
  apply digits_token in Hd, Hm, Hy, Hh, Hn.
  destruct (parseDate_slashed DD MM YYYY Hd Hm Hy) as [P1 P2].
  destruct (parseImoviewDate_slashed numFalsy DD MM YYYY Hd Hm Hy) as [L1 L2].
  exact (conj (P1 HH mm Hh Hn) (conj P2 (conj (L1 HH mm Hh Hn) (conj L2 eq_refl)))).
Qed.

Lemma date_reordered_witness :
  parseDate (Some "25/12/2024 14:30") = Some "2024-12-25T14:30:00"
  /\ parseDate (Some "25/12/2024") = Some "2024-12-25T00:00:00"
  /\ Legacy.parseImoviewDate Z Host.numFalsy (Some (Js.VStr "25/12/2024 14:30"))
     = Some "2024-12-25T14:30:00"
  /\ Legacy.parseImoviewDate Z Host.numFalsy (Some (Js.VStr "25/12/2024"))
     = Some "2024-12-25T00:00:00".
Proof.
  destruct (date_reordered Host.numFalsy "25" "12" "2024" "14" "30")
    as (A & B & C & D & _); try reflexivity.
  exact (conj A (conj B (conj C D))).
Defined.

(** C5 (as the code has it).  An input that matches the ISO anchor
    [^\d{4}-\d{2}-\d{2}T] is answered with its surrounding white space
    removed, nothing else changed; it comes back unchanged exactly when
    it does not end in white space. *)
Theorem iso_trimmed_only (input : string) :
  Str.isoAnchored input = true ->
  parseDate (Some input) = Some (Str.trimEnd input)
  /\ (Str.endsWithWhiteSpace input = false <-> parseDate (Some input) = Some input).
Proof.
  intros H.
  destruct (isoAnchored_trim input H) as [Ha Hs].
  assert (P : parseDate (Some input) = Some (Str.trimEnd input)).
  { unfold parseDate.
    rewrite (isoAnchored_nonempty input H), (isoAnchored_nonempty _ Ha), Ha.
    unfold Str.trim. now rewrite Hs. }
  split; [exact P|]. rewrite P. split.
  - intros E. now rewrite trimEnd_keep.
  - intros [= E]. now apply trimEnd_fixed.
Qed.

Lemma iso_trimmed_only_witness :
  parseDate (Some "2024-12-25T14:30:00.000Z") = Some "2024-12-25T14:30:00.000Z".
Proof.
  apply (iso_trimmed_only "2024-12-25T14:30:00.000Z"); reflexivity.
Defined.

(** C5 as stated fails: an ISO-anchored input that ends in a space is not
    returned unchanged. *)
Lemma iso_not_unchanged :
  Str.isoAnchored "2024-12-25T14:30:00 " = true
  /\ parseDate (Some "2024-12-25T14:30:00 ") = Some "2024-12-25T14:30:00"
  /\ parseDate (Some "2024-12-25T14:30:00 ") <> Some "2024-12-25T14:30:00 ".
Proof. split; [reflexivity | split; [reflexivity | discriminate]]. Qed.

(** C6.  [parseDate] answers [null] exactly on garbage: no input, an
    empty or white-space-only input, or an input that, once trimmed, is
    neither ISO-anchored nor has a date part of three [/]-separated
    components.  No garbage input gets a non-null answer. *)
Theorem garbage_is_null (input : option string) :
  parseDate input = None <-> Spec.garbage input = true.
Proof.
  unfold parseDate, Spec.garbage, Spec.datePart.
  destruct input as [i|]; [|now split].
  destruct (Str.isEmpty i) eqn:Ei.
  { destruct i; [|discriminate]. now split. }
  destruct (Str.isEmpty (Str.trim i)) eqn:Et; [now split|].
  destruct (Str.isoAnchored (Str.trim i)); [now split|].
  cbn [negb orb andb].
  assert (Hd : Str.orStr (nth_error (Str.split " " (Str.trim i)) 0) ""
               = hd "" (Str.split " " (Str.trim i))).
  { destruct (Str.split " " (Str.trim i)) as [|[|c r] t]; reflexivity. }
  rewrite Hd.
  destruct (Str.split "/" (hd "" (Str.split " " (Str.trim i))))
    as [|d [|m [|y [|x r]]]]; cbn; split; intros; congruence.
Qed.

Lemma garbage_is_null_witness :
  parseDate (Some "   ") = None /\ parseDate (Some "ontem") = None
  /\ parseDate (Some "25-12-2024 14:30") = None /\ parseDate None = None.
Proof.
  exact (conj (proj2 (garbage_is_null (Some "   ")) eq_refl)
        (conj (proj2 (garbage_is_null (Some "ontem")) eq_refl)
        (conj (proj2 (garbage_is_null (Some "25-12-2024 14:30")) eq_refl)
              (proj2 (garbage_is_null None) eq_refl)))).
Defined.

(** ** The List Extractor *)

Section ExtractFacts.
Context {number : Type} (numFalsy : number -> bool).
Local Abbreviation value := (Js.value number).

Lemma firstArray_find (obj : value) (keys : list string) :
  All.firstArray number obj keys =
  match find (fun key => Js.isArray (Js.member obj key)) keys with
  | Some key => Js.elements (Js.member obj key)
  | None => []
  end.
Proof.
  induction keys as [|k keys IH]; [reflexivity|].
  cbn [All.firstArray find].
  destruct (Js.member obj k) as [[ | | | |l| ]|] eqn:E; cbn [Js.isArray];
    try exact IH.
  now rewrite E.
Qed.

Lemma find_no_member (v : value) (keys : list string) :
  (forall key, Js.member v key = None) ->
  find (fun key => Js.isArray (Js.member v key)) keys = None.
Proof.
  intros H. induction keys as [|k keys IH]; [reflexivity|].
  cbn [find]. now rewrite H.
Qed.

Lemma extractList_all_spec (payload : option value) :
  All.extractList number numFalsy payload = Spec.extract All.candidates payload.
Proof.
  unfold All.extractList, Spec.extract.
  destruct payload as [v|]; [|reflexivity].
  destruct v as [ |b|n|s|l|fs]; cbn [Js.truthyU Js.truthy negb];
    try (rewrite find_no_member by reflexivity);
    try reflexivity; try apply firstArray_find;
    match goal with |- context [if ?c then _ else _] => now destruct c end.
Qed.

Lemma extractList_legacy_spec (payload : option value) :
  Legacy.extractList number numFalsy payload
  = Spec.extract ["lista"; "atendimentos"; "resultado"] payload.
Proof.
  unfold Legacy.extractList, Spec.extract.
  destruct payload as [v|]; [|reflexivity].
  destruct v as [ |b|n|s|l|fs]; cbn [Js.truthyU Js.truthy negb];
    try (rewrite find_no_member by reflexivity);
    try reflexivity;
    try match goal with |- context [if ?c then _ else _] => now destruct c end.
  cbn [find].
  destruct (Js.member (Js.VObj fs) "lista") as [[ | | | |l1| ]|] eqn:E1;
    cbn [Js.isArray]; try (now rewrite E1);
    destruct (Js.member (Js.VObj fs) "atendimentos") as [[ | | | |l2| ]|] eqn:E2;
    cbn [Js.isArray]; try (now rewrite E2);
    destruct (Js.member (Js.VObj fs) "resultado") as [[ | | | |l3| ]|] eqn:E3;
    cbn [Js.isArray]; try (now rewrite E3); reflexivity.
Qed.

End ExtractFacts.

(** C3 (as the code has it).  Each List Extractor returns the payload
    itself when it is an array; otherwise it tries its wrapper keys in a
    fixed order and returns the first value that is an array, and the
    empty list when none is or when the payload is [null] or [undefined].
    The keys of proxy-leads-all are lista, leads, atendimentos, items,
    resultado, data; those of proxy-leads are lista, atendimentos,
    resultado only. *)
Theorem list_extractors {number} (numFalsy : number -> bool)
  (payload : option (Js.value number)) :
  All.extractList number numFalsy payload
    = Spec.extract ["lista"; "leads"; "atendimentos"; "items"; "resultado"; "data"] payload
  /\ Legacy.extractList number numFalsy payload
    = Spec.extract ["lista"; "atendimentos"; "resultado"] payload
  /\ All.extractList number numFalsy None = []
  /\ All.extractList number numFalsy (Some Js.VNull) = []
  /\ Legacy.extractList number numFalsy None = []
  /\ Legacy.extractList number numFalsy (Some Js.VNull) = [].
Proof.
  exact (conj (extractList_all_spec numFalsy payload)
        (conj (extractList_legacy_spec numFalsy payload)
        (conj eq_refl (conj eq_refl (conj eq_refl eq_refl))))).
Qed.

Lemma list_extractors_witness :
  All.extractList Z Host.numFalsy
    (Some (Host.obj [("total", Js.VNum 1%Z); ("leads", Js.VArr [Host.str "a"])]))
  = [Host.str "a"].
Proof.
  rewrite (proj1 (list_extractors Host.numFalsy _)). reflexivity.
Defined.

(** C3 as stated fails for the extractor of proxy-leads, which does not
    know the wrapper key [leads]. *)
Lemma legacy_extractor_misses_leads :
  let payload := Some (Host.obj [("leads", Js.VArr [Host.str "a"])]) in
  Spec.extract ["lista"; "leads"; "atendimentos"; "items"; "resultado"; "data"] payload
    = [Host.str "a"]
  /\ Legacy.extractList Z Host.numFalsy payload = [].
Proof. split; reflexivity. Qed.

(** ** The Lead Normalizer of proxy-leads-all *)

Section MapFacts.
Context {number : Type} (numFalsy : number -> bool).
Local Abbreviation value := (Js.value number).

Lemma getStr_ok (v : value) (key : string) :
  v <> Js.VNull -> All.getStr number v key = Ok (Spec.field (Some v) key).
Proof. destruct v; [congruence | reflexivity ..]. Qed.

Lemma getProp_ok (v : value) (key : string) :
  v <> Js.VNull -> Js.getProp v key = Ok (Js.member v key).
Proof. destruct v; [congruence | reflexivity ..]. Qed.

Lemma dateOf_ok (v : value) (key : string) :
  v <> Js.VNull ->
  All.dateOf number v key = Ok (parseDate (Some (Spec.field (Some v) key))).
Proof. intros H. unfold All.dateOf. now rewrite getStr_ok. Qed.

Lemma orS_chain (a : string) (rest : list string) :
  orS (Ok a) (Ok (Spec.firstNonEmpty rest)) = Ok (Spec.firstNonEmpty (a :: rest)).
Proof. now destruct a. Qed.

Ltac chains :=
  change (@Ok string "") with (@Ok string (Spec.firstNonEmpty []));
  repeat match goal with
  | |- context [orS _ (@Ok string (String ?c ?r))] =>
      change (@Ok string (String c r))
        with (@Ok string (Spec.firstNonEmpty [String c r]))
  end;
  rewrite ?orS_chain.

Lemma orN_parsed (a b : option string) (i j : option string) :
  a = parseDate i -> b = parseDate j ->
  orN (Ok a) (Ok b) = Ok (Spec.firstSome [a; b]).
Proof.
  intros Ha Hb. destruct a as [[|c r]|]; cbn.
  - symmetry in Ha. apply parseDate_nonempty in Ha. discriminate.
  - reflexivity.
  - now destruct b.
Qed.

Lemma firstSome_parsed (i j : option string) (s : string) :
  Spec.firstSome [parseDate i; parseDate j] = Some s -> Str.isEmpty s = false.
Proof.
  cbn. destruct (parseDate i) eqn:Ei.
  - intros [= <-]. exact (parseDate_nonempty _ _ Ei).
  - destruct (parseDate j) eqn:Ej; [|discriminate].
    intros [= <-]. exact (parseDate_nonempty _ _ Ej).
Qed.

Lemma orNull_parsed (i j : option string) :
  All.orNull (Spec.firstSome [parseDate i; parseDate j])
  = Spec.firstSome [parseDate i; parseDate j].
Proof.
  destruct (Spec.firstSome [parseDate i; parseDate j]) as [s|] eqn:E; [|reflexivity].
  apply firstSome_parsed in E. now destruct s.
Qed.

Lemma orStr_parsed (i j : option string) (d : string) :
  Str.orStr (Spec.firstSome [parseDate i; parseDate j]) d
  = orElse (Spec.firstSome [parseDate i; parseDate j]) d.
Proof.
  destruct (Spec.firstSome [parseDate i; parseDate j]) as [s|] eqn:E; [|reflexivity].
  apply firstSome_parsed in E. now destruct s.
Qed.

(** The object the attendance owns as its lead: [item['lead'] || {}]. *)
Lemma leadObj_field (lead : option value) (key : string) :
  let leadObj := match lead with
                 | Some l => if Js.truthy numFalsy l then l else Js.VObj []
                 | None => Js.VObj []
                 end in
  leadObj <> Js.VNull /\ Spec.field (Some leadObj) key = Spec.field lead key.
Proof.
  destruct lead as [[ |b|n|s|l|fs]|]; cbn; try (split; [discriminate | reflexivity]).
  - destruct b; split; try discriminate; reflexivity.
  - destruct (numFalsy n); split; try discriminate; reflexivity.
  - destruct s; split; try discriminate; reflexivity.
Qed.

Lemma mapAtendimento_ok (rnd now : string) (item : value) :
  item <> Js.VNull ->
  All.mapAtendimento number numFalsy rnd now item =
  Ok {| All.id := Spec.idOf (Js.member item "codigo") (All.IdStr number rnd);
        All.nome := Spec.firstNonEmpty
          [Spec.field (Spec.nested item) "nome"; Spec.field (Some item) "nome"; "Sem Nome"];
        All.telefone := Spec.firstNonEmpty
          [Spec.field (Spec.nested item) "telefone1";
           Spec.field (Spec.nested item) "celular";
           Spec.field (Some item) "telefone"; ""];
        All.email := Spec.firstNonEmpty
          [Spec.field (Spec.nested item) "email"; Spec.field (Some item) "email"; ""];
        All.status := Spec.firstNonEmpty [Spec.field (Some item) "situacao"; "Novo"];
        All.time := Spec.firstNonEmpty [Spec.field (Some item) "unidadenome"; "Geral"];
        All.data_entrada := orElse
          (Spec.firstSome
             [parseDate (Some (Spec.field (Some item) "datahoraentradalead"));
              parseDate (Some (Spec.field (Some item) "data_entrada"))]) now;
        All.primeira_interacao :=
          Spec.firstSome
             [parseDate (Some (Spec.field (Some item) "datahoraultimainteracao"));
              parseDate (Some (Spec.field (Some item) "primeira_interacao"))];
        All.origem := Spec.firstNonEmpty [Spec.field (Some item) "midia"; "Site"];
        All.tem_atendimento := true |}.
Proof.
  intros H. unfold All.mapAtendimento, All.getNumOrStr.
  rewrite !(getProp_ok item) by exact H. cbn [bind].
  destruct (leadObj_field (Js.member item "lead") "nome") as [Hl _].
  set (leadObj := match Js.member item "lead" with
                  | Some l => if Js.truthy numFalsy l then l else Js.VObj []
                  | None => Js.VObj []
                  end) in *.
  rewrite !(getStr_ok leadObj) by exact Hl.
  rewrite !(getStr_ok item), !(dateOf_ok item) by exact H.
  subst leadObj.
  rewrite !(proj2 (leadObj_field (Js.member item "lead") _)).
  fold (Spec.nested item).
  chains.
  rewrite !(orN_parsed _ _ _ _ eq_refl eq_refl).
  cbn [orD bind]. rewrite orStr_parsed, !orNull_parsed.
  destruct (Js.member item "codigo") as [[]|]; reflexivity.
Qed.

Lemma mapBruto_ok (rnd now : string) (item : value) :
  item <> Js.VNull ->
  All.mapBruto number rnd now item =
  Ok {| All.id := Spec.idOf (Js.member item "id")
                    (Spec.idOf (Js.member item "codigo") (All.IdStr number rnd));
        All.nome := Spec.firstNonEmpty
          [Spec.field (Some item) "nome"; Spec.field (Some item) "lead_nome"; "Sem Nome"];
        All.telefone := Spec.firstNonEmpty
          [Spec.field (Some item) "telefone1"; Spec.field (Some item) "celular";
           Spec.field (Some item) "telefone"; Spec.field (Some item) "phone"];
        All.email := Spec.firstNonEmpty [Spec.field (Some item) "email"];
        All.status := Spec.firstNonEmpty [Spec.field (Some item) "status"; "Novo"];
        All.time := Spec.firstNonEmpty
          [Spec.field (Some item) "unidadenome"; Spec.field (Some item) "time"; "Geral"];
        All.data_entrada := orElse
          (Spec.firstSome
             [parseDate (Some (Spec.field (Some item) "data_criacao"));
              parseDate (Some (Spec.field (Some item) "datahoraentradalead"))]) now;
        All.primeira_interacao := None;
        All.origem := Spec.firstNonEmpty [Spec.field (Some item) "origem"; "Site"];
        All.tem_atendimento := false |}.
Proof.
  intros H. unfold All.mapBruto, All.getNumOrStr.
  rewrite !(getProp_ok item) by exact H. cbn [bind].
  rewrite !(getStr_ok item), !(dateOf_ok item) by exact H.
  chains.
  rewrite !(orN_parsed _ _ _ _ eq_refl eq_refl).
  cbn [orD bind]. rewrite orStr_parsed.
  destruct (Js.member item "id") as [[]|]; cbn [bind Spec.idOf];
    try reflexivity;
    destruct (Js.member item "codigo") as [[]|]; reflexivity.
Qed.

Lemma map_null (rnd now : string) :
  All.mapAtendimento number numFalsy rnd now Js.VNull = Throw
  /\ All.mapBruto number rnd now Js.VNull = Throw.
Proof. split; reflexivity. Qed.

End MapFacts.

(** C7 (as the code has it).  For a record other than [null], the
    attendance normalizer takes the phone from the chain nested-lead
    telefone1, nested-lead celular, top-level telefone, and the raw-lead
    normalizer from the chain top-level telefone1, celular, telefone,
    phone; the first non-empty string wins and the phone is the empty
    string when there is none.  In particular an attendance whose nested
    lead has telefone1 "11999999999" gets that phone. *)
Theorem phone_chains {number} (numFalsy : number -> bool) (rnd now : string)
  (item : Js.value number) :
  item <> Js.VNull ->
  (exists l, All.mapAtendimento number numFalsy rnd now item = Ok l
     /\ All.telefone number l
        = Spec.firstNonEmpty [Spec.field (Spec.nested item) "telefone1";
                              Spec.field (Spec.nested item) "celular";
                              Spec.field (Some item) "telefone"]
     /\ (Spec.field (Spec.nested item) "telefone1" = "11999999999" ->
         All.telefone number l = "11999999999"))
  /\ (exists l, All.mapBruto number rnd now item = Ok l
     /\ All.telefone number l
        = Spec.firstNonEmpty [Spec.field (Some item) "telefone1";
                              Spec.field (Some item) "celular";
                              Spec.field (Some item) "telefone";
                              Spec.field (Some item) "phone"]).
Proof.
  intros H. split.
  - eexists. split; [apply mapAtendimento_ok; exact H|].
    cbn [All.telefone]. split; [reflexivity|].
    intros ->. reflexivity.
  - eexists. split; [apply mapBruto_ok; exact H | reflexivity].
Qed.

(** The example of the specification: an attendance whose nested lead has
    telefone1 "11999999999" and which has no top-level phone. *)
Lemma phone_chains_witness :
  exists l,
    All.mapAtendimento Z Host.numFalsy (Host.rnd 0) (Host.now 0)
      (Host.obj [("codigo", Js.VNum 7%Z);
                 ("lead", Host.obj [("nome", Host.str "Ana");
                                    ("telefone1", Host.str "11999999999")])])
    = Ok l
    /\ All.telefone Z l = "11999999999".
Proof.
  destruct (phone_chains Host.numFalsy (Host.rnd 0) (Host.now 0)
              (Host.obj [("codigo", Js.VNum 7%Z);
                         ("lead", Host.obj [("nome", Host.str "Ana");
                                            ("telefone1", Host.str "11999999999")])]))
    as [[l (E & _ & T)] _]; [discriminate|].
  exists l. split; [exact E | exact (T eq_refl)].
Defined.

(** C7 as stated fails on both normalizers: the attendance normalizer
    never reads a top-level [phone], and the raw-lead normalizer never
    reads a nested lead. *)
Lemma phone_chain_differs :
  (let item := Host.obj [("phone", Host.str "11999999999")] in
   Spec.phoneChain item = "11999999999"
   /\ exists l, All.mapAtendimento Z Host.numFalsy (Host.rnd 0) (Host.now 0) item = Ok l
                /\ All.telefone Z l = "")
  /\ (let item := Host.obj [("lead", Host.obj [("telefone1", Host.str "11999999999")])] in
      Spec.phoneChain item = "11999999999"
      /\ exists l, All.mapBruto Z (Host.rnd 0) (Host.now 0) item = Ok l
                   /\ All.telefone Z l = "").
Proof.
  split; (split; [reflexivity | eexists; split; reflexivity]).
Qed.

(** C9 (as the code has it).  For a record other than [null],
    [data_entrada] is never missing and never empty: it is the answer of
    the Date Normalizer for the first entry-date field it accepts and the
    current time's ISO string when it accepts none; [primeira_interacao]
    is absent or a non-empty answer of the Date Normalizer, and always
    absent on a raw lead.  An entry date [DD/MM/YYYY HH:mm] gives the ISO
    string [YYYY-MM-DDTHH:mm:00]. *)
Theorem entry_date_present {number} (numFalsy : number -> bool) (rnd now : string)
  (item : Js.value number) :
  item <> Js.VNull -> Str.isEmpty now = false ->
  exists a b,
    All.mapAtendimento number numFalsy rnd now item = Ok a
    /\ All.mapBruto number rnd now item = Ok b
    /\ All.data_entrada number a
       = orElse (Spec.firstSome
                   [parseDate (Some (Spec.field (Some item) "datahoraentradalead"));
                    parseDate (Some (Spec.field (Some item) "data_entrada"))]) now
    /\ All.data_entrada number b
       = orElse (Spec.firstSome
                   [parseDate (Some (Spec.field (Some item) "data_criacao"));
                    parseDate (Some (Spec.field (Some item) "datahoraentradalead"))]) now
    /\ Str.isEmpty (All.data_entrada number a) = false
    /\ Str.isEmpty (All.data_entrada number b) = false
    /\ All.primeira_interacao number a
       = Spec.firstSome
           [parseDate (Some (Spec.field (Some item) "datahoraultimainteracao"));
            parseDate (Some (Spec.field (Some item) "primeira_interacao"))]
    /\ (All.primeira_interacao number a = None
        \/ exists p, All.primeira_interacao number a = Some p /\ Str.isEmpty p = false)
    /\ All.primeira_interacao number b = None
    /\ (forall DD MM YYYY HH mm,
          Spec.digits 2 DD = true -> Spec.digits 2 MM = true ->
          Spec.digits 4 YYYY = true ->
          Spec.digits 2 HH = true -> Spec.digits 2 mm = true ->
          Spec.field (Some item) "datahoraentradalead"
            = DD ++ "/" ++ MM ++ "/" ++ YYYY ++ " " ++ HH ++ ":" ++ mm ->
          All.data_entrada number a
            = YYYY ++ "-" ++ MM ++ "-" ++ DD ++ "T" ++ HH ++ ":" ++ mm ++ ":00").
Proof.
  intros H Hnow.
  eexists. eexists.
  split; [apply mapAtendimento_ok; exact H|].
  split; [apply mapBruto_ok; exact H|].
  cbn [All.data_entrada All.primeira_interacao].
  assert (NE : forall i j, Str.isEmpty
            (orElse (Spec.firstSome [parseDate i; parseDate j]) now) = false).
  { intros i j. destruct (Spec.firstSome [parseDate i; parseDate j]) as [s|] eqn:E.
    - exact (firstSome_parsed i j s E).
    - exact Hnow. }
  split; [reflexivity|]. split; [reflexivity|].
  split; [apply NE|]. split; [apply NE|].
  split; [reflexivity|].
  split.
  { match goal with |- ?x = None \/ _ => destruct x as [p|] eqn:E end.
    - right. exists p. split; [reflexivity|]. exact (firstSome_parsed _ _ p E).
    - now left. }
  split; [reflexivity|].
  intros DD MM YYYY HH mm Hd Hm Hy Hh Hn E. rewrite E.
  apply digits_token in Hd, Hm, Hy, Hh, Hn.
  destruct (parseDate_slashed DD MM YYYY Hd Hm Hy) as [P _].
  cbn [Spec.firstSome]. now rewrite (P HH mm Hh Hn).
Qed.

Lemma entry_date_present_witness :
  exists a,
    All.mapAtendimento Z Host.numFalsy (Host.rnd 0) (Host.now 0)
      (Host.obj [("datahoraentradalead", Host.str "25/12/2024 14:30")]) = Ok a
    /\ All.data_entrada Z a = "2024-12-25T14:30:00".
Proof.
  destruct (entry_date_present Host.numFalsy (Host.rnd 0) (Host.now 0)
              (Host.obj [("datahoraentradalead", Host.str "25/12/2024 14:30")]))
    as (a & b & Ea & _ & _ & _ & _ & _ & _ & _ & _ & Hiso);
    [discriminate | reflexivity |].
  exists a. split; [exact Ea|].
  apply (Hiso "25" "12" "2024" "14" "30"); reflexivity.
Defined.

(** C9 as stated fails: a date whose day, month and hour have one digit
    is reordered into a string that is no ISO date-time, which the
    code's own ISO test refuses. *)
Lemma entry_date_not_iso :
  exists a,
    All.mapAtendimento Z Host.numFalsy (Host.rnd 0) (Host.now 0)
      (Host.obj [("datahoraentradalead", Host.str "5/3/2024 9:05")]) = Ok a
    /\ All.data_entrada Z a = "2024-3-5T9:05:00"
    /\ Str.isoAnchored (All.data_entrada Z a) = false.
Proof. eexists. split; [reflexivity|]. split; reflexivity. Qed.

(** ** From the handler to the dashboard *)

Lemma mapFrom_In {A B} (f : nat -> A -> outcome B) (l : list A) :
  forall i ys, mapFrom f i l = Ok ys ->
  forall y, In y ys -> exists j x, In x l /\ f j x = Ok y.
Proof.
  induction l as [|x l IH]; intros i ys E y Hy; cbn in E.
  - injection E as <-. destruct Hy.
  - destruct (f i x) as [y0|] eqn:Ef; [|discriminate]. cbn in E.
    destruct (mapFrom f (S i) l) as [ys0|] eqn:Em; [|discriminate]. cbn in E.
    injection E as <-. destruct Hy as [<-|Hy].
    + exists i, x. split; [now left | exact Ef].
    + destruct (IH _ _ Em y Hy) as (j & x' & Hx & Hf).
      exists j, x'. split; [now right | exact Hf].
Qed.

Section SortFacts.
Context (getTime : string -> option Z) {L : Type} (data_entrada : L -> string).

Lemma insert_perm (x : L) (l : list L) :
  Permutation (insert getTime L data_entrada x l) (x :: l).
Proof.
  induction l as [|y l IH]; cbn; [apply Permutation_refl|].
  destruct (positive _); [|apply Permutation_refl].
  eapply perm_trans; [apply perm_skip, IH | apply perm_swap].
Qed.

Lemma sort_perm (l : list L) :
  Permutation (sortByEntradaDesc getTime data_entrada l) l.
Proof.
  induction l as [|x l IH]; cbn; [apply perm_nil|].
  eapply perm_trans; [apply insert_perm | apply perm_skip, IH].
Qed.

End SortFacts.

Lemma receiveAll_leadToJSON {number} (rnd now : string) (l : All.Lead number) :
  Dashboard.receiveAll number rnd now (All.leadToJSON number l)
  = Some {| Dashboard.id := All.id number l;
            Dashboard.nome := All.nome number l;
            Dashboard.telefone := All.telefone number l;
            Dashboard.email := Some (All.email number l);
            Dashboard.status := All.status number l;
            Dashboard.time := Some (All.time number l);
            Dashboard.data_entrada := All.data_entrada number l;
            Dashboard.primeira_interacao := All.primeira_interacao number l;
            Dashboard.origem := Some (All.origem number l);
            Dashboard.tem_atendimento := Some (All.tem_atendimento number l) |}.
Proof.
  destruct l as [i n t e s tm d [p|] o [|]]; destruct i; reflexivity.
Qed.

Lemma rawLeadsOf_body {number} (numFalsy : number -> bool) (ls : list (All.Lead number)) :
  Dashboard.rawLeadsOf number numFalsy (All.bodyToJSON number (Http.LeadsBody ls))
  = Ok (map (All.leadToJSON number) ls).
Proof. reflexivity. Qed.

(** C10.  A lead made by [mapBruto] has no [primeira_interacao] and
    [tem_atendimento] false; a lead made by [mapAtendimento] has
    [tem_atendimento] true.  Hence every raw lead in a response of
    proxy-leads-all reaches the dashboard without a first interaction:
    it is counted and listed as pendente, and its SLA is measured up to
    the current time. *)
Theorem raw_leads_pending {number} (numFalsy : number -> bool)
  (getTime : string -> option Z) :
  (forall rnd now item l,
      All.mapBruto number rnd now item = Ok l ->
      All.primeira_interacao number l = None /\ All.tem_atendimento number l = false)
  /\ (forall rnd now item l,
      All.mapAtendimento number numFalsy rnd now item = Ok l ->
      All.tem_atendimento number l = true)
  /\ (forall API_KEY up rnd now r,
      All.GET number numFalsy getTime API_KEY up rnd now = Ok r ->
      forall ls, Http.body r = Http.LeadsBody ls ->
      Dashboard.rawLeadsOf number numFalsy (All.bodyToJSON number (Http.body r))
        = Ok (map (All.leadToJSON number) ls)
      /\ forall l, In l ls -> All.tem_atendimento number l = false ->
         forall rnd' now', exists c,
           Dashboard.receiveAll number rnd' now' (All.leadToJSON number l) = Some c
           /\ Dashboard.tem_atendimento number c = Some false
           /\ Dashboard.primeira_interacao number c = None
           /\ Dashboard.isPendente number c = true
           /\ Dashboard.pendentes (Dashboard.kpis number [c]) = 1%nat
           /\ Dashboard.pendingRows number [c] = [c]
           /\ forall nowMs,
                endTimeOf getTime nowMs (Dashboard.primeira_interacao number c) = Some nowMs
                /\ Dashboard.slaOfLead number getTime nowMs c
                   = Dashboard.getSLAInfo getTime nowMs (Dashboard.data_entrada number c) None).
Proof.
  assert (B : forall rnd now item l,
             All.mapBruto number rnd now item = Ok l ->
             All.primeira_interacao number l = None
             /\ All.tem_atendimento number l = false).
  { intros rnd now item l E.
    destruct item; try discriminate E;
      rewrite mapBruto_ok in E by discriminate; injection E as <-; split; reflexivity. }
  assert (A : forall rnd now item l,
             All.mapAtendimento number numFalsy rnd now item = Ok l ->
             All.tem_atendimento number l = true).
  { intros rnd now item l E.
    destruct item; try discriminate E;
      rewrite mapAtendimento_ok in E by discriminate; injection E as <-; reflexivity. }
  split; [exact B|]. split; [exact A|].
  intros key up rnd now r E ls Hb. rewrite Hb.
  split; [apply rawLeadsOf_body|].
  intros l Hl Htem rnd' now'.
  assert (P : All.primeira_interacao number l = None).
  { unfold All.GET in E. destruct (keyMissing key).
    - injection E as <-. discriminate Hb.
    - destruct (mapFrom _ 0 _) as [ats|] eqn:Ea; [|discriminate]. cbn [bind] in E.
      destruct (mapFrom _ _ (All.fetchLeadsBrutos number numFalsy up)) as [brs|] eqn:Eb;
        [|discriminate]. cbn [bind] in E.
      injection E as <-. cbn in Hb. injection Hb as <-.
      apply (Permutation_in _ (sort_perm getTime _ _)) in Hl.
      apply in_app_or in Hl as [Hl|Hl].
      + destruct (mapFrom_In _ _ _ _ Eb l Hl) as (j & x & _ & Hx).
        apply (B _ _ _ _ Hx).
      + destruct (mapFrom_In _ _ _ _ Ea l Hl) as (j & x & _ & Hx).
        rewrite (A _ _ _ _ Hx) in Htem. discriminate. }
  eexists. split; [apply receiveAll_leadToJSON|].
  cbn. rewrite P, Htem. cbn.
  repeat (split; try reflexivity).
Qed.

(** A response made of one raw lead and no attendance. *)
Lemma raw_leads_pending_witness :
  exists l c,
    All.mapBruto Z (Host.rnd 0) (Host.now 0)
      (Host.obj [("id", Js.VNum 7%Z); ("nome", Host.str "Ana")]) = Ok l
    /\ All.primeira_interacao Z l = None
    /\ Dashboard.receiveAll Z (Host.rnd 0) (Host.now 0) (All.leadToJSON Z l) = Some c
    /\ Dashboard.isPendente Z c = true.
Proof.
  destruct (raw_leads_pending Host.numFalsy Host.getTime) as (B & _ & G).
  pose (up := fun url : string =>
                if String.eqb url (BASE_URL ++ "/Lead/RetornarLeads")
                then Http.Json (Js.VArr [Host.obj [("id", Js.VNum 7%Z);
                                                   ("nome", Host.str "Ana")]])
                else Http.Failed (Http.NotOk 404)).
  destruct (All.mapBruto Z (Host.rnd 0) (Host.now 0)
              (Host.obj [("id", Js.VNum 7%Z); ("nome", Host.str "Ana")]))
    as [l|] eqn:E; [|discriminate E].
  destruct (B _ _ _ _ E) as [P T].
  assert (R : All.GET Z Host.numFalsy Host.getTime (Some "chave") up Host.rnd Host.now
              = Ok (Http.Build_response 200 (Http.LeadsBody [l]))).
  { vm_compute in E. injection E as <-. reflexivity. }
  destruct (G _ _ _ _ _ R [l] eq_refl) as [_ C].
  destruct (C l (or_introl eq_refl) T (Host.rnd 0) (Host.now 0)) as (c & Ec & _ & _ & Pc & _).
  exists l, c. exact (conj eq_refl (conj P (conj Ec Pc))).
Defined.

(** ** The proxy handlers *)

Section HandlerFacts.
Context {number : Type} (numFalsy : number -> bool) (numToString : number -> string).
Context (getTime : string -> option Z).

Lemma fetchAtendimentos_emptied (up : Http.upstream number) (finalidade : Z) :
  All.fetchAtendimentos number numFalsy (Http.emptied up) finalidade
  = All.fetchAtendimentos number numFalsy up finalidade.
Proof.
  unfold All.fetchAtendimentos, Http.emptied.
  now destruct (up _).
Qed.

Lemma firstLeads_emptied (up : Http.upstream number) (urls : list string) :
  All.firstLeads number numFalsy (Http.emptied up) urls
  = All.firstLeads number numFalsy up urls.
Proof.
  induction urls as [|url urls IH]; [reflexivity|].
  cbn [All.firstLeads]. unfold Http.emptied at 1.
  destruct (up url); cbn; rewrite IH; reflexivity.
Qed.

Lemma fetchLeads_emptied (up : Http.upstream number) (finalidade : Z) :
  Legacy.fetchLeads number (Http.emptied up) finalidade
  = Legacy.fetchLeads number up finalidade.
Proof.
  unfold Legacy.fetchLeads, Http.emptied.
  now destruct (up _).
Qed.

Lemma firstLeads_failing (f : string -> Http.failure) (urls : list string) :
  All.firstLeads number numFalsy (Http.allFailing f) urls = [].
Proof. induction urls as [|url urls IH]; [reflexivity | exact IH]. Qed.

Lemma all_GET_emptied (key : option string) (up : Http.upstream number)
  (rnd now : nat -> string) :
  All.GET number numFalsy getTime key (Http.emptied up) rnd now
  = All.GET number numFalsy getTime key up rnd now.
Proof.
  unfold All.GET, All.fetchLeadsBrutos.
  now rewrite !fetchAtendimentos_emptied, firstLeads_emptied.
Qed.

Lemma legacy_GET_emptied (key : option string) (up : Http.upstream number)
  (rnd now : nat -> string) :
  Legacy.GET number numFalsy numToString getTime key (Http.emptied up) rnd now
  = Legacy.GET number numFalsy numToString getTime key up rnd now.
Proof.
  unfold Legacy.GET. now rewrite !fetchLeads_emptied.
Qed.

Lemma all_GET_shape (key : option string) (up : Http.upstream number)
  (rnd now : nat -> string) :
  keyMissing key = false ->
  All.GET number numFalsy getTime key up rnd now = Throw
  \/ exists ls, All.GET number numFalsy getTime key up rnd now
                = Ok (Http.Build_response 200 (Http.LeadsBody ls)).
Proof.
  intros K. unfold All.GET. rewrite K.
  destruct (mapFrom _ 0 _) as [ats|]; [|now left]. cbn [bind].
  destruct (mapFrom _ _ _) as [brs|]; [|now left]. cbn [bind].
  right. eexists. reflexivity.
Qed.

Lemma legacy_GET_shape (key : option string) (up : Http.upstream number)
  (rnd now : nat -> string) :
  keyMissing key = false ->
  Legacy.GET number numFalsy numToString getTime key up rnd now
    = Http.Build_response 500 (Http.ErrorBody Legacy.internalError)
  \/ exists ls, Legacy.GET number numFalsy numToString getTime key up rnd now
                = Http.Build_response 200 (Http.LeadsBody ls).
Proof.
  intros K. unfold Legacy.GET. rewrite K.
  destruct (mapFrom _ 0 _) as [ls|]; [|now left].
  right. eexists. reflexivity.
Qed.

End HandlerFacts.

(** C2 (as the code has it).  Without the API key (unset or empty) each
    handler returns status 500 and the body [{ error }].  With the key,
    when every upstream call fails (by a fetch exception, a non-OK
    response or an unparseable body) each handler returns status 200 and
    an empty list of leads, and whatever the upstream answers a failed
    call counts exactly as an empty list.  proxy-leads-all never returns
    another status than 200 with the key; proxy-leads returns either 200
    with its leads or, from its [catch], 500 with the body
    [{ error: "Falha interna ao conectar com a API" }]. *)
Theorem proxy_status {number} (numFalsy : number -> bool)
  (numToString : number -> string) (getTime : string -> option Z)
  (API_KEY : option string) (up : Http.upstream number)
  (failures : string -> Http.failure) (rnd now : nat -> string) :
  let all := All.GET number numFalsy getTime API_KEY in
  let legacy := Legacy.GET number numFalsy numToString getTime API_KEY in
  if keyMissing API_KEY then
    all up rnd now = Ok (Http.Build_response 500 (Http.ErrorBody keyError))
    /\ legacy up rnd now = Http.Build_response 500 (Http.ErrorBody keyError)
  else
    all (Http.allFailing failures) rnd now
      = Ok (Http.Build_response 200 (Http.LeadsBody []))
    /\ legacy (Http.allFailing failures) rnd now
      = Http.Build_response 200 (Http.LeadsBody [])
    /\ all up rnd now = all (Http.emptied up) rnd now
    /\ legacy up rnd now = legacy (Http.emptied up) rnd now
    /\ (all up rnd now = Throw
        \/ exists ls, all up rnd now = Ok (Http.Build_response 200 (Http.LeadsBody ls)))
    /\ (legacy up rnd now
          = Http.Build_response 500 (Http.ErrorBody Legacy.internalError)
        \/ exists ls, legacy up rnd now = Http.Build_response 200 (Http.LeadsBody ls)).
Proof.
  intros all legacy. subst all legacy.
  destruct (keyMissing API_KEY) eqn:K.
  - unfold All.GET, Legacy.GET. rewrite K. split; reflexivity.
  - split.
    { unfold All.GET, All.fetchLeadsBrutos. rewrite K.
      rewrite firstLeads_failing. reflexivity. }
    split.
    { unfold Legacy.GET. rewrite K. reflexivity. }
    split; [symmetry; apply all_GET_emptied|].
    split; [symmetry; apply legacy_GET_emptied|].
    split; [apply all_GET_shape, K | apply legacy_GET_shape, K].
Qed.

(** With the key, a dead upstream still gets status 200. *)
Lemma proxy_status_witness :
  All.GET Z Host.numFalsy Host.getTime (Some "chave")
    (Http.allFailing (fun _ => Http.NotOk 503)) Host.rnd Host.now
  = Ok (Http.Build_response 200 (Http.LeadsBody []))
  /\ Legacy.GET Z Host.numFalsy Host.numToString Host.getTime (Some "chave")
       (Http.allFailing (fun _ => Http.NotOk 503)) Host.rnd Host.now
     = Http.Build_response 200 (Http.LeadsBody []).
Proof.
  pose proof (proxy_status Host.numFalsy Host.numToString Host.getTime (Some "chave")
                (Host.always (Http.Json Js.VNull)) (fun _ => Http.NotOk 503)
                Host.rnd Host.now) as H.
  cbv zeta in H. change (keyMissing (Some "chave")) with false in H. cbv iota in H.
  destruct H as (A & B & _).
  exact (conj A B).
Defined.

(** C2 as stated fails: with the key present, a [null] among the
    attendances makes proxy-leads return status 500. *)
Lemma legacy_500_with_key :
  keyMissing (Some "chave") = false
  /\ Legacy.GET Z Host.numFalsy Host.numToString Host.getTime (Some "chave")
       (Host.always (Http.Json (Js.VArr [Js.VNull]))) Host.rnd Host.now
     = Http.Build_response 500 (Http.ErrorBody "Falha interna ao conectar com a API").
Proof. split; reflexivity. Qed.

(** ** The SLA rule *)

Lemma two_hours (x : Z) : (2 <=? x / (1000 * 60) / 60)%Z = (120 * 60000 <=? x)%Z.
Proof.
  destruct (Z.leb_spec (120 * 60000) x); [apply Z.leb_le | apply Z.leb_gt];
    Z.to_euclidean_division_equations; lia.
Qed.

Lemma isLateOf_wait (getTime : string -> option Z) (nowMs : Z)
  (entry : string) (firstInteraction : option string) :
  isLateOf getTime nowMs entry firstInteraction =
  match Spec.waitMs getTime nowMs entry firstInteraction with
  | Some w => (120 * 60000 <=? w)%Z
  | None => false
  end.
Proof.
  unfold isLateOf, diffHoursOf, diffMinutesOf, endTimeOf, Spec.waitMs.
  destruct firstInteraction as [[|c r]|]; cbn [Spec.absent Str.isEmpty];
    try destruct (getTime (String c r)); destruct (getTime entry);
    cbn; try reflexivity; apply two_hours.
Qed.

(** C1.  On the dashboard and in the reports alike, [getSLAInfo] marks a
    lead late exactly when its wait, the first interaction time (the
    current time when there is no first interaction) minus the entry
    time, is at least 120 minutes; a wait of exactly 120 minutes is
    late.  A wait that is undefined because a date does not parse is
    not late. *)
Theorem late_from_120_minutes (getTime : string -> option Z) (nowMs : Z)
  (data_entrada : string) (primeira_interacao : option string) :
  let late := Dashboard.isLate
                (Dashboard.getSLAInfo getTime nowMs data_entrada primeira_interacao) in
  let wait := Spec.waitMs getTime nowMs data_entrada primeira_interacao in
  (late = true <-> exists w, wait = Some w /\ (120 * 60000 <= w)%Z)
  /\ (wait = Some (120 * 60000)%Z -> late = true)
  /\ Reports.isLate (Reports.getSLAInfo getTime nowMs data_entrada primeira_interacao)
     = late
  /\ Dashboard.slaStatus
       (Dashboard.getSLAInfo getTime nowMs data_entrada primeira_interacao)
     = (if late then "Atrasado" else "No Prazo").
Proof.
  intros late wait. subst late wait.
  cbn [Dashboard.getSLAInfo Dashboard.isLate Reports.getSLAInfo Reports.isLate
       Dashboard.slaStatus].
  rewrite isLateOf_wait.
  destruct (Spec.waitMs getTime nowMs data_entrada primeira_interacao) as [w|].
  - split; [|split; [|split; reflexivity]].
    + rewrite Z.leb_le. split.
      * intros H. exists w. now split.
      * intros (w' & [= <-] & H). exact H.
    + intros [= ->]. reflexivity.
  - split; [|split; [|split; reflexivity]].
    + split; [discriminate | intros (w & E & _); discriminate E].
    + discriminate.
Qed.

(** A lead that entered at 10:00 and was first answered at 12:00, and one
    that entered at 10:00 and is still waiting at 12:00, are late. *)
Lemma late_from_120_minutes_witness :
  Dashboard.isLate
    (Dashboard.getSLAInfo Host.getTime 0
       "2024-12-25T10:00:00.000Z" (Some "2024-12-25T12:00:00.000Z")) = true
  /\ Dashboard.isLate
       (Dashboard.getSLAInfo Host.getTime 1735128000000
          "2024-12-25T10:00:00.000Z" None) = true.
Proof.
  split.
  - apply (proj1 (proj2 (late_from_120_minutes Host.getTime 0
                           "2024-12-25T10:00:00.000Z"
                           (Some "2024-12-25T12:00:00.000Z")))).
    reflexivity.
  - apply (proj1 (proj2 (late_from_120_minutes Host.getTime 1735128000000
                           "2024-12-25T10:00:00.000Z" None))).
    reflexivity.
Defined.

(** ** The KPI of pending leads *)

Lemma isPendente_absent {number} (l : Dashboard.Lead number) :
  Dashboard.isPendente number l = Spec.absent (Dashboard.primeira_interacao number l).
Proof.
  unfold Dashboard.isPendente.
  now destruct (Dashboard.primeira_interacao number l) as [[|c r]|].
Qed.

Lemma filter_same {A} (p q : A -> bool) (l : list A) :
  (forall x, p x = q x) -> filter p l = filter q l.
Proof.
  intros H. induction l as [|x l IH]; [reflexivity|].
  cbn. now rewrite H, IH.
Qed.

Lemma filter_split_length {A} (p : A -> bool) (l : list A) :
  (length (filter p l) + length (filter (fun x => negb (p x)) l) = length l)%nat.
Proof.
  induction l as [|x l IH]; [reflexivity|].
  cbn. destruct (p x); cbn; lia.
Qed.

(** C8.  The pendentes KPI is the number of leads whose
    [primeira_interacao] is absent (undefined, or the empty string, which
    the test [!l.primeira_interacao] does not tell apart); the leads it
    counts are the rows of the "Leads Pendentes" table.  A lead without
    [primeira_interacao] is always pendente and a lead with one never
    is, so that pendentes and the leads with a first interaction add up
    to the total. *)
Theorem pendentes_counts_absent {number} (leads : list (Dashboard.Lead number)) :
  let absent := fun l => Spec.absent (Dashboard.primeira_interacao number l) in
  Dashboard.pendentes (Dashboard.kpis number leads) = length (filter absent leads)
  /\ Dashboard.pendingRows number leads = filter absent leads
  /\ (Dashboard.pendentes (Dashboard.kpis number leads)
      + length (filter (fun l => negb (absent l)) leads)
      = Dashboard.totalLeads (Dashboard.kpis number leads))%nat
  /\ (forall l, Dashboard.primeira_interacao number l = None ->
                Dashboard.isPendente number l = true)
  /\ (forall l c r, Dashboard.primeira_interacao number l = Some (String c r) ->
                    Dashboard.isPendente number l = false)
  /\ (forall l, In l (Dashboard.pendingRows number leads)
                <-> In l leads /\ absent l = true).
Proof.
  intros absent.
  assert (F : filter (Dashboard.isPendente number) leads = filter absent leads)
    by (apply filter_same, isPendente_absent).
  unfold Dashboard.pendingRows. cbn [Dashboard.kpis Dashboard.pendentes Dashboard.totalLeads].
  rewrite F.
  split; [reflexivity|]. split; [reflexivity|].
  split; [apply filter_split_length|].
  split; [|split].
  - intros l E. unfold Dashboard.isPendente. now rewrite E.
  - intros l c r E. unfold Dashboard.isPendente. now rewrite E.
  - intros l. apply filter_In.
Qed.

Lemma pendentes_counts_absent_witness :
  let lead := fun (n : string) (p : option string) =>
    {| Dashboard.id := All.IdStr Z n; Dashboard.nome := n; Dashboard.telefone := "";
       Dashboard.email := None; Dashboard.status := "Novo"; Dashboard.time := None;
       Dashboard.data_entrada := "2024-12-25T10:00:00.000Z";
       Dashboard.primeira_interacao := p;
       Dashboard.origem := None; Dashboard.tem_atendimento := None |} in
  Dashboard.pendentes
    (Dashboard.kpis Z [lead "a" None; lead "b" (Some "2024-12-25T12:00:00.000Z");
                       lead "c" None]) = 2%nat.
Proof.
  intros lead.
  rewrite (proj1 (pendentes_counts_absent
                    [lead "a" None; lead "b" (Some "2024-12-25T12:00:00.000Z");
                     lead "c" None])).
  reflexivity.
Defined.

(* ================================================================== *)
(** * Further properties *)

(** ** More on the Date Normalizers *)

Lemma trimEnd_no_trailing (s : string) :
  Str.endsWithWhiteSpace (Str.trimEnd s) = false.
Proof.
  induction s as [|c r IH]; [reflexivity|].
  cbn [Str.trimEnd].
  destruct (Str.trimEnd r) as [|c' r'] eqn:E.
  - destruct (Str.isWhiteSpace c) eqn:W; [reflexivity | exact W].
  - exact IH.
Qed.

Lemma trimEnd_idem (s : string) : Str.trimEnd (Str.trimEnd s) = Str.trimEnd s.
Proof. apply trimEnd_keep, trimEnd_no_trailing. Qed.

Lemma trimStart_starts (s : string) :
  Str.trimStart s = "" \/ exists c r, Str.trimStart s = String c r /\ Str.isWhiteSpace c = false.
Proof.
  induction s as [|c r IH]; [now left|].
  cbn [Str.trimStart]. destruct (Str.isWhiteSpace c) eqn:W; [exact IH|].
  right. now exists c, r.
Qed.

Lemma trim_idem (s : string) : Str.trim (Str.trim s) = Str.trim s.
Proof.
  unfold Str.trim.
  destruct (trimStart_starts s) as [E|(c & r & E & W)]; rewrite E.
  - reflexivity.
  - rewrite (trimEnd_solid c r W), (trimStart_solid c _ W).
    rewrite <- (trimEnd_solid c r W). apply trimEnd_idem.
Qed.

(** X1.  [parseDate] does not see the white space around its input: an
    input and its trimmed form get the same answer. *)
Theorem parseDate_ignores_padding (input : string) :
  parseDate (Some input) = parseDate (Some (Str.trim input)).
Proof.
  unfold parseDate. rewrite trim_idem.
  destruct input as [|c r]; [reflexivity|].
  cbn [Str.isEmpty].
  destruct (Str.isEmpty (Str.trim (String c r))); reflexivity.
Qed.

Lemma closed_app (a b : string) :
  Str.endsWithWhiteSpace b = false /\ Str.isEmpty b = false ->
  Str.endsWithWhiteSpace (a ++ b) = false /\ Str.isEmpty (a ++ b) = false.
Proof.
  intros [E N]. induction a as [|c a [IH1 IH2]]; [now split|].
  split; [|reflexivity]. simpl.
  destruct (a ++ b); [discriminate | exact IH1].
Qed.

Lemma closed_cons (c : ascii) (b : string) :
  Str.endsWithWhiteSpace b = false /\ Str.isEmpty b = false ->
  Str.endsWithWhiteSpace (String c b) = false /\ Str.isEmpty (String c b) = false.
Proof. intros [E N]. split; [|reflexivity]. simpl. now destruct b. Qed.

(** What [parseDate] answers never ends in white space. *)
Lemma parseDate_no_trailing (input : option string) (s : string) :
  parseDate input = Some s -> Str.endsWithWhiteSpace s = false.
Proof.
  unfold parseDate. destruct input as [i|]; [|discriminate].
  destruct (Str.isEmpty i); [discriminate|].
  destruct (Str.isEmpty (Str.trim i)); [discriminate|].
  destruct (Str.isoAnchored (Str.trim i)).
  - intros [= <-]. apply trimEnd_no_trailing.
  - destruct (Str.split "/" _) as [|d [|m [|y [|? ?]]]]; try discriminate.
    intros [= <-]. cbn [append].
    repeat first [split; reflexivity | apply closed_cons | apply closed_app].
Qed.

(** X2.  An ISO-anchored answer of [parseDate] is a fixed point: given
    back to [parseDate] it is returned as it is.  In particular the
    answer for an input [DD/MM/YYYY HH:mm] is normalised already. *)
Theorem parseDate_settles (input : option string) (s : string) :
  parseDate input = Some s ->
  Str.isoAnchored s = true ->
  parseDate (Some s) = Some s.
Proof.
  intros P A.
  destruct (isoAnchored_trim s A) as [Ha Hs].
  unfold parseDate.
  rewrite (isoAnchored_nonempty s A), (isoAnchored_nonempty _ Ha), Ha.
  unfold Str.trim. rewrite Hs.
  now rewrite (trimEnd_keep s (parseDate_no_trailing input s P)).
Qed.

Lemma parseDate_settles_witness :
  parseDate (Some "2024-12-25T14:30:00") = Some "2024-12-25T14:30:00".
Proof.
  apply (parseDate_settles (Some "25/12/2024 14:30")); reflexivity.
Defined.

Lemma split3 (sep : ascii) (a b c : string) :
  Str.all (fun x => negb (Ascii.eqb x sep)) a = true ->
  Str.all (fun x => negb (Ascii.eqb x sep)) b = true ->
  Str.all (fun x => negb (Ascii.eqb x sep)) c = true ->
  Str.split sep (a ++ String sep (b ++ String sep c)) = [a; b; c].
Proof.
  intros Ha Hb Hc. now rewrite (split_at sep a), (split_at sep b), (split_whole sep c).
Qed.

(** X3.  [parseDate] keeps hours and minutes only: the seconds of an
    input [DD/MM/YYYY HH:mm:ss] are dropped and the answer ends in
    [:00]. *)
Theorem parseDate_drops_seconds (DD MM YYYY HH mm ss : string) :
  Spec.token DD -> Spec.token MM -> Spec.token YYYY ->
  Spec.token HH -> Spec.token mm -> Spec.token ss ->
  parseDate (Some (DD ++ "/" ++ MM ++ "/" ++ YYYY ++ " " ++ HH ++ ":" ++ mm ++ ":" ++ ss))
  = Some (YYYY ++ "-" ++ MM ++ "-" ++ DD ++ "T" ++ HH ++ ":" ++ mm ++ ":00").
Proof.
  intros Td Tm Ty Th Tn Ts.
  assert (Fd := fun sep H => token_free sep DD H Td).
  assert (Fm := fun sep H => token_free sep MM H Tm).
  assert (Fy := fun sep H => token_free sep YYYY H Ty).
  assert (Fh := fun sep H => token_free sep HH H Th).
  assert (Fn := fun sep H => token_free sep mm H Tn).
  assert (Fs := fun sep H => token_free sep ss H Ts).
  assert (Ed : Str.isEmpty DD = false) by apply Td.
  unfold parseDate. cbn [append].
  rewrite (isEmpty_app DD _ Ed).
  unfold Str.trim. rewrite (token_trimStart DD _ Td).
  match goal with
  | |- context [Str.trimEnd ?full] =>
      assert (K : Str.trimEnd full = full /\ Str.isEmpty full = false) by kept
  end.
  destruct K as [-> ->].
  rewrite (slash_not_anchored DD _ Td).
  rewrite (split_free_app " " DD), (split_cons_other " " "/"),
    (split_free_app " " MM), (split_cons_other " " "/"), (split_at " " YYYY),
    (split_free_app " " HH), (split_cons_other " " ":"),
    (split_free_app " " mm), (split_cons_other " " ":"), (split_whole " " ss)
    by (auto).
  cbn [nth_error].
  rewrite !orStr_some by (apply isEmpty_app; first [exact Ed | apply Th]).
  rewrite (split3 "/" DD MM YYYY), (split3 ":" HH mm ss) by auto.
  cbn [nth_error].
  rewrite !orStr_some by first [apply Th | apply Tn].
  reflexivity.
Qed.

Lemma parseDate_drops_seconds_witness :
  parseDate (Some "25/12/2024 14:30:59") = Some "2024-12-25T14:30:00".
Proof.
  apply (parseDate_drops_seconds "25" "12" "2024" "14" "30" "59"); split; reflexivity.
Defined.

(** X4.  [parseImoviewDate] of proxy-leads answers [null] only to a
    falsy value, to a value that is not a string, and to a string that
    starts with a space; every other string gets an answer, whatever it
    holds. *)
Theorem parseImoviewDate_null {number} (numFalsy : number -> bool)
  (dateStr : option (Js.value number)) :
  Legacy.parseImoviewDate number numFalsy dateStr = None
  <-> match dateStr with
      | Some (Js.VStr s) => s = "" \/ exists r, s = String " " r
      | _ => True
      end.
Proof.
  unfold Legacy.parseImoviewDate.
  destruct dateStr as [[ |b|n|s|l|fs]|]; cbn [Js.truthyU Js.truthy negb];
    try (split; [trivial | intros _]; try reflexivity;
         match goal with |- context [if ?c then _ else _] => now destruct c end).
  destruct s as [|c r]; [split; [now left | reflexivity]|].
  cbn [Str.isEmpty negb Str.split].
  destruct (Ascii.eqb_spec c " ") as [->|N].
  - cbn. split; [intros _; right; now exists r | reflexivity].
  - destruct (Str.split " " r) as [|h t] eqn:E;
      [now destruct (split_nonempty " " r)|].
    cbn [nth_error]. split; [discriminate|].
    intros [H|(r' & [= H _])]; [discriminate | contradiction].
Qed.

Lemma parseImoviewDate_null_witness :
  Legacy.parseImoviewDate Z Host.numFalsy (Some (Js.VStr " 25/12/2024")) = None
  /\ Legacy.parseImoviewDate Z Host.numFalsy (Some (Js.VNum 20241225%Z)) = None.
Proof.
  split.
  - apply (parseImoviewDate_null Host.numFalsy (Some (Js.VStr " 25/12/2024"))).
    right. now exists "25/12/2024".
  - apply (parseImoviewDate_null Host.numFalsy (Some (Js.VNum 20241225%Z))). exact I.
Defined.

(** X5.  [parseImoviewDate] has no ISO case: a string without space and
    slash, an ISO date among them, is taken whole for the day, and the
    answer is ["undefined-undefined-" ++ s ++ "T00:00:00"]. *)
Theorem parseImoviewDate_unslashed {number} (numFalsy : number -> bool) (s : string) :
  Str.isEmpty s = false ->
  Str.all (fun c => negb (Ascii.eqb c " ")) s = true ->
  Str.all (fun c => negb (Ascii.eqb c "/")) s = true ->
  Legacy.parseImoviewDate number numFalsy (Some (Js.VStr s))
  = Some ("undefined-undefined-" ++ s ++ "T00:00:00").
Proof.
  intros N Hs Hd. unfold Legacy.parseImoviewDate.
  cbn [Js.truthyU Js.truthy]. rewrite N. cbn [negb].
  rewrite (split_whole " " s Hs). cbn [nth_error].
  destruct s as [|c r]; [discriminate|].
  rewrite (split_whole "/" _ Hd). reflexivity.
Qed.

Lemma parseImoviewDate_unslashed_witness :
  Legacy.parseImoviewDate Z Host.numFalsy (Some (Js.VStr "2024-12-25T14:30:00"))
  = Some "undefined-undefined-2024-12-25T14:30:00T00:00:00".
Proof.
  apply (parseImoviewDate_unslashed Host.numFalsy "2024-12-25T14:30:00"); reflexivity.
Defined.

(** ** More on the Lead Normalizer *)

Lemma firstNonEmpty_default (chain : list string) (d : string) :
  Str.isEmpty d = false ->
  Str.isEmpty (Spec.firstNonEmpty (chain ++ [d])%list) = false.
Proof.
  intros Hd. induction chain as [|s chain IH]; cbn.
  - now rewrite Hd.
  - destruct (Str.isEmpty s) eqn:E; [exact IH | exact E].
Qed.

(** X6.  Whatever a record (other than [null]) holds, the lead made from
    it has a name, a status, a team and an origin that are not empty:
    where the record gives none, they are "Sem Nome", "Novo", "Geral" and
    "Site". *)
Theorem lead_defaults {number} (numFalsy : number -> bool) (rnd now : string)
  (item : Js.value number) :
  item <> Js.VNull ->
  exists a b,
    All.mapAtendimento number numFalsy rnd now item = Ok a
    /\ All.mapBruto number rnd now item = Ok b
    /\ Str.isEmpty (All.nome number a) = false
    /\ Str.isEmpty (All.status number a) = false
    /\ Str.isEmpty (All.time number a) = false
    /\ Str.isEmpty (All.origem number a) = false
    /\ Str.isEmpty (All.nome number b) = false
    /\ Str.isEmpty (All.status number b) = false
    /\ Str.isEmpty (All.time number b) = false
    /\ Str.isEmpty (All.origem number b) = false
    /\ (Spec.field (Spec.nested item) "nome" = "" -> Spec.field (Some item) "nome" = "" ->
        All.nome number a = "Sem Nome")
    /\ (Spec.field (Some item) "situacao" = "" -> All.status number a = "Novo")
    /\ (Spec.field (Some item) "unidadenome" = "" -> All.time number a = "Geral")
    /\ (Spec.field (Some item) "midia" = "" -> All.origem number a = "Site")
    /\ (Spec.field (Some item) "nome" = "" -> Spec.field (Some item) "lead_nome" = "" ->
        All.nome number b = "Sem Nome")
    /\ (Spec.field (Some item) "status" = "" -> All.status number b = "Novo")
    /\ (Spec.field (Some item) "unidadenome" = "" -> Spec.field (Some item) "time" = "" ->
        All.time number b = "Geral")
    /\ (Spec.field (Some item) "origem" = "" -> All.origem number b = "Site").
Proof.
  intros H. eexists. eexists.
  split; [apply mapAtendimento_ok; exact H|].
  split; [apply mapBruto_ok; exact H|].
  cbn [All.nome All.status All.time All.origem].
  repeat match goal with
  | |- Str.isEmpty (Spec.firstNonEmpty [?a; ?b; ?d]) = false /\ _ =>
      split; [apply (firstNonEmpty_default [a; b] d); reflexivity|]
  | |- Str.isEmpty (Spec.firstNonEmpty [?a; ?d]) = false /\ _ =>
      split; [apply (firstNonEmpty_default [a] d); reflexivity|]
  end.
  repeat match goal with
  | |- (_ -> _) /\ _ => split
  end; try (intros ->; reflexivity); intros -> ->; reflexivity.
Qed.

Lemma lead_defaults_witness :
  exists a,
    All.mapAtendimento Z Host.numFalsy (Host.rnd 0) (Host.now 0) (Host.obj []) = Ok a
    /\ All.nome Z a = "Sem Nome" /\ All.status Z a = "Novo"
    /\ All.time Z a = "Geral" /\ All.origem Z a = "Site".
Proof.
  destruct (lead_defaults Host.numFalsy (Host.rnd 0) (Host.now 0) (Host.obj []))
    as (a & b & Ea & _ & _ & _ & _ & _ & _ & _ & _ & _ & N & S & T & O & _);
    [discriminate|].
  exists a. exact (conj Ea (conj (N eq_refl eq_refl)
                     (conj (S eq_refl) (conj (T eq_refl) (O eq_refl))))).
Defined.

(** X7.  The [id] of a lead is the record's own whenever that is a string
    or a number, the empty string and zero included, since [??] only
    replaces [null] and [undefined]: [codigo] for an attendance, [id] and
    then [codigo] for a raw lead.  A random id is drawn only when the
    record has none of these. *)
Theorem lead_id {number} (numFalsy : number -> bool) (rnd now : string)
  (item : Js.value number) :
  item <> Js.VNull ->
  exists a b,
    All.mapAtendimento number numFalsy rnd now item = Ok a
    /\ All.mapBruto number rnd now item = Ok b
    /\ All.id number a
       = Spec.idOf (Js.member item "codigo") (All.IdStr number rnd)
    /\ All.id number b
       = Spec.idOf (Js.member item "id")
           (Spec.idOf (Js.member item "codigo") (All.IdStr number rnd))
    /\ (forall s, Js.member item "id" = Some (Js.VStr s) -> All.id number b = All.IdStr number s)
    /\ (forall n, Js.member item "id" = Some (Js.VNum n) -> All.id number b = All.IdNum number n)
    /\ (forall s, Js.member item "codigo" = Some (Js.VStr s) ->
                  All.id number a = All.IdStr number s)
    /\ (forall n, Js.member item "codigo" = Some (Js.VNum n) ->
                  All.id number a = All.IdNum number n)
    /\ (Js.member item "codigo" = None -> All.id number a = All.IdStr number rnd)
    /\ (Js.member item "id" = None -> Js.member item "codigo" = None ->
        All.id number b = All.IdStr number rnd).
Proof.
  intros H. eexists. eexists.
  split; [apply mapAtendimento_ok; exact H|].
  split; [apply mapBruto_ok; exact H|].
  cbn [All.id].
  split; [reflexivity|]. split; [reflexivity|].
  split; [intros s ->; reflexivity|]. split; [intros n ->; reflexivity|].
  split; [intros s ->; reflexivity|]. split; [intros n ->; reflexivity|].
  split; [intros ->; reflexivity | intros -> ->; reflexivity].
Qed.

Lemma lead_id_witness :
  exists b,
    All.mapBruto Z (Host.rnd 0) (Host.now 0)
      (Host.obj [("id", Js.VNum 0%Z); ("codigo", Js.VNum 9%Z)]) = Ok b
    /\ All.id Z b = All.IdNum Z 0%Z.
Proof.
  destruct (lead_id Host.numFalsy (Host.rnd 0) (Host.now 0)
              (Host.obj [("id", Js.VNum 0%Z); ("codigo", Js.VNum 9%Z)]))
    as (a & b & _ & Eb & _ & _ & _ & N & _); [discriminate|].
  exists b. exact (conj Eb (N 0%Z eq_refl)).
Defined.


(** ** More on the handlers *)

Lemma mapFrom_length {A B} (f : nat -> A -> outcome B) (l : list A) :
  forall i ys, mapFrom f i l = Ok ys -> length ys = length l.
Proof.
  induction l as [|x l IH]; intros i ys E; cbn in E.
  - now injection E as <-.
  - destruct (f i x) as [y|]; [|discriminate]. cbn in E.
    destruct (mapFrom f (S i) l) as [ys0|] eqn:Em; [|discriminate]. cbn in E.
    injection E as <-. cbn. now rewrite (IH _ _ Em).
Qed.

Lemma mapFrom_Forall {A B} (f : nat -> A -> outcome B) (P : B -> Prop) (l : list A) :
  (forall i x y, f i x = Ok y -> P y) ->
  forall i ys, mapFrom f i l = Ok ys -> Forall P ys.
Proof.
  intros Hf. induction l as [|x l IH]; intros i ys E; cbn in E.
  - injection E as <-. constructor.
  - destruct (f i x) as [y|] eqn:Ef; [|discriminate]. cbn in E.
    destruct (mapFrom f (S i) l) as [ys0|] eqn:Em; [|discriminate]. cbn in E.
    injection E as <-. constructor; [exact (Hf _ _ _ Ef) | exact (IH _ _ Em)].
Qed.

(** [l.map(f)] throws exactly when [f] throws on an element. *)
Lemma mapFrom_throw {A B} (f : nat -> A -> outcome B) (bad : A -> bool) (l : list A) :
  (forall i x, f i x = Throw <-> bad x = true) ->
  forall i, mapFrom f i l = Throw <-> existsb bad l = true.
Proof.
  intros Hf. induction l as [|x l IH]; intros i; cbn.
  - split; discriminate.
  - destruct (f i x) as [y|] eqn:Ef; cbn.
    + assert (Hb : bad x = false).
      { destruct (bad x) eqn:Eb; [|reflexivity].
        apply Hf with (i := i) in Eb. congruence. }
      rewrite Hb. cbn. rewrite <- (IH (S i)).
      destruct (mapFrom f (S i) l); cbn; split; congruence.
    + apply Hf in Ef. rewrite Ef. now split.
Qed.

Lemma filter_count_all {A} (p : A -> bool) (l : list A) :
  Forall (fun x => p x = true) l -> length (filter p l) = length l.
Proof.
  induction 1 as [|x l Hx _ IH]; [reflexivity|]. cbn. rewrite Hx. cbn. now rewrite IH.
Qed.

Lemma filter_count_none {A} (p : A -> bool) (l : list A) :
  Forall (fun x => p x = false) l -> length (filter p l) = 0%nat.
Proof.
  induction 1 as [|x l Hx _ IH]; [reflexivity|]. cbn. now rewrite Hx.
Qed.

Lemma filter_length_perm {A} (p : A -> bool) (l l' : list A) :
  Permutation l l' -> length (filter p l) = length (filter p l').
Proof.
  induction 1; cbn; try lia.
  - destruct (p x); cbn; lia.
  - destruct (p x), (p y); cbn; lia.
Qed.

Section AllHandler.
Context {number : Type} (numFalsy : number -> bool) (getTime : string -> option Z).
Local Abbreviation value := (Js.value number).

Lemma mapAtendimento_throw (rnd now : string) (item : value) :
  All.mapAtendimento number numFalsy rnd now item = Throw <-> Terms.isNull item = true.
Proof.
  destruct item; try (rewrite mapAtendimento_ok by discriminate);
    cbn; split; (reflexivity || discriminate).
Qed.

Lemma mapBruto_throw (rnd now : string) (item : value) :
  All.mapBruto number rnd now item = Throw <-> Terms.isNull item = true.
Proof.
  destruct item; try (rewrite mapBruto_ok by discriminate);
    cbn; split; (reflexivity || discriminate).
Qed.

Lemma mapAtendimento_tem (rnd now : string) (item : value) (l : All.Lead number) :
  All.mapAtendimento number numFalsy rnd now item = Ok l ->
  All.tem_atendimento number l = true.
Proof.
  intros E. destruct item; try discriminate E;
    rewrite mapAtendimento_ok in E by discriminate; now injection E as <-.
Qed.

Lemma mapBruto_tem (rnd now : string) (item : value) (l : All.Lead number) :
  All.mapBruto number rnd now item = Ok l ->
  All.tem_atendimento number l = false.
Proof.
  intros E. destruct item; try discriminate E;
    rewrite mapBruto_ok in E by discriminate; now injection E as <-.
Qed.

End AllHandler.

(** X9.  With the key, a response of proxy-leads-all holds one lead for
    each record fetched, none dropped and none twice: as many leads
    with [tem_atendimento] as attendances of both purposes together, and
    as many without as raw leads. *)
Theorem one_lead_per_record {number} (numFalsy : number -> bool)
  (getTime : string -> option Z) (API_KEY : option string)
  (up : Http.upstream number) (rnd now : nat -> string) (r : Http.response (All.Lead number)) :
  keyMissing API_KEY = false ->
  All.GET number numFalsy getTime API_KEY up rnd now = Ok r ->
  exists leads,
    r = Http.Build_response 200 (Http.LeadsBody leads)
    /\ length (filter (All.tem_atendimento number) leads)
       = (length (All.fetchAtendimentos number numFalsy up 1)
          + length (All.fetchAtendimentos number numFalsy up 2))%nat
    /\ length (filter (fun l => negb (All.tem_atendimento number l)) leads)
       = length (All.fetchLeadsBrutos number numFalsy up)
    /\ length leads
       = (length (All.fetchAtendimentos number numFalsy up 1)
          + length (All.fetchAtendimentos number numFalsy up 2)
          + length (All.fetchLeadsBrutos number numFalsy up))%nat.
Proof.
  intros K E. unfold All.GET in E. rewrite K in E.
  destruct (mapFrom _ 0 _) as [ats|] eqn:Ea; [|discriminate]. cbn [bind] in E.
  destruct (mapFrom _ _ (All.fetchLeadsBrutos number numFalsy up)) as [brs|] eqn:Eb;
    [|discriminate]. cbn [bind] in E.
  injection E as <-. eexists. split; [reflexivity|].
  pose proof (sort_perm getTime (All.data_entrada number) (brs ++ ats)%list) as P.
  pose proof (mapFrom_length _ _ _ _ Ea) as La. rewrite length_app in La.
  pose proof (mapFrom_length _ _ _ _ Eb) as Lb.
  assert (Ta : Forall (fun l => All.tem_atendimento number l = true) ats).
  { apply (mapFrom_Forall _ _ _ (fun i x y => mapAtendimento_tem numFalsy _ _ x y) _ _ Ea). }
  assert (Tb : Forall (fun l => All.tem_atendimento number l = false) brs).
  { apply (mapFrom_Forall _ _ _ (fun i x y => mapBruto_tem _ _ x y) _ _ Eb). }
  split; [|split].
  - rewrite (filter_length_perm _ _ _ P), filter_app, length_app.
    rewrite (filter_count_none _ brs Tb), (filter_count_all _ ats Ta). lia.
  - rewrite (filter_length_perm _ _ _ P), filter_app, length_app.
    rewrite (filter_count_all _ brs), (filter_count_none _ ats); [lia| |].
    + eapply Forall_impl; [|exact Ta]. cbn. now intros l ->.
    + eapply Forall_impl; [|exact Tb]. cbn. now intros l ->.
  - rewrite (Permutation_length P), length_app. lia.
Qed.

(** X10.  With the key, proxy-leads-all throws instead of answering
    exactly when a [null] stands among the records it fetched. *)
Theorem all_throws_on_null {number} (numFalsy : number -> bool)
  (getTime : string -> option Z) (API_KEY : option string)
  (up : Http.upstream number) (rnd now : nat -> string) :
  All.GET number numFalsy getTime API_KEY up rnd now = Throw
  <-> keyMissing API_KEY = false
      /\ existsb Terms.isNull
           (All.fetchAtendimentos number numFalsy up 1
            ++ All.fetchAtendimentos number numFalsy up 2
            ++ All.fetchLeadsBrutos number numFalsy up)%list = true.
Proof.
  unfold All.GET. destruct (keyMissing API_KEY).
  { split; [discriminate | intros [? _]; discriminate]. }
  rewrite app_assoc, existsb_app, orb_true_iff.
  rewrite <- (mapFrom_throw (fun i => All.mapAtendimento number numFalsy (rnd i) (now i))
                Terms.isNull _ (fun i x => mapAtendimento_throw numFalsy _ _ x) 0).
  rewrite <- (mapFrom_throw (fun i => All.mapBruto number (rnd i) (now i))
                Terms.isNull _ (fun i x => mapBruto_throw _ _ x)
                (length (All.fetchAtendimentos number numFalsy up 1
                         ++ All.fetchAtendimentos number numFalsy up 2)%list)).
  destruct (mapFrom _ 0 _) as [ats|]; cbn [bind].
  - destruct (mapFrom _ _ (All.fetchLeadsBrutos number numFalsy up)) as [brs|]; cbn [bind].
    + split; [discriminate | intros [_ [H|H]]; discriminate].
    + split; [intros _; split; [reflexivity | now right] | reflexivity].
  - split; [intros _; split; [reflexivity | now left] | reflexivity].
Qed.

Lemma all_throws_on_null_witness :
  All.GET Z Host.numFalsy Host.getTime (Some "chave")
    (Host.always (Http.Json (Js.VArr [Js.VNull]))) Host.rnd Host.now = Throw.
Proof.
  apply (all_throws_on_null Host.numFalsy Host.getTime (Some "chave")
           (Host.always (Http.Json (Js.VArr [Js.VNull]))) Host.rnd Host.now).
  split; reflexivity.
Defined.

Lemma one_lead_per_record_witness :
  exists leads,
    All.GET Z Host.numFalsy Host.getTime (Some "chave")
      (Host.always (Http.Json (Js.VArr [Host.obj [("nome", Host.str "Ana")]])))
      Host.rnd Host.now
    = Ok (Http.Build_response 200 (Http.LeadsBody leads))
    /\ length leads = 3%nat
    /\ length (filter (All.tem_atendimento Z) leads) = 2%nat.
Proof.
  destruct (All.GET Z Host.numFalsy Host.getTime (Some "chave")
              (Host.always (Http.Json (Js.VArr [Host.obj [("nome", Host.str "Ana")]])))
              Host.rnd Host.now) as [r|] eqn:E; [|discriminate E].
  destruct (one_lead_per_record Host.numFalsy Host.getTime (Some "chave")
              (Host.always (Http.Json (Js.VArr [Host.obj [("nome", Host.str "Ana")]])))
              Host.rnd Host.now r eq_refl E) as (leads & -> & T & _ & L).
  exists leads. exact (conj eq_refl (conj L T)).
Defined.

Section SortedFacts.
Context (getTime : string -> option Z) {L : Type} (data_entrada : L -> string).
Local Abbreviation dated := (fun x : L => getTime (data_entrada x) <> None).
Local Abbreviation R := (Terms.newerFirst getTime data_entrada).

Lemma insert_In (x y : L) (l : list L) :
  In y (insert getTime L data_entrada x l) -> y = x \/ In y l.
Proof.
  intros H. apply (Permutation_in _ (insert_perm getTime data_entrada x l)) in H.
  destruct H as [<-|H]; [now left | now right].
Qed.

Lemma insert_sorted (x : L) (l : list L) :
  dated x -> Forall dated l ->
  StronglySorted R l -> StronglySorted R (insert getTime L data_entrada x l).
Proof.
  intros Hx Hl Hs. induction Hs as [|y r Hr IH Hy]; cbn.
  - constructor; constructor.
  - inversion Hl as [|? ? Dy Dr]; subst.
    assert (Hy' : forall z, In z r -> Terms.newerFirst getTime data_entrada y z)
      by (now apply Forall_forall).
    unfold comparator. unfold Terms.newerFirst in Hy'.
    destruct (getTime (data_entrada y)) as [ty|] eqn:Ey; [|contradiction].
    destruct (getTime (data_entrada x)) as [tx|] eqn:Ex; [|contradiction].
    cbn [positive]. destruct (Z.ltb_spec 0 (ty - tx)) as [Hlt|Hge].
    + constructor; [apply IH; assumption|].
      apply Forall_forall. intros z Hz. unfold Terms.newerFirst. rewrite Ey.
      apply insert_In in Hz as [->|Hz].
      * rewrite Ex. lia.
      * exact (Hy' z Hz).
    + constructor; [constructor; assumption|].
      constructor.
      * unfold Terms.newerFirst. rewrite Ex, Ey. lia.
      * apply Forall_forall. intros z Hz. specialize (Hy' z Hz).
        unfold Terms.newerFirst. rewrite Ex.
        destruct (getTime (data_entrada z)); [lia | exact Hy'].
Qed.

Lemma sort_sorted (l : list L) :
  Forall dated l -> StronglySorted R (sortByEntradaDesc getTime data_entrada l).
Proof.
  induction 1 as [|x l Hx Hl IH]; cbn; [constructor|].
  apply insert_sorted; [exact Hx | | exact IH].
  apply Forall_forall. intros y Hy.
  apply (Permutation_in _ (sort_perm getTime data_entrada l)) in Hy.
  rewrite Forall_forall in Hl. now apply Hl.
Qed.

End SortedFacts.

(** X11.  Both handlers answer newest first: when the entry date of every
    lead of a response is a valid date, each lead of the list entered no
    earlier than all the leads after it. *)
Theorem newest_first {number} (numFalsy : number -> bool)
  (numToString : number -> string) (getTime : string -> option Z)
  (API_KEY : option string) (up : Http.upstream number) (rnd now : nat -> string) :
  (forall leads,
      All.GET number numFalsy getTime API_KEY up rnd now
        = Ok (Http.Build_response 200 (Http.LeadsBody leads)) ->
      Forall (fun l => getTime (All.data_entrada number l) <> None) leads ->
      StronglySorted (Terms.newerFirst getTime (All.data_entrada number)) leads)
  /\ (forall leads,
      Legacy.GET number numFalsy numToString getTime API_KEY up rnd now
        = Http.Build_response 200 (Http.LeadsBody leads) ->
      Forall (fun l => getTime (Legacy.data_entrada number l) <> None) leads ->
      StronglySorted (Terms.newerFirst getTime (Legacy.data_entrada number)) leads).
Proof.
  split; intros leads E D.
  - unfold All.GET in E. destruct (keyMissing API_KEY); [discriminate|].
    destruct (mapFrom _ 0 _) as [ats|]; [|discriminate]. cbn [bind] in E.
    destruct (mapFrom _ _ _) as [brs|]; [|discriminate]. cbn [bind] in E.
    injection E as <-. apply sort_sorted.
    apply Forall_forall. intros l Hl. rewrite Forall_forall in D. apply D.
    apply (Permutation_in _ (Permutation_sym (sort_perm getTime _ _)) Hl).
  - unfold Legacy.GET in E. destruct (keyMissing API_KEY); [discriminate|].
    destruct (mapFrom _ 0 _) as [ls|]; [|discriminate].
    injection E as <-. apply sort_sorted.
    apply Forall_forall. intros l Hl. rewrite Forall_forall in D. apply D.
    apply (Permutation_in _ (Permutation_sym (sort_perm getTime _ _)) Hl).
Qed.

Lemma newest_first_witness :
  exists a b,
    All.GET Z Host.numFalsy Host.getTime (Some "chave")
      (Host.always (Http.Json (Js.VArr
         [Host.obj [("codigo", Js.VNum 1%Z);
                    ("datahoraentradalead", Host.str "2024-12-25T10:00:00.000Z")];
          Host.obj [("codigo", Js.VNum 2%Z);
                    ("datahoraentradalead", Host.str "2024-12-25T12:00:00.000Z")]])))
      Host.rnd Host.now
    = Ok (Http.Build_response 200 (Http.LeadsBody (a :: b)))
    /\ All.data_entrada Z a = "2024-12-25T12:00:00.000Z"
    /\ StronglySorted (Terms.newerFirst Host.getTime (All.data_entrada Z)) (a :: b).
Proof.
  eexists. eexists. split; [vm_compute; reflexivity|]. split; [reflexivity|].
  apply (proj1 (newest_first Host.numFalsy Host.numToString Host.getTime (Some "chave")
                  (Host.always (Http.Json (Js.VArr
         [Host.obj [("codigo", Js.VNum 1%Z);
                    ("datahoraentradalead", Host.str "2024-12-25T10:00:00.000Z")];
          Host.obj [("codigo", Js.VNum 2%Z);
                    ("datahoraentradalead", Host.str "2024-12-25T12:00:00.000Z")]])))
                  Host.rnd Host.now)).
  - vm_compute. reflexivity.
  - repeat constructor; discriminate.
Defined.

Section BrutosFacts.
Context {number : Type} (numFalsy : number -> bool).

Lemma firstLeads_hd (up : Http.upstream number) (urls : list string) :
  All.firstLeads number numFalsy up urls
  = hd [] (filter Terms.nonEmpty (map (Terms.answer numFalsy up) urls)).
Proof.
  induction urls as [|url urls IH]; [reflexivity|].
  cbn [All.firstLeads map filter].
  assert (A : Terms.answer numFalsy up url
              = match up url with
                | Http.Json data => All.extractList number numFalsy (Some data)
                | Http.Failed _ => []
                end) by reflexivity.
  rewrite A. clear A.
  destruct (up url) as [f|data]; cbn [Terms.nonEmpty]; [exact IH|].
  destruct (All.extractList number numFalsy (Some data)); [exact IH | reflexivity].
Qed.

End BrutosFacts.

(** X12.  [fetchLeadsBrutos] takes the raw leads from one endpoint only:
    from Lead, Leads and Portal in this order, the first whose call
    succeeds with a list that is not empty; the lists of two endpoints
    are never put together, and there are no raw leads exactly when no
    endpoint has any. *)
Theorem raw_leads_from_one_endpoint {number} (numFalsy : number -> bool)
  (up : Http.upstream number) :
  let answers := map (Terms.answer numFalsy up)
                   [BASE_URL ++ "/Lead/RetornarLeads";
                    BASE_URL ++ "/Leads/RetornarLeads";
                    BASE_URL ++ "/Portal/RetornarLeads"] in
  All.fetchLeadsBrutos number numFalsy up = hd [] (filter Terms.nonEmpty answers)
  /\ (All.fetchLeadsBrutos number numFalsy up = []
      <-> Forall (fun l => l = []) answers)
  /\ (All.fetchLeadsBrutos number numFalsy up = []
      \/ In (All.fetchLeadsBrutos number numFalsy up) answers).
Proof.
  intros answers. unfold All.fetchLeadsBrutos.
  rewrite firstLeads_hd. fold answers. change (map _ All.leadCandidates) with answers.
  generalize answers. clear. intros answers.
  split; [reflexivity|].
  induction answers as [|a rest [IH1 IH2]]; cbn.
  - split; [split; [constructor | reflexivity] | now left].
  - destruct a as [|x a]; cbn.
    + split.
      * rewrite IH1. split; [intros H; now constructor | intros H; now inversion H].
      * destruct IH2 as [E|I]; [now left | right; now right].
    + split; [split; [discriminate | intros H; inversion H; discriminate]|].
      right. now left.
Qed.

Lemma mapFrom_throw_at {A B} (f : nat -> A -> outcome B) (x : A) (l : list A) :
  In x l -> (forall i, f i x = Throw) -> forall i, mapFrom f i l = Throw.
Proof.
  intros Hx Hf. induction l as [|y l IH]; [destruct Hx|]. intros i. cbn.
  destruct Hx as [->|Hx].
  - now rewrite Hf.
  - destruct (f i y); [|reflexivity]. cbn. now rewrite (IH Hx).
Qed.

Lemma mapFrom_ok {A B} (f : nat -> A -> outcome B) (P : A -> B -> Prop) (l : list A) :
  (forall i x, In x l -> exists y, f i x = Ok y /\ P x y) ->
  forall i, exists ys, mapFrom f i l = Ok ys /\ Forall2 P l ys.
Proof.
  induction l as [|x l IH]; intros Hf i.
  - exists []. split; [reflexivity | constructor].
  - destruct (Hf i x (or_introl eq_refl)) as (y & Ey & Py).
    destruct (IH (fun j z Hz => Hf j z (or_intror Hz)) (S i)) as (ys & Eys & Pys).
    exists (y :: ys). cbn. rewrite Ey. cbn. rewrite Eys. cbn.
    split; [reflexivity | now constructor].
Qed.

Lemma orStr_default (a : option string) (d : string) :
  Str.isEmpty d = false -> Str.isEmpty (Str.orStr a d) = false.
Proof. intros Hd. destruct a as [[|c r]|]; cbn; auto. Qed.

Section LegacyFacts.
Context {number : Type} (numFalsy : number -> bool) (numToString : number -> string).
Local Abbreviation value := (Js.value number).

Lemma orLit_truthy (a : option value) (d : string) :
  Str.isEmpty d = false ->
  Js.truthy numFalsy (Legacy.orLit number numFalsy a d) = true.
Proof.
  intros Hd. unfold Legacy.orLit.
  destruct a as [v|]; [destruct (Js.truthy numFalsy v) eqn:T; [exact T|]|];
    cbn; now rewrite Hd.
Qed.

Lemma orLit_empty (a : option value) :
  Js.truthy numFalsy (Legacy.orLit number numFalsy a "") = true
  \/ Legacy.orLit number numFalsy a "" = Js.VStr "".
Proof.
  unfold Legacy.orLit.
  destruct a as [v|]; [destruct (Js.truthy numFalsy v) eqn:T; [now left|]|]; now right.
Qed.

Lemma mapLead_plain (rnd now : string) (item : value) :
  Terms.isNull item = false -> Terms.plainCodigo item = true ->
  exists l, Legacy.mapLead number numFalsy numToString rnd now item = Ok l
            /\ Legacy._raw number l = item.
Proof.
  intros Hn Hp. unfold Legacy.mapLead.
  assert (Hitem : item <> Js.VNull) by (intros ->; discriminate).
  rewrite !(getProp_ok item) by exact Hitem. cbn [bind].
  unfold Terms.plainCodigo in Hp.
  destruct (Js.member item "codigo") as [[ |b|n|s|l|fs]|]; try discriminate Hp;
    cbn; eexists; split; reflexivity.
Qed.

End LegacyFacts.

(** X13.  With the key, proxy-leads answers 500 as soon as one record of
    its two lists is [null]; when every record is other than [null] and
    has a [codigo] that is missing, [null] or a primitive value, it
    answers 200 with one lead for each record, which it carries whole in
    [_raw]. *)
Theorem legacy_one_lead_per_record {number} (numFalsy : number -> bool)
  (numToString : number -> string) (getTime : string -> option Z)
  (API_KEY : option string) (up : Http.upstream number) (rnd now : nat -> string) :
  keyMissing API_KEY = false ->
  let rawLeads :=
    (Legacy.extractList number numFalsy (Some (Legacy.fetchLeads number up 1))
     ++ Legacy.extractList number numFalsy (Some (Legacy.fetchLeads number up 2)))%list in
  (existsb Terms.isNull rawLeads = true ->
   Legacy.GET number numFalsy numToString getTime API_KEY up rnd now
   = Http.Build_response 500 (Http.ErrorBody Legacy.internalError))
  /\ (forallb (fun item => negb (Terms.isNull item) && Terms.plainCodigo item) rawLeads = true ->
      exists leads,
        Legacy.GET number numFalsy numToString getTime API_KEY up rnd now
        = Http.Build_response 200 (Http.LeadsBody leads)
        /\ length leads = length rawLeads
        /\ Permutation (map (Legacy._raw number) leads) rawLeads).
Proof.
  intros K rawLeads. unfold Legacy.GET. rewrite K. fold rawLeads. split.
  - intros H. apply existsb_exists in H as (x & Hx & Nx).
    destruct x; try discriminate Nx.
    now rewrite (mapFrom_throw_at _ Js.VNull rawLeads Hx (fun i => eq_refl)).
  - intros H. rewrite forallb_forall in H.
    destruct (mapFrom_ok (fun i => Legacy.mapLead number numFalsy numToString (rnd i) (now i))
                (fun item l => Legacy._raw number l = item) rawLeads) with (i := 0%nat)
      as (ys & Eys & Pys).
    { intros i x Hx. specialize (H x Hx). apply andb_true_iff in H as [Hn Hp].
      apply negb_true_iff in Hn. now apply mapLead_plain. }
    rewrite Eys. eexists. split; [reflexivity|].
    pose proof (sort_perm getTime (Legacy.data_entrada number) ys) as P.
    assert (M : map (Legacy._raw number) ys = rawLeads).
    { clear - Pys. induction Pys as [|x y l l' Hxy _ IH]; [reflexivity|].
      cbn. now rewrite Hxy, IH. }
    split.
    + rewrite (Permutation_length P). rewrite <- M. now rewrite length_map.
    + rewrite <- M. now apply Permutation_map.
Qed.

Lemma legacy_one_lead_per_record_witness :
  exists leads,
    Legacy.GET Z Host.numFalsy Host.numToString Host.getTime (Some "chave")
      (Host.always (Http.Json (Host.obj
         [("lista", Js.VArr [Host.obj [("codigo", Js.VNum 7%Z)]])])))
      Host.rnd Host.now
    = Http.Build_response 200 (Http.LeadsBody leads)
    /\ length leads = 2%nat.
Proof.
  destruct (legacy_one_lead_per_record Host.numFalsy Host.numToString Host.getTime
              (Some "chave")
              (Host.always (Http.Json (Host.obj
                 [("lista", Js.VArr [Host.obj [("codigo", Js.VNum 7%Z)]])])))
              Host.rnd Host.now eq_refl) as [_ H].
  destruct (H eq_refl) as (leads & E & L & _).
  exists leads. exact (conj E L).
Defined.

(** X14.  A lead built by proxy-leads always has an id and an entry date
    that are not empty and a name, status, team and origin that are
    truthy; its phone and e-mail are truthy or the empty string, its
    first interaction is never the empty string, and [_raw] is the
    record it was built from. *)
Theorem legacy_lead_filled {number} (numFalsy : number -> bool)
  (numToString : number -> string) (rnd now : string)
  (item : Js.value number) (l : Legacy.Lead number) :
  Legacy.mapLead number numFalsy numToString rnd now item = Ok l ->
  Str.isEmpty rnd = false -> Str.isEmpty now = false ->
  Legacy._raw number l = item
  /\ Str.isEmpty (Legacy.id number l) = false
  /\ Str.isEmpty (Legacy.data_entrada number l) = false
  /\ Js.truthy numFalsy (Legacy.nome number l) = true
  /\ Js.truthy numFalsy (Legacy.status number l) = true
  /\ Js.truthy numFalsy (Legacy.time number l) = true
  /\ Js.truthy numFalsy (Legacy.origem number l) = true
  /\ (Js.truthy numFalsy (Legacy.telefone number l) = true
      \/ Legacy.telefone number l = Js.VStr "")
  /\ (Js.truthy numFalsy (Legacy.email number l) = true
      \/ Legacy.email number l = Js.VStr "")
  /\ Legacy.primeira_interacao number l <> Some "".
Proof.
  intros E Hr Hn. unfold Legacy.mapLead in E.
  destruct (Js.getProp item "codigo") as [codigo|] eqn:Ec; [|discriminate]. cbn [bind] in E.
  assert (Hitem : item <> Js.VNull) by (intros ->; discriminate).
  rewrite !(getProp_ok item) in E by exact Hitem.
  match type of E with
  | (idText <- ?m ;; _) = _ => destruct m as [idText|]; [|discriminate]
  end.
  cbn [bind] in E. injection E as <-.
  cbn [Legacy._raw Legacy.id Legacy.data_entrada Legacy.nome Legacy.status Legacy.time
       Legacy.origem Legacy.telefone Legacy.email Legacy.primeira_interacao].
  split; [reflexivity|].
  split; [apply orStr_default, Hr|].
  split; [apply orStr_default, Hn|].
  repeat (split; [apply orLit_truthy; reflexivity|]).
  split; [apply orLit_empty|]. split; [apply orLit_empty|].
  destruct (Legacy.parseImoviewDate _ _ _) as [[|c r]|]; cbn; discriminate.
Qed.

Lemma legacy_lead_filled_witness :
  exists l,
    Legacy.mapLead Z Host.numFalsy Host.numToString (Host.rnd 0) (Host.now 0)
      (Host.obj [("codigo", Js.VNum 7%Z)]) = Ok l
    /\ Legacy.id Z l = "7"
    /\ Js.truthy Host.numFalsy (Legacy.nome Z l) = true.
Proof.
  eexists. split; [reflexivity|]. split; [reflexivity|].
  apply (legacy_lead_filled Host.numFalsy Host.numToString (Host.rnd 0) (Host.now 0)
           (Host.obj [("codigo", Js.VNum 7%Z)])); reflexivity.
Defined.

Section Agreement.
Context {number : Type} (numFalsy : number -> bool) (numToString : number -> string).

Lemma orLit_textual (v : option (Js.value number)) (key d : string) (item : Js.value number) :
  v = Js.member item key -> Terms.textual v = true -> Str.isEmpty d = false ->
  Legacy.orLit number numFalsy v d
  = Js.VStr (Spec.firstNonEmpty [Spec.field (Some item) key; d]).
Proof.
  intros -> T Hd. unfold Legacy.orLit, Spec.field.
  destruct (Js.member item key) as [[ |b|n|s|l|fs]|]; try discriminate T; cbn;
    try (destruct d; [discriminate | reflexivity]).
  destruct s; cbn; [destruct d; [discriminate | reflexivity] | reflexivity].
Qed.

End Agreement.

(** X15.  On the status, the team and the origin the two proxies agree
    whenever the record has them as strings or not at all: the lead of
    proxy-leads then carries the very strings of the lead that
    proxy-leads-all makes of the same attendance. *)
Theorem proxies_agree {number} (numFalsy : number -> bool) (numToString : number -> string)
  (rnd now : string) (item : Js.value number)
  (a : All.Lead number) (l : Legacy.Lead number) :
  All.mapAtendimento number numFalsy rnd now item = Ok a ->
  Legacy.mapLead number numFalsy numToString rnd now item = Ok l ->
  (Terms.textual (Js.member item "situacao") = true ->
   Legacy.status number l = Js.VStr (All.status number a))
  /\ (Terms.textual (Js.member item "unidadenome") = true ->
      Legacy.time number l = Js.VStr (All.time number a))
  /\ (Terms.textual (Js.member item "midia") = true ->
      Legacy.origem number l = Js.VStr (All.origem number a)).
Proof.
  intros Ea El.
  assert (Hitem : item <> Js.VNull) by (intros ->; discriminate).
  rewrite mapAtendimento_ok in Ea by exact Hitem. injection Ea as <-.
  unfold Legacy.mapLead in El. rewrite !(getProp_ok item) in El by exact Hitem.
  cbn [bind] in El.
  match type of El with
  | (idText <- ?m ;; _) = _ => destruct m as [idText|]; [|discriminate]
  end.
  cbn [bind] in El. injection El as <-.
  cbn [Legacy.status Legacy.time Legacy.origem All.status All.time All.origem].
  split; [|split]; intros T; now apply orLit_textual.
Qed.

Lemma proxies_agree_witness :
  exists a l,
    All.mapAtendimento Z Host.numFalsy (Host.rnd 0) (Host.now 0)
      (Host.obj [("situacao", Host.str "Em atendimento")]) = Ok a
    /\ Legacy.mapLead Z Host.numFalsy Host.numToString (Host.rnd 0) (Host.now 0)
         (Host.obj [("situacao", Host.str "Em atendimento")]) = Ok l
    /\ Legacy.status Z l = Js.VStr (All.status Z a)
    /\ Legacy.time Z l = Js.VStr "Geral".
Proof.
  eexists. eexists. split; [reflexivity|]. split; [reflexivity|].
  destruct (proxies_agree Host.numFalsy Host.numToString (Host.rnd 0) (Host.now 0)
              (Host.obj [("situacao", Host.str "Em atendimento")]) _ _ eq_refl eq_refl)
    as (S & T & _).
  exact (conj (S eq_refl) (T eq_refl)).
Defined.

(** ** Phone numbers *)

Lemma only_app (keep : ascii -> bool) (a b : string) :
  Text.only keep (a ++ b) = Text.only keep a ++ Text.only keep b.
Proof.
  induction a as [|c a IH]; [reflexivity|].
  cbn. destruct (keep c); cbn; now rewrite IH.
Qed.

Lemma only_all (keep : ascii -> bool) (s : string) :
  Str.all keep (Text.only keep s) = true.
Proof.
  induction s as [|c s IH]; [reflexivity|].
  cbn. destruct (keep c) eqn:E; [cbn; now rewrite E | exact IH].
Qed.

Lemma only_fixed (keep : ascii -> bool) (s : string) :
  Str.all keep s = true -> Text.only keep s = s.
Proof.
  induction s as [|c s IH]; [reflexivity|].
  cbn. intros H. apply andb_true_iff in H as [-> Hs]. now rewrite IH.
Qed.

Lemma take_drop (n : nat) (s : string) : Text.take n s ++ Text.drop n s = s.
Proof.
  revert s. induction n as [|n IH]; intros s; [reflexivity|].
  destruct s as [|c r]; [reflexivity|]. cbn. now rewrite IH.
Qed.

Lemma drop_drop (a b : nat) (s : string) :
  Text.drop b (Text.drop a s) = Text.drop (a + b) s.
Proof.
  revert s. induction a as [|a IH]; intros s; [reflexivity|].
  destruct s as [|c r]; cbn; [now destruct b | apply IH].
Qed.

Lemma slices_cover (a : nat) (b : nat) (s : string) :
  (a <= b)%nat ->
  Text.slice 0 a s ++ Text.slice a b s ++ Text.drop b s = s.
Proof.
  intros H. unfold Text.slice. rewrite Nat.sub_0_r. cbn [Text.drop].
  replace (Text.drop b s) with (Text.drop (b - a) (Text.drop a s))
    by (rewrite drop_drop; f_equal; lia).
  now rewrite take_drop, take_drop.
Qed.

Lemma all_app' (p : ascii -> bool) (a b : string) :
  Str.all p (a ++ b) = Str.all p a && Str.all p b.
Proof.
  induction a as [|c a IH]; [reflexivity|]. cbn. now rewrite IH, andb_assoc.
Qed.

(** The look of a formatted number, with the digits [d] it is made of. *)
Lemma formatted_digits (a b c : string) :
  Str.all Str.isDigit (a ++ b ++ c) = true ->
  Text.only Str.isDigit ("(" ++ a ++ ") " ++ b ++ "-" ++ c) = a ++ b ++ c.
Proof.
  intros H. rewrite !all_app' in H.
  apply andb_true_iff in H as [Ha H]. apply andb_true_iff in H as [Hb Hc].
  cbn [append]. cbn [Text.only]. change (Str.isDigit "(") with false. cbv iota.
  rewrite only_app, (only_fixed _ a Ha). f_equal.
  cbn [Text.only]. change (Str.isDigit ")") with false.
  change (Str.isDigit " ") with false. cbv iota.
  rewrite only_app, (only_fixed _ b Hb). f_equal.
  cbn [Text.only]. change (Str.isDigit "-") with false. cbv iota.
  apply only_fixed, Hc.
Qed.

(** X16.  [formatPhoneNumber] never loses or invents a digit: the digits
    of what it returns are the digits of the phone it was given, in the
    same order. *)
Theorem format_keeps_digits (phone : string) :
  Text.only Str.isDigit (Page.formatPhoneNumber phone) = Text.only Str.isDigit phone.
Proof.
  unfold Page.formatPhoneNumber.
  destruct phone as [|c r]; [reflexivity|]. cbn [Str.isEmpty].
  destruct (Str.includes "(" _ && Str.includes ")" _); [reflexivity|].
  set (cleaned := Text.only Str.isDigit (String c r)).
  destruct (String.length cleaned <? 10)%nat; [reflexivity|].
  assert (D : forall x y, (x <= y)%nat ->
            Str.all Str.isDigit (Text.slice 0 x cleaned ++ Text.slice x y cleaned
                                 ++ Text.drop y cleaned) = true).
  { intros x y H. rewrite (slices_cover x y cleaned H). apply only_all. }
  destruct (String.length cleaned =? 11)%nat.
  - rewrite (formatted_digits _ _ _ (D 2 7 ltac:(lia))%nat). apply slices_cover. lia.
  - rewrite (formatted_digits _ _ _ (D 2 6 ltac:(lia))%nat). apply slices_cover. lia.
Qed.

Lemma includes_later (sub a b : string) :
  Str.includes sub b = true -> Str.includes sub (a ++ b) = true.
Proof.
  intros H. induction a as [|c a IH]; [exact H|].
  cbn [append Str.includes]. rewrite IH. apply orb_true_r.
Qed.

Lemma includes_head (c : ascii) (r : string) :
  Str.includes (String c "") (String c r) = true.
Proof.
  cbn. destruct (ascii_dec c c) as [_|N]; [now destruct r | now destruct N].
Qed.

(** A number in the format of [formatPhoneNumber] shows both brackets. *)
Lemma formatted_brackets (a b c : string) :
  Str.includes "(" ("(" ++ a ++ ") " ++ b ++ "-" ++ c) = true
  /\ Str.includes ")" ("(" ++ a ++ ") " ++ b ++ "-" ++ c) = true.
Proof.
  split.
  - apply includes_head.
  - apply (includes_later ")" "("), (includes_later ")" a), includes_head.
Qed.

(** X17.  Formatting a phone twice is formatting it once: what
    [formatPhoneNumber] returns is returned unchanged when it is given
    again. *)
Theorem format_idempotent (phone : string) :
  Page.formatPhoneNumber (Page.formatPhoneNumber phone) = Page.formatPhoneNumber phone.
Proof.
  assert (F : forall a b c,
             Page.formatPhoneNumber ("(" ++ a ++ ") " ++ b ++ "-" ++ c)
             = "(" ++ a ++ ") " ++ b ++ "-" ++ c).
  { intros a b c. unfold Page.formatPhoneNumber at 1.
    destruct (formatted_brackets a b c) as [-> ->]. reflexivity. }
  unfold Page.formatPhoneNumber at 2 3.
  destruct phone as [|c r]; [reflexivity|]. cbn [Str.isEmpty].
  destruct (Str.includes "(" (String c r) && Str.includes ")" (String c r)) eqn:B.
  { unfold Page.formatPhoneNumber. cbn [Str.isEmpty]. now rewrite B. }
  destruct (String.length (Text.only Str.isDigit (String c r)) <? 10)%nat eqn:S.
  { unfold Page.formatPhoneNumber. cbn [Str.isEmpty]. now rewrite B, S. }
  destruct (String.length (Text.only Str.isDigit (String c r)) =? 11)%nat; apply F.
Qed.

Lemma take_exact (a r : string) : Text.take (String.length a) (a ++ r) = a.
Proof. induction a as [|c a IH]; [now destruct r | cbn; now rewrite IH]. Qed.

Lemma drop_exact (a r : string) : Text.drop (String.length a) (a ++ r) = r.
Proof. induction a as [|c a IH]; [reflexivity | exact IH]. Qed.

Lemma length_app_s (a b : string) :
  String.length (a ++ b) = (String.length a + String.length b)%nat.
Proof. induction a as [|c a IH]; [reflexivity | cbn; now rewrite IH]. Qed.

(** X18.  A phone without a pair of brackets whose digits are an area
    code [AA], a first block and a last block is shown as
    [(AA) first-last]: the first block has five digits when there are
    eleven digits in all, and four digits in every other case of ten
    digits or more, separators and other signs of the input being
    dropped. *)
Theorem format_blocks (phone AA first last : string) :
  Str.includes "(" phone && Str.includes ")" phone = false ->
  Text.only Str.isDigit phone = AA ++ first ++ last ->
  String.length AA = 2%nat ->
  (String.length first = 5%nat /\ String.length last = 4%nat)
  \/ (String.length first = 4%nat /\ (4 <= String.length last)%nat
      /\ String.length last <> 5%nat) ->
  Page.formatPhoneNumber phone = "(" ++ AA ++ ") " ++ first ++ "-" ++ last.
Proof.
  intros B E La Hl. unfold Page.formatPhoneNumber.
  destruct phone as [|c r].
  { cbn in E. destruct AA; [discriminate La | discriminate E]. }
  cbn [Str.isEmpty]. rewrite B, E.
  assert (T : String.length (AA ++ first ++ last)
              = (2 + String.length first + String.length last)%nat)
    by (rewrite !length_app_s; lia).
  assert (S1 : Text.slice 0 2 (AA ++ first ++ last) = AA).
  { unfold Text.slice. cbn [Text.drop Nat.sub]. rewrite <- La. apply take_exact. }
  assert (D2 : Text.drop 2 (AA ++ first ++ last) = first ++ last)
    by (rewrite <- La; apply drop_exact).
  destruct Hl as [[Lf Ll]|(Lf & Ll & Ln)].
  - replace (String.length (AA ++ first ++ last) <? 10)%nat with false
      by (symmetry; apply Nat.ltb_ge; lia).
    replace (String.length (AA ++ first ++ last) =? 11)%nat with true
      by (symmetry; apply Nat.eqb_eq; lia).
    rewrite S1. unfold Text.slice. rewrite D2.
    replace (7 - 2)%nat with (String.length first) by lia. rewrite take_exact.
    replace 7%nat with (2 + String.length first)%nat by lia.
    now rewrite <- drop_drop, D2, drop_exact.
  - replace (String.length (AA ++ first ++ last) <? 10)%nat with false
      by (symmetry; apply Nat.ltb_ge; lia).
    replace (String.length (AA ++ first ++ last) =? 11)%nat with false
      by (symmetry; apply Nat.eqb_neq; lia).
    rewrite S1. unfold Text.slice. rewrite D2.
    replace (6 - 2)%nat with (String.length first) by lia. rewrite take_exact.
    replace 6%nat with (2 + String.length first)%nat by lia.
    now rewrite <- drop_drop, D2, drop_exact.
Qed.

Lemma format_blocks_witness :
  Page.formatPhoneNumber "11 99999-9999" = "(11) 99999-9999"
  /\ Page.formatPhoneNumber "1133334444" = "(11) 3333-4444"
  /\ Page.formatPhoneNumber "5511999999999" = "(55) 1199-9999999".
Proof.
  split; [|split].
  - apply (format_blocks "11 99999-9999" "11" "99999" "9999"); try reflexivity.
    left. split; reflexivity.
  - apply (format_blocks "1133334444" "11" "3333" "4444"); try reflexivity.
    right. cbn. repeat split; lia.
  - apply (format_blocks "5511999999999" "55" "1199" "9999999"); try reflexivity.
    right. cbn. repeat split; lia.
Defined.

(** ** More on the KPIs and the SLA *)

Lemma disjoint_counts {A} (p q : A -> bool) (l : list A) :
  (forall x, q x = true -> p x = false) ->
  (length (filter p l) + length (filter q l) <= length l)%nat.
Proof.
  intros H. induction l as [|x l IH]; [reflexivity|].
  cbn. destruct (q x) eqn:Q; [rewrite (H x Q)|destruct (p x)]; cbn; lia.
Qed.

Lemma filter_bound {A} (p : A -> bool) (l : list A) :
  (length (filter p l) <= length l)%nat.
Proof. induction l as [|x l IH]; [reflexivity|]. cbn. destruct (p x); cbn; lia. Qed.

(** X19.  No lead is counted both as a scheduled visit and as being
    attended: [agendamentos] and [atendimento] together never exceed
    [totalLeads], and neither does [pendentes]. *)
Theorem kpis_within_total {number} (leads : list (Dashboard.Lead number)) :
  let k := Dashboard.kpis number leads in
  (Dashboard.agendamentos k + Dashboard.atendimento k <= Dashboard.totalLeads k)%nat
  /\ (Dashboard.pendentes k <= Dashboard.totalLeads k)%nat
  /\ Dashboard.totalLeads k = length leads
  /\ (forall l, Dashboard.isAtendimento number l = true ->
                Dashboard.isAgendamento number l = false).
Proof.
  assert (D : forall l, Dashboard.isAtendimento number l = true ->
                        Dashboard.isAgendamento number l = false).
  { intros l. unfold Dashboard.isAtendimento, Dashboard.isAgendamento. cbn [existsb].
    rewrite orb_false_r. intros H. apply orb_true_iff in H as [H|H];
      apply String.eqb_eq in H; now rewrite H. }
  cbn. split; [apply disjoint_counts, D|].
  split; [apply filter_bound|]. split; [reflexivity | exact D].
Qed.

Lemma kpis_within_total_witness :
  let lead := fun (st : string) =>
    {| Dashboard.id := All.IdStr Z st; Dashboard.nome := st; Dashboard.telefone := "";
       Dashboard.email := None; Dashboard.status := st; Dashboard.time := None;
       Dashboard.data_entrada := "2024-12-25T10:00:00.000Z";
       Dashboard.primeira_interacao := None;
       Dashboard.origem := None; Dashboard.tem_atendimento := None |} in
  Dashboard.isAgendamento Z (lead "Em Atendimento") = false.
Proof.
  intros lead.
  destruct (kpis_within_total [lead "Em Atendimento"]) as (_ & _ & _ & D).
  apply D. reflexivity.
Defined.

(** X20.  The SLA of an answered lead does not depend on the clock, and a
    lead that is still waiting and late stays late at every later
    time. *)
Theorem sla_over_time (getTime : string -> option Z) (nowMs laterMs : Z)
  (data_entrada : string) (primeira_interacao : option string) :
  (present primeira_interacao = true ->
   Dashboard.getSLAInfo getTime laterMs data_entrada primeira_interacao
   = Dashboard.getSLAInfo getTime nowMs data_entrada primeira_interacao
   /\ Reports.getSLAInfo getTime laterMs data_entrada primeira_interacao
      = Reports.getSLAInfo getTime nowMs data_entrada primeira_interacao)
  /\ (present primeira_interacao = false -> (nowMs <= laterMs)%Z ->
      Dashboard.isLate (Dashboard.getSLAInfo getTime nowMs data_entrada primeira_interacao)
        = true ->
      Dashboard.isLate (Dashboard.getSLAInfo getTime laterMs data_entrada primeira_interacao)
        = true).
Proof.
  split.
  - intros P. destruct primeira_interacao as [[|c r]|]; try discriminate P.
    split; reflexivity.
  - intros P Hle. cbn [Dashboard.getSLAInfo Dashboard.isLate].
    rewrite !isLateOf_wait. unfold Spec.waitMs.
    destruct primeira_interacao as [[|c r]|]; try discriminate P;
      cbn [Spec.absent Str.isEmpty];
      destruct (getTime data_entrada); try discriminate;
      rewrite !Z.leb_le; lia.
Qed.

Lemma sla_over_time_witness :
  Dashboard.isLate (Dashboard.getSLAInfo Host.getTime 1735130000000
                      "2024-12-25T10:00:00.000Z" None) = true.
Proof.
  apply (proj2 (sla_over_time Host.getTime 1735128000000 1735130000000
                  "2024-12-25T10:00:00.000Z" None)); [reflexivity | lia | reflexivity].
Defined.


(** ** Teams *)

Lemma existsb_eqb_In (n : string) (seen : list string) :
  existsb (String.eqb n) seen = true <-> In n seen.
Proof.
  rewrite existsb_exists. split.
  - intros (x & Hx & E). apply String.eqb_eq in E. now subst.
  - intros H. exists n. split; [exact H | apply String.eqb_refl].
Qed.

Lemma distinct_In (names : list string) :
  forall seen n, In n (Page.distinct seen names) <-> In n names /\ ~ In n seen.
Proof.
  induction names as [|x names IH]; intros seen n; cbn.
  - tauto.
  - destruct (existsb (String.eqb x) seen) eqn:E.
    + apply existsb_eqb_In in E. rewrite IH. split.
      * intros [H N]. split; [now right | exact N].
      * intros [[->|H] N]; [contradiction | now split].
    + assert (Nx : ~ In x seen).
      { intros H. apply existsb_eqb_In in H. congruence. }
      cbn. rewrite IH. cbn. split.
      * intros [->|[H N]]; [split; [now left | exact Nx]|].
        split; [now right | tauto].
      * intros [[->|H] N]; [now left|].
        destruct (String.eqb_spec x n) as [->|D]; [now left|].
        right. split; [exact H|]. intros [?|?]; [congruence | contradiction].
Qed.

Lemma distinct_NoDup (names : list string) :
  forall seen, NoDup (Page.distinct seen names).
Proof.
  induction names as [|x names IH]; intros seen; cbn; [constructor|].
  destruct (existsb (String.eqb x) seen); [apply IH|].
  constructor; [|apply IH].
  rewrite distinct_In. cbn. tauto.
Qed.

(** X22.  The team selector offers "Todos" and then every team of the
    leads once, a lead without team counting for "Geral".  "Todos" shows
    all the leads, and any other choice shows exactly the leads whose
    [time] is that name: a lead with a team is found under its team,
    while a lead without [time] is counted for "Geral" but not shown
    under it. *)
Theorem team_selector {number} (leads : list (Dashboard.Lead number)) :
  hd_error (Page.teams number leads) = Some "Todos"
  /\ NoDup (tl (Page.teams number leads))
  /\ (forall name, In name (tl (Page.teams number leads))
                   <-> exists l, In l leads /\ Page.teamOf number l = name)
  /\ Dashboard.filteredLeads number "Todos" leads = leads
  /\ (forall name l, name <> "Todos" ->
        (In l (Dashboard.filteredLeads number name leads)
         <-> In l leads /\ Dashboard.time number l = Some name))
  /\ (forall l, In l leads -> present (Dashboard.time number l) = true ->
        Page.teamOf number l <> "Todos" ->
        In l (Dashboard.filteredLeads number (Page.teamOf number l) leads))
  /\ (forall l, In l leads -> Dashboard.time number l = None ->
        In "Geral" (Page.teams number leads)
        /\ ~ In l (Dashboard.filteredLeads number "Geral" leads)).
Proof.
  assert (F : forall name l, name <> "Todos" ->
             (In l (Dashboard.filteredLeads number name leads)
              <-> In l leads /\ Dashboard.time number l = Some name)).
  { intros name l N. unfold Dashboard.filteredLeads.
    destruct (String.eqb_spec name "Todos") as [E|_]; [contradiction|].
    rewrite filter_In. split; intros [H T]; (split; [exact H|]).
    - destruct (Dashboard.time number l) as [t|]; [|discriminate].
      apply String.eqb_eq in T. now subst.
    - rewrite T. apply String.eqb_refl. }
  assert (T : forall name, In name (tl (Page.teams number leads))
                           <-> exists l, In l leads /\ Page.teamOf number l = name).
  { intros name. cbn [Page.teams tl]. rewrite distinct_In, in_map_iff. cbn.
    split; [intros [(l & E & H) _]; now exists l
           | intros (l & H & E); split; [now exists l | tauto]]. }
  split; [reflexivity|].
  split; [apply distinct_NoDup|].
  split; [exact T|].
  split; [reflexivity|].
  split; [exact F|].
  split.
  - intros l Hl P N. apply (F _ _ N). split; [exact Hl|].
    unfold Page.teamOf. now destruct (Dashboard.time number l) as [[|c r]|].
  - intros l Hl E. split.
    + right. apply T. exists l. split; [exact Hl|]. unfold Page.teamOf. now rewrite E.
    + intros H. apply F in H; [|discriminate]. destruct H as [_ H]. congruence.
Qed.

Lemma team_selector_witness :
  let lead := fun (n : string) (t : option string) =>
    {| Dashboard.id := All.IdStr Z n; Dashboard.nome := n; Dashboard.telefone := "";
       Dashboard.email := None; Dashboard.status := "Novo"; Dashboard.time := t;
       Dashboard.data_entrada := "2024-12-25T10:00:00.000Z";
       Dashboard.primeira_interacao := None;
       Dashboard.origem := None; Dashboard.tem_atendimento := None |} in
  In (lead "a" (Some "Vendas"))
     (Dashboard.filteredLeads Z "Vendas"
        [lead "a" (Some "Vendas"); lead "b" None; lead "c" (Some "Vendas")]).
Proof.
  intros lead.
  destruct (team_selector [lead "a" (Some "Vendas"); lead "b" None; lead "c" (Some "Vendas")])
    as (_ & _ & _ & _ & _ & H & _).
  apply (H (lead "a" (Some "Vendas"))); [now left | reflexivity | discriminate].
Defined.

(** ** The team statistics of the reports *)


Lemma fold_left_invariant {A B} (f : A -> B -> A) (P : A -> Prop) (l : list B) :
  (forall a b, P a -> P (f a b)) -> forall a, P a -> P (fold_left f l a).
Proof.
  intros H. induction l as [|b l IH]; intros a Ha; [exact Ha|].
  cbn. apply IH, H, Ha.
Qed.

Lemma filter_split_perm {A} (p : A -> bool) (l : list A) :
  Permutation (filter p l ++ filter (fun x => negb (p x)) l) l.
Proof.
  induction l as [|x l IH]; [constructor|].
  cbn. destruct (p x); cbn.
  - now constructor.
  - eapply perm_trans; [apply Permutation_sym, Permutation_middle|]. now constructor.
Qed.

Section TeamFacts.
Context {number : Type} (inherited : string -> bool).
Context (getTime : string -> option Z) (clock : nat -> Z).
Local Abbreviation Lead := (Relatorios.Lead number).
Local Abbreviation isIndex :=
  (fun s : Relatorios.TeamStats =>
     match Relatorios.arrayIndex (Relatorios.name s) with Some _ => true | None => false end).

Lemma insertIndex_perm (k : N) (s : Relatorios.TeamStats) (l : list (N * Relatorios.TeamStats)) :
  Permutation (Relatorios.insertIndex k s l) ((k, s) :: l).
Proof.
  induction l as [|[k' s'] l IH]; cbn; [apply Permutation_refl|].
  destruct (k <? k')%N; [apply Permutation_refl|].
  eapply perm_trans; [apply perm_skip, IH | apply perm_swap].
Qed.

Lemma indexed_perm (stats : list Relatorios.TeamStats) :
  Permutation (map snd (Relatorios.indexed stats)) (filter isIndex stats).
Proof.
  induction stats as [|s stats IH]; cbn; [constructor|].
  destruct (Relatorios.arrayIndex (Relatorios.name s)) as [k|]; [|exact IH].
  eapply perm_trans; [apply Permutation_map, insertIndex_perm|].
  cbn. now constructor.
Qed.

Lemma values_perm (stats : list Relatorios.TeamStats) :
  Permutation (Relatorios.values stats) stats.
Proof.
  unfold Relatorios.values.
  eapply perm_trans; [apply Permutation_app_tail, indexed_perm|].
  eapply perm_trans; [|apply (filter_split_perm isIndex)].
  apply Permutation_app_head.
  erewrite filter_ext; [apply Permutation_refl|].
  intros s. cbn. now destruct (Relatorios.arrayIndex _).
Qed.

Lemma insertByTotal_perm (x : Relatorios.TeamStats) (l : list Relatorios.TeamStats) :
  Permutation (Relatorios.insertByTotal x l) (x :: l).
Proof.
  induction l as [|y l IH]; cbn [Relatorios.insertByTotal]; [apply Permutation_refl|].
  destruct (Relatorios.total x <? Relatorios.total y)%nat; [|apply Permutation_refl].
  eapply perm_trans; [apply perm_skip, IH | apply perm_swap].
Qed.

Lemma sortByTotal_perm (l : list Relatorios.TeamStats) :
  Permutation (Relatorios.sortByTotal l) l.
Proof.
  induction l as [|x l IH]; cbn; [constructor|].
  eapply perm_trans; [apply insertByTotal_perm | now constructor].
Qed.

Local Abbreviation byTotal :=
  (fun a b : Relatorios.TeamStats => (Relatorios.total b <= Relatorios.total a)%nat).

Lemma insertByTotal_sorted (x : Relatorios.TeamStats) (l : list Relatorios.TeamStats) :
  StronglySorted byTotal l -> StronglySorted byTotal (Relatorios.insertByTotal x l).
Proof.
  induction 1 as [|y r Hr IH Hy]; cbn [Relatorios.insertByTotal]; [repeat constructor|].
  destruct (Nat.ltb_spec (Relatorios.total x) (Relatorios.total y)) as [Hlt|Hge].
  - constructor; [exact IH|].
    apply Forall_forall. intros z Hz.
    apply (Permutation_in _ (insertByTotal_perm x r)) in Hz.
    destruct Hz as [<-|Hz]; [lia|]. rewrite Forall_forall in Hy. now apply Hy.
  - constructor; [now constructor|].
    constructor; [exact Hge|].
    apply Forall_forall. intros z Hz. rewrite Forall_forall in Hy.
    specialize (Hy z Hz). cbn in Hy. lia.
Qed.

Lemma sortByTotal_sorted (l : list Relatorios.TeamStats) :
  StronglySorted byTotal (Relatorios.sortByTotal l).
Proof.
  induction l as [|x l IH]; cbn; [constructor | now apply insertByTotal_sorted].
Qed.

Lemma teamStats_perm (leads : list Lead) :
  Permutation (Relatorios.teamStats number inherited getTime clock leads)
    (fold_left (Relatorios.visit number inherited getTime clock)
       (Relatorios.turns number leads) []).
Proof.
  unfold Relatorios.teamStats.
  eapply perm_trans; [apply sortByTotal_perm | apply values_perm].
Qed.

Local Abbreviation sound :=
  (fun s : Relatorios.TeamStats =>
     (1 <= Relatorios.total s)%nat
     /\ (Relatorios.slasCritical s <= Relatorios.total s)%nat
     /\ (Relatorios.agendamentos s <= Relatorios.total s)%nat).

Lemma count_sound (team : string) (late ag : bool) (stats : list Relatorios.TeamStats) :
  Forall sound stats -> Forall sound (Relatorios.count team late ag stats).
Proof.
  induction 1 as [|s stats Hs Hr IH]; cbn.
  - constructor; [|constructor]. cbn. destruct late, ag; lia.
  - destruct (String.eqb _ _).
    + constructor; [|exact Hr]. cbn. destruct Hs as (? & ? & ?). destruct late, ag; lia.
    + now constructor.
Qed.

Lemma count_names (team : string) (late ag : bool) (stats : list Relatorios.TeamStats) :
  map Relatorios.name (Relatorios.count team late ag stats)
  = if existsb (fun s => String.eqb (Relatorios.name s) team) stats
    then map Relatorios.name stats
    else (map Relatorios.name stats ++ [team])%list.
Proof.
  induction stats as [|s stats IH]; cbn; [reflexivity|].
  destruct (String.eqb (Relatorios.name s) team); cbn; [reflexivity|].
  rewrite IH. now destruct (existsb _ stats).
Qed.

Lemma count_NoDup (team : string) (late ag : bool) (stats : list Relatorios.TeamStats) :
  NoDup (map Relatorios.name stats) ->
  NoDup (map Relatorios.name (Relatorios.count team late ag stats)).
Proof.
  intros H. rewrite count_names.
  destruct (existsb _ stats) eqn:E; [exact H|].
  apply NoDup_app; [exact H | repeat constructor; intros [] |].
  intros n Hn [<-|[]].
  apply in_map_iff in Hn as (s & Es & Hs).
  assert (X : existsb (fun s => String.eqb (Relatorios.name s) team) stats = true).
  { apply existsb_exists. exists s. split; [exact Hs|]. rewrite Es. apply String.eqb_refl. }
  congruence.
Qed.



Lemma visits_sound (ts : list (nat * Lead)) :
  let final := fold_left (Relatorios.visit number inherited getTime clock) ts [] in
  Forall sound final /\ NoDup (map Relatorios.name final).
Proof.
  apply (fold_left_invariant _
           (fun st => Forall sound st /\ NoDup (map Relatorios.name st))).
  - intros st [i lead] [H1 H2]. cbn.
    destruct (inherited _); [now split|].
    split; [now apply count_sound | now apply count_NoDup].
  - split; constructor.
Qed.

Lemma turns_length (leads : list Lead) :
  length (Relatorios.turns number leads) = length leads.
Proof. unfold Relatorios.turns. rewrite length_combine, length_seq. lia. Qed.

Lemma turns_snd (leads : list Lead) :
  map snd (Relatorios.turns number leads) = leads.
Proof.
  unfold Relatorios.turns. generalize 0%nat.
  induction leads as [|l leads IH]; intros n; [reflexivity|].
  cbn. now rewrite IH.
Qed.



End TeamFacts.

(** X23.  In the team statistics every team has one row, with at least
    one lead, no more critical SLAs than leads and no more scheduled
    visits than leads, and the rows come with the largest team first. *)
Theorem team_rows {number} (inherited : string -> bool) (getTime : string -> option Z)
  (clock : nat -> Z) (leads : list (Relatorios.Lead number)) :
  let rows := Relatorios.teamStats number inherited getTime clock leads in
  NoDup (map Relatorios.name rows)
  /\ Forall (fun s => (1 <= Relatorios.total s)%nat
                      /\ (Relatorios.slasCritical s <= Relatorios.total s)%nat
                      /\ (Relatorios.agendamentos s <= Relatorios.total s)%nat) rows
  /\ StronglySorted (fun a b => (Relatorios.total b <= Relatorios.total a)%nat) rows.
Proof.
  intros rows.
  destruct (visits_sound inherited getTime clock (Relatorios.turns number leads)) as [S N].
  pose proof (teamStats_perm inherited getTime clock leads) as P. fold rows in P.
  split; [|split].
  - apply (Permutation_NoDup (Permutation_sym (Permutation_map Relatorios.name P)) N).
  - apply (Permutation_Forall (Permutation_sym P) S).
  - apply sortByTotal_sorted.
Qed.



Section RowFacts.
Context {number : Type} (inherited : string -> bool).
Context (getTime : string -> option Z) (clock : nat -> Z).
Local Abbreviation Lead := (Relatorios.Lead number).

(** The row of a team among the own properties of [stats]. *)
Local Abbreviation row :=
  (fun (stats : list Relatorios.TeamStats) (team : string) =>
     find (fun s => String.eqb (Relatorios.name s) team) stats).

Local Abbreviation tally :=
  (fun (f : Relatorios.TeamStats -> nat) (stats : list Relatorios.TeamStats) (team : string) =>
     match row stats team with
     | Some s => f s
     | None => 0%nat
     end).

Lemma count_row (team team' : string) (late ag : bool) (stats : list Relatorios.TeamStats) :
  tally Relatorios.total (Relatorios.count team late ag stats) team'
    = ((if String.eqb team team' then 1 else 0) + tally Relatorios.total stats team')%nat
  /\ tally Relatorios.agendamentos (Relatorios.count team late ag stats) team'
    = ((if String.eqb team team' && ag then 1 else 0)
       + tally Relatorios.agendamentos stats team')%nat.
Proof.
  induction stats as [|s stats IH]; cbn [Relatorios.count find].
  - cbn. destruct (String.eqb team team'), ag; cbn; split; reflexivity.
  - destruct (String.eqb_spec (Relatorios.name s) team) as [E|N].
    + cbn [find Relatorios.bumped Relatorios.name]. rewrite E.
      destruct (String.eqb_spec team team') as [E'|N'].
      * cbn. destruct ag; split; reflexivity.
      * cbn. split; reflexivity.
    + cbn [find].
      destruct (String.eqb_spec (Relatorios.name s) team') as [E'|N'].
      * destruct (String.eqb_spec team team') as [E''|_]; [congruence|].
        split; reflexivity.
      * exact IH.
Qed.

Local Abbreviation of_team :=
  (fun (team : string) (l : Lead) =>
     negb (inherited (Relatorios.teamName number l))
     && String.eqb (Relatorios.teamName number l) team).

Lemma visits_rows (ts : list (nat * Lead)) :
  forall stats team,
  let final := fold_left (Relatorios.visit number inherited getTime clock) ts stats in
  tally Relatorios.total final team
    = (length (filter (of_team team) (map snd ts)) + tally Relatorios.total stats team)%nat
  /\ tally Relatorios.agendamentos final team
    = (length (filter (fun l => of_team team l && Relatorios.isAgendamento number l)
                 (map snd ts))
       + tally Relatorios.agendamentos stats team)%nat.
Proof.
  induction ts as [|[i lead] ts IH]; intros stats team; cbn [fold_left map filter].
  - split; reflexivity.
  - destruct (IH (Relatorios.visit number inherited getTime clock stats (i, lead)) team)
      as [IH1 IH2].
    cbn zeta. rewrite IH1, IH2. clear IH IH1 IH2.
    cbn [Relatorios.visit snd].
    destruct (inherited (Relatorios.teamName number lead)); cbn [negb andb].
    + split; reflexivity.
    + destruct (count_row (Relatorios.teamName number lead) team
                  (Relatorios.isLateAt number getTime clock i lead)
                  (Relatorios.isAgendamento number lead) stats) as [-> ->].
      destruct (String.eqb (Relatorios.teamName number lead) team),
               (Relatorios.isAgendamento number lead); cbn; split; lia.
Qed.

Lemma visits_own (ts : list (nat * Lead)) :
  Forall (fun s => inherited (Relatorios.name s) = false)
    (fold_left (Relatorios.visit number inherited getTime clock) ts []).
Proof.
  apply (fold_left_invariant _
           (Forall (fun s => inherited (Relatorios.name s) = false))); [|constructor].
  intros st [i lead] H. cbn.
  destruct (inherited (Relatorios.teamName number lead)) eqn:E; [exact H|].
  induction H as [|s st Hs Hr IH]; cbn.
  - constructor; [exact E | constructor].
  - destruct (String.eqb _ _); constructor; assumption.
Qed.

Lemma row_In (stats : list Relatorios.TeamStats) (s : Relatorios.TeamStats) :
  NoDup (map Relatorios.name stats) -> In s stats ->
  row stats (Relatorios.name s) = Some s.
Proof.
  induction stats as [|s0 stats IH]; intros N H; [destruct H|].
  cbn in N. inversion N as [|? ? Hn Hr]; subst. cbn [find].
  destruct H as [->|H]; [now rewrite String.eqb_refl|].
  destruct (String.eqb_spec (Relatorios.name s0) (Relatorios.name s)) as [E|_].
  - destruct Hn. rewrite E. now apply in_map.
  - now apply IH.
Qed.

End RowFacts.

(** X25.  Each row of the team statistics counts its own team: [total]
    is the number of leads of the team (the leads without [time] being
    those of "Geral") and [agendamentos] the number of them whose status
    names a visit or a scheduling; and every lead whose team has no
    inherited name belongs to a row. *)
Theorem team_row_counts {number} (inherited : string -> bool)
  (getTime : string -> option Z) (clock : nat -> Z)
  (leads : list (Relatorios.Lead number)) :
  let rows := Relatorios.teamStats number inherited getTime clock leads in
  (forall s, In s rows ->
     Relatorios.total s
       = length (filter (fun l => String.eqb (Relatorios.teamName number l)
                                    (Relatorios.name s)) leads)
     /\ Relatorios.agendamentos s
       = length (filter (fun l => String.eqb (Relatorios.teamName number l)
                                    (Relatorios.name s)
                                  && Relatorios.isAgendamento number l) leads))
  /\ (forall l, In l leads -> inherited (Relatorios.teamName number l) = false ->
        exists s, In s rows /\ Relatorios.name s = Relatorios.teamName number l).
Proof.
  intros rows.
  pose proof (teamStats_perm inherited getTime clock leads) as P. fold rows in P.
  destruct (visits_sound inherited getTime clock (Relatorios.turns number leads)) as [_ N].
  pose proof (visits_own inherited getTime clock (Relatorios.turns number leads)) as O.
  pose proof (fun team => visits_rows inherited getTime clock
                            (Relatorios.turns number leads) [] team) as R.
  cbn zeta in R. rewrite turns_snd in R.
  split.
  - intros s Hs. apply (Permutation_in _ P) in Hs.
    destruct (R (Relatorios.name s)) as [R1 R2].
    rewrite (row_In _ s N Hs) in R1, R2. cbn [find] in R1, R2.
    rewrite Nat.add_0_r in R1, R2. rewrite R1, R2.
    rewrite Forall_forall in O. specialize (O s Hs).
    split; f_equal; apply filter_ext_in; intros l _;
      destruct (String.eqb_spec (Relatorios.teamName number l) (Relatorios.name s)) as [E|_];
      rewrite ?andb_false_r; try reflexivity; now rewrite E, O.
  - intros l Hl Hi.
    destruct (R (Relatorios.teamName number l)) as [R1 _].
    cbn [find] in R1. rewrite Nat.add_0_r in R1.
    assert (Pos : (1 <= length (filter (fun l0 =>
                     negb (inherited (Relatorios.teamName number l0))
                     && String.eqb (Relatorios.teamName number l0)
                          (Relatorios.teamName number l)) leads))%nat).
    { clear - Hl Hi. induction leads as [|x leads IH]; [destruct Hl|].
      cbn. destruct Hl as [->|Hl].
      - rewrite Hi, String.eqb_refl. cbn. lia.
      - destruct (_ && _); cbn; [lia | now apply IH]. }
    destruct (find _ _) as [s|] eqn:F; [|lia].
    apply find_some in F as [Hs E]. apply String.eqb_eq in E.
    exists s. split; [|exact E].
    apply (Permutation_in _ (Permutation_sym P) Hs).
Qed.

Lemma team_row_counts_witness :
  let lead := fun (t : option string) (s : string) =>
    {| Relatorios.id := All.IdStr Z s; Relatorios.nome := s; Relatorios.telefone := "";
       Relatorios.email := None; Relatorios.status := s; Relatorios.time := t;
       Relatorios.data_entrada := "2024-12-25T10:00:00.000Z";
       Relatorios.primeira_interacao := None;
       Relatorios.origem := None; Relatorios._raw := None |} in
  let leads := [lead (Some "Vendas") "Novo"; lead None "Visita agendada";
                lead (Some "Vendas") "Novo"] in
  exists s,
    In s (Relatorios.teamStats Z (fun _ => false) Host.getTime
            (fun _ => 1735128000000%Z) leads)
    /\ Relatorios.name s = "Geral" /\ Relatorios.total s = 1%nat
    /\ Relatorios.agendamentos s = 1%nat.
Proof.
  intros lead leads.
  destruct (team_row_counts (fun _ => false) Host.getTime (fun _ => 1735128000000%Z) leads)
    as [C E].
  destruct (E (lead None "Visita agendada") (or_intror (or_introl eq_refl)) eq_refl)
    as (s & Hs & Hn).
  destruct (C s Hs) as [T A]. rewrite Hn in T, A.
  exists s. exact (conj Hs (conj Hn (conj T A))).
Defined.
